(** * SaaS-RAG-chatbot: the front end's request handlers, and the
      per-project vector store of the specification

    The development embeds the handlers of the Next.js front end
    ([rag_frontend/lib/config.ts], the two chat pages, the upload page and
    the dashboard layout) as functions from the component state and the
    observable outcomes of the browser (stored token, clock readings, how
    the fetch settles) to the new state and the trace of effects performed,
    and proves the properties of the specification against them. *)

From Stdlib Require Import ZArith NArith List String Ascii Bool Lia DecimalString.
From Stdlib Require DecimalPos DecimalZ.
From stdpp Require Import base option list gmap.
Import ListNotations.

Local Open Scope Z_scope.

(* ===================================================================== *)
(** * JavaScript strings *)
(* ===================================================================== *)

(** A JavaScript string is a sequence of UTF-16 code units. *)
Abbreviation jsstring := (list N).

(** A string literal of the source (all of them are ASCII). *)
Fixpoint lit (s : string) : jsstring :=
  match s with
  | EmptyString => []
  | String a r => N_of_ascii a :: lit r
  end.

Arguments lit : simpl never.

(** [WhiteSpace] and [LineTerminator] of ECMAScript, the code units that
    [String.prototype.trim] strips. *)
Definition isWhiteSpace (c : N) : bool :=
  ((9 <=? c) && (c <=? 13) || (c =? 32) || (c =? 160) || (c =? 5760)
   || (8192 <=? c) && (c <=? 8202) || (c =? 8232) || (c =? 8233)
   || (c =? 8239) || (c =? 8287) || (c =? 12288) || (c =? 65279))%N.

Fixpoint trimStart (s : jsstring) : jsstring :=
  match s with
  | c :: r => if isWhiteSpace c then trimStart r else s
  | [] => []
  end.

Definition trimEnd (s : jsstring) : jsstring := rev (trimStart (rev s)).

(** [s.trim()] *)
Definition trim (s : jsstring) : jsstring := trimEnd (trimStart s).

(** [!s] on a string: only the empty string is falsy. *)
Definition isEmpty (s : jsstring) : bool :=
  match s with [] => true | _ => false end.

Fixpoint startsWith (s pat : jsstring) : bool :=
  match pat, s with
  | [], _ => true
  | p :: pat', c :: s' => (p =? c)%N && startsWith s' pat'
  | _ :: _, [] => false
  end.

(** [s.includes(pat)] *)
Fixpoint includes (s pat : jsstring) : bool :=
  startsWith s pat ||
  match s with
  | [] => false
  | _ :: r => includes r pat
  end.

(** [s.split(sep)] for a separator of one code unit. *)
Fixpoint split (sep : N) (s : jsstring) : list jsstring :=
  match s with
  | [] => [[]]
  | c :: r =>
      if (c =? sep)%N then [] :: split sep r
      else match split sep r with
           | seg :: segs => (c :: seg) :: segs
           | [] => [[c]]
           end
  end.

(** [xs.indexOf(x)]: the first index holding [x], or -1. *)
Fixpoint indexOf (xs : list jsstring) (x : jsstring) : Z :=
  match xs with
  | [] => -1
  | y :: r =>
      if decide (y = x) then 0
      else let i := indexOf r x in if i <? 0 then -1 else i + 1
  end.

(** The conversion to a [USVString] that [FormData.append] applies to a
    string value: a high surrogate followed by a low surrogate is a pair and
    is kept, any other surrogate code unit becomes U+FFFD. *)
Definition isHighSurrogate (c : N) : bool := ((55296 <=? c) && (c <=? 56319))%N.
Definition isLowSurrogate (c : N) : bool := ((56320 <=? c) && (c <=? 57343))%N.

Fixpoint toUSVString (s : jsstring) : jsstring :=
  match s with
  | [] => []
  | c :: r =>
      if isHighSurrogate c then
        match r with
        | d :: r' =>
            if isLowSurrogate d then c :: d :: toUSVString r'
            else 65533%N :: toUSVString r
        | [] => [65533%N]
        end
      else if isLowSurrogate c then 65533%N :: toUSVString r
      else c :: toUSVString r
  end.

(** The decimal rendering of an integer, as [String(n)] and template
    literals give it for the integers met here (clock readings, status
    codes, array indices). *)
Definition decimal (z : Z) : jsstring := lit (NilZero.string_of_int (Z.to_int z)).

Arguments decimal : simpl never.

(* ===================================================================== *)
(** * The host: what the JavaScript engine and the build provide *)
(* ===================================================================== *)

(** The front end relies on a few primitives that are not part of the
    repository: IEEE numbers, the [Date] object, the messages of engine
    errors and the build-time environment.  They are parameters of the
    whole development. *)
Class Host := {
  (** the values of type [number] *)
  number : Type;
  (** a number is truthy unless it is a zero or NaN *)
  number_truthy : number -> bool;
  (** [String(n)] *)
  number_toString : number -> jsstring;
  (** the time value of [new Date(s)], [None] for an Invalid Date *)
  Date_parse : jsstring -> option Z;
  (** [new Date(t).toISOString()] for a valid time value [t] *)
  toISOString : Z -> jsstring;
  (** the message of the TypeError raised by reading a property of [null] *)
  nullPropertyMessage : jsstring -> jsstring;
  (** the message of the RangeError raised by [toISOString] on an Invalid
      Date *)
  invalidTimeMessage : jsstring;
  (** the message of the TypeError raised when an object cannot be
      converted to a primitive value *)
  notPrimitiveMessage : jsstring;
  (** [process.env.NEXT_PUBLIC_API_URL] *)
  NEXT_PUBLIC_API_URL : option jsstring;
}.

(* ===================================================================== *)
(** * Values, exceptions and effects *)
(* ===================================================================== *)

Section Runtime.
Context `{Host}.

(** The values a parsed JSON body is made of, and [undefined], the result
    of reading a property that is absent.  An object is the list of its
    properties. *)
#[warnings="-register-all"]
Inductive JValue : Type :=
  | JUndefined
  | JNull
  | JBool (b : bool)
  | JNum (n : number)
  | JStr (s : jsstring)
  | JArr (items : list JValue)
  | JObj (props : list (jsstring * JValue)).

(** [ToBoolean] *)
Definition truthy (v : JValue) : bool :=
  match v with
  | JUndefined | JNull => false
  | JBool b => b
  | JNum n => number_truthy n
  | JStr s => negb (isEmpty s)
  | JArr _ | JObj _ => true
  end.

(** [a || b] *)
Definition or_else (a b : JValue) : JValue := if truthy a then a else b.

(** [typeof v === "string"] *)
Definition isString (v : JValue) : bool :=
  match v with JStr _ => true | _ => false end.

(** What a [throw] carries: an [Error] object with its message, or any
    other value ([error instanceof Error] tells them apart). *)
Inductive Thrown : Type :=
  | ErrorObject (message : jsstring)
  | OtherThrown (v : JValue).

(** [Object.hasOwn(o, k)] on the properties of a parsed object. *)
Definition hasOwn (k : jsstring) (props : list (jsstring * JValue)) : bool :=
  existsb (fun kv => bool_decide (fst kv = k)) props.

(** [ToString], as [new Error(v)] applies it to its argument.  An array is
    joined by [Array.prototype.toString].  An object goes through
    [OrdinaryToPrimitive]: it reads [toString], which is
    [Object.prototype.toString] unless the object has a property of that
    name of its own; a parsed value is never callable, so such a property
    is skipped, [valueOf] cannot give a primitive either, and the
    conversion throws a TypeError. *)
Fixpoint ToString (v : JValue) : Thrown + jsstring :=
  match v with
  | JUndefined => inr (lit "undefined")
  | JNull => inr (lit "null")
  | JBool true => inr (lit "true")
  | JBool false => inr (lit "false")
  | JNum n => inr (number_toString n)
  | JStr s => inr s
  | JArr items =>
      (fix join (xs : list JValue) : Thrown + jsstring :=
         match xs with
         | [] => inr []
         | x :: rest =>
             match (match x with
                    | JUndefined | JNull => inr []
                    | _ => ToString x
                    end) with
             | inl e => inl e
             | inr here =>
                 match rest with
                 | [] => inr here
                 | _ :: _ =>
                     match join rest with
                     | inl e => inl e
                     | inr more => inr (here ++ lit "," ++ more)
                     end
                 end
             end
         end) items
  | JObj props =>
      if hasOwn (lit "toString") props
      then inl (ErrorObject notPrimitiveMessage)
      else inr (lit "[object Object]")
  end.

(** The value of [new Error(v)], or what evaluating it throws: either way
    it is what [throw new Error(v)] throws. *)
Definition new_Error (v : JValue) : Thrown :=
  match ToString v with
  | inr message => ErrorObject message
  | inl e => e
  end.

Fixpoint assoc (k : jsstring) (props : list (jsstring * JValue)) : JValue :=
  match props with
  | [] => JUndefined
  | (k', v) :: r => if decide (k' = k) then v else assoc k r
  end.

(** [v.k] for the property names the front end reads, none of which is
    defined on the prototypes of strings, numbers, booleans and arrays:
    only an object can hold them, and [null] raises a TypeError. *)
Definition getProp (v : JValue) (k : jsstring) : Thrown + JValue :=
  match v with
  | JUndefined | JNull => inl (ErrorObject (nullPropertyMessage k))
  | JObj props => inr (assoc k props)
  | _ => inr JUndefined
  end.

(** ** Requests *)

Record File := {
  file_name : jsstring;
  file_type : jsstring;
  file_bytes : list N;
}.

(** A value of a [FormData] entry. *)
Inductive FormValue : Type :=
  | FormText (s : jsstring)
  | FormFile (f : File).

Record Request := {
  url : jsstring;
  method : option jsstring;
  headers : list (jsstring * jsstring);
  body : option (list (jsstring * FormValue));
}.

(** A response whose body parses ([response.json()]) to a value of type
    [A], or fails to. *)
Record Response (A : Type) := {
  status : Z;
  json : Thrown + A;
}.
Arguments status {A} _.
Arguments json {A} _.

(** [response.ok]: the status is in the range 200-299. *)
Definition ok {A} (r : Response A) : bool :=
  (200 <=? status r) && (status r <=? 299).

(** How a [fetch] settles. *)
Inductive FetchOutcome (A : Type) : Type :=
  | Rejected (e : Thrown)
  | Resolved (r : Response A).
Arguments Rejected {A} e.
Arguments Resolved {A} r.

(** ** Effects *)

Record ToastArgs := {
  title : jsstring;
  description : JValue;
  variant : option jsstring;
}.

Inductive Level := Log | Warn | Err.

(** What a handler does to the world outside its component, in order.
    [Console] keeps the level and the label, the first argument of the
    call. *)
Inductive Effect : Type :=
  | PreventDefault
  | RouterPush (path : jsstring)
  | Fetch (req : Request)
  | Toast (t : ToastArgs)
  | RemoveItem (key : jsstring)
  | Console (lvl : Level) (label : jsstring)
  | SetTimeout (ms : Z)
  | ClearTimeout.

(** The requests of a trace, in the order they are sent. *)
Definition requests (tr : list Effect) : list Request :=
  omap (fun e => match e with Fetch r => Some r | _ => None end) tr.

(** A computation that performs effects and returns a value or throws. *)
Definition Run (A : Type) : Type := list Effect * (Thrown + A).

Definition ret {A} (a : A) : Run A := ([], inr a).
Definition throw {A} (e : Thrown) : Run A := ([], inl e).
Definition emit (e : Effect) : Run unit := ([e], inr tt).
Definition lift {A} (r : Thrown + A) : Run A := ([], r).

Definition bind {A B} (m : Run A) (k : A -> Run B) : Run B :=
  match m with
  | (tr, inl e) => (tr, inl e)
  | (tr, inr a) => let '(tr', r) := k a in (tr ++ tr', r)
  end.

(** [localStorage.getItem("token")] followed by the test [!token]: a
    missing item ([null]) and the empty string are both falsy. *)
Definition usable (token : option jsstring) : option jsstring :=
  match token with
  | Some (c :: s) => Some (c :: s)
  | _ => None
  end.

(** [`Bearer ${token}`] *)
Definition bearer (token : jsstring) : jsstring := lit "Bearer " ++ token.

End Runtime.

Arguments status {_ A} _.
Arguments json {_ A} _.
Arguments Build_Response {_ A} _ _.
Arguments Rejected {_ A} e.
Arguments Resolved {_ A} r.

Notation "'let*' x ':=' m 'in' k" := (bind m (fun x => k))
  (at level 10, x pattern, m at level 100, k at level 200).

(* ===================================================================== *)
(** * [lib/config.ts] *)
(* ===================================================================== *)

Module Config.
Section Config.
Context `{Host}.

(** [process.env.NEXT_PUBLIC_API_URL || "http://localhost:8000"] *)
Definition API_URL : jsstring :=
  match NEXT_PUBLIC_API_URL with
  | Some (c :: s) => c :: s
  | _ => lit "http://localhost:8000"
  end.

(** The part of [window] the front end reads; there is no [window] when
    the code runs on the server. *)
Record Window := {
  hostname : jsstring;
  pathname : jsstring;
}.

(** [typeof window !== "undefined"] *)
Definition isBrowser (window : option Window) : bool :=
  match window with Some _ => true | None => false end.

Definition isPreviewEnvironment (window : option Window) : bool :=
  match window with
  | None => false
  | Some win =>
      let isVercelPreview :=
        includes (hostname win) (lit "vercel.app")
        || includes (hostname win) (lit "localhost")
        || includes (hostname win) (lit "127.0.0.1") in
      isVercelPreview
  end.

(** The request of [isApiReachable]; its [signal] is the controller's,
    which the timer aborts. *)
Definition probe : Request := {|
  url := API_URL;
  method := Some (lit "GET");
  headers := [(lit "Cache-Control", lit "no-cache, no-store, must-revalidate");
              (lit "Pragma", lit "no-cache");
              (lit "Expires", lit "0")];
  body := None;
|}.

(** How the probe settles: the response arrives before the timer fires,
    or the timer fires first and aborts the request (the fetch rejects
    with an AbortError), or the fetch fails on its own. *)
Inductive ProbeOutcome : Type :=
  | Completed (r : Response JValue)
  | Aborted (e : Thrown)
  | Failed (e : Thrown).

Definition isApiReachable (window : option Window) (o : ProbeOutcome)
  : Run bool :=
  if negb (isBrowser window) then ret false
  else if isPreviewEnvironment window then ret false
  else
    let attempt : Run bool :=
      let* _ := emit (SetTimeout 3000) in
      let* _ := emit (Fetch probe) in
      let* response :=
        lift (match o with
              | Completed r => inr r
              | Aborted e | Failed e => inl e
              end) in
      let* _ := emit ClearTimeout in
      ret (ok response) in
    match attempt with
    | (tr, inr b) => (tr, inr b)
    | (tr, inl _) =>
        (tr ++ (if negb (isPreviewEnvironment window)
                then [Console Warn (lit "API not reachable:")]
                else []),
         inr false)
    end.

End Config.
End Config.

(* ===================================================================== *)
(** * The chat pages *)
(* ===================================================================== *)

Inductive Role := user | assistant.

(** [interface Message].  The content is declared a string; the content
    of an assistant message is whatever value the handler found in the
    response, which the compiler does not check ([data] is [any]). *)
Record Message `{Host} := {
  msg_id : jsstring;
  msg_role : Role;
  msg_content : JValue;
  msg_timestamp : jsstring;
}.

(** What a handler observes of the browser during one run. *)
Record World `{Host} (A : Type) := {
  (** [localStorage.getItem("token")] *)
  token : option jsstring;
  (** the successive readings of the clock ([Date.now()], [new Date()]) *)
  clock : nat -> Z;
  (** how the request of the run settles *)
  settles : FetchOutcome A;
}.
Arguments token {_ A} _.
Arguments clock {_ A} _.
Arguments settles {_ A} _.

(** [await fetch(...)] *)
Definition await `{Host} {A} (o : FetchOutcome A) : Thrown + Response A :=
  match o with
  | Rejected e => inl e
  | Resolved r => inr r
  end.

(** [error instanceof Error ? error.message : fallback] *)
Definition messageOr `{Host} (e : Thrown) (fallback : jsstring) : jsstring :=
  match e with
  | ErrorObject m => m
  | OtherThrown _ => fallback
  end.

(** [interface ChatHistoryItem] *)
Record ChatHistoryItem := {
  user_query : jsstring;
  chatbot_answer : jsstring;
}.

(** [id?: string | number] *)
Inductive ChatId `{Host} : Type :=
  | IdString (s : jsstring)
  | IdNumber (n : number).

(** [interface Chat] of the dashboard layout, of which [interface
    ChatData] of the conversation page is the part without [id] and
    [last_message]: an element of the list that [/get_chats] returns.
    [other] holds the properties admitted by the index signature. *)
Record Chat `{Host} := {
  chat_id : option ChatId;
  project_name : jsstring;
  vector_id : jsstring;
  chat_history : list ChatHistoryItem;
  chat_timestamp : jsstring;
  last_message : option jsstring;
  other : list (jsstring * JValue);
}.

(** The parsed body of a response of [/get_chats], as far as the front
    end inspects it: [null]; an object, with its [chats] property when
    that is an array; an array; or a string, number or boolean. *)
Inductive ChatsBody `{Host} : Type :=
  | BodyNull
  | BodyObject (chats : option (list Chat))
  | BodyArray (items : list Chat)
  | BodyScalar.

Module ChatCore.
Section ChatCore.
Context `{Host}.

(** The three [useState] cells of a chat page. *)
Record State := {
  messages : list Message;
  input : jsstring;
  isLoading : bool;
}.

Definition placeholder : jsstring :=
  lit "I couldn't find an answer to that question.".

Definition apology : jsstring :=
  lit "Sorry, I encountered an error processing your request.".

(** "Check different possible response formats" *)
Definition responseText (data : JValue) : Run JValue :=
  let* chatbot_answer := lift (getProp data (lit "chatbot_answer")) in
  if truthy chatbot_answer then ret chatbot_answer else
  let* response := lift (getProp data (lit "response")) in
  if truthy response then ret response else
  let* answer := lift (getProp data (lit "answer")) in
  if truthy answer then ret answer else
  let* text := lift (getProp data (lit "text")) in
  if truthy text then ret text else
  if isString data then ret data else
  ret (JStr placeholder).

(** The request to [/chat]; [fields] is the form data. *)
Definition chatRequest (tok : jsstring) (fields : list (jsstring * FormValue))
  : Request := {|
  url := Config.API_URL ++ lit "/chat";
  method := Some (lit "POST");
  headers := [(lit "Authorization", bearer tok)];
  body := Some fields;
|}.

(** The body of the [try] block: [None] is the early [return] after the
    redirect, [Some m] the assistant message to append. *)
Definition attempt (fields : list (jsstring * FormValue)) (w : World JValue)
  : Run (option Message) :=
  match usable (token w) with
  | None =>
      let* _ := emit (RouterPush (lit "/login")) in
      ret None
  | Some tok =>
      let* _ := emit (Fetch (chatRequest tok fields)) in
      let* response := lift (await (settles w)) in
      if negb (ok response) then
        let* errorData := lift (json response) in
        let* detail := lift (getProp errorData (lit "detail")) in
        throw (new_Error (or_else detail (JStr (lit "Failed to get response"))))
      else
        let* data := lift (json response) in
        let* _ := emit (Console Log (lit "Backend response:")) in
        let* text := responseText data in
        ret (Some {| msg_id := decimal (clock w 2);
                     msg_role := assistant;
                     msg_content := text;
                     msg_timestamp := toISOString (clock w 3) |})
  end.

(** [handleSubmit], for the form data [fields input] of the page. *)
Definition submit (fields : jsstring -> list (jsstring * FormValue))
    (st : State) (w : World JValue) : State * list Effect :=
  if isEmpty (trim (input st)) then (st, [PreventDefault])
  else
    let userMessage := {| msg_id := decimal (clock w 0);
                          msg_role := user;
                          msg_content := JStr (input st);
                          msg_timestamp := toISOString (clock w 1) |} in
    let sent := messages st ++ [userMessage] in
    match attempt (fields (input st)) w with
    | (tr, inr None) =>
        ({| messages := sent; input := []; isLoading := false |},
         PreventDefault :: tr)
    | (tr, inr (Some assistantMessage)) =>
        ({| messages := sent ++ [assistantMessage]; input := [];
            isLoading := false |},
         PreventDefault :: tr)
    | (tr, inl e) =>
        let errorMessage := {| msg_id := decimal (clock w 2);
                               msg_role := assistant;
                               msg_content := JStr apology;
                               msg_timestamp := toISOString (clock w 3) |} in
        ({| messages := sent ++ [errorMessage]; input := [];
            isLoading := false |},
         PreventDefault :: tr ++
           [Toast {| title := lit "Error";
                     description := JStr (messageOr e (lit "Failed to get a response"));
                     variant := Some (lit "destructive") |}])
    end.

End ChatCore.
End ChatCore.

(** ** [app/dashboard/chat/[project]/page.tsx] *)

Module ChatPage.
Section ChatPage.
Context `{Host}.

(** [formData.append] converts each string value to a [USVString]. *)
Definition formData (project input : jsstring) : list (jsstring * FormValue) :=
  [(lit "user_query", FormText (toUSVString input));
   (lit "project_name", FormText (toUSVString project))].

Definition handleSubmit (project : jsstring) (st : ChatCore.State)
    (w : World JValue) : ChatCore.State * list Effect :=
  ChatCore.submit (formData project) st w.

End ChatPage.
End ChatPage.

(** ** [app/dashboard/chat/[project]/[id]/page.tsx] *)

Module ChatDetailPage.
Section ChatDetailPage.
Context `{Host}.

Record State := {
  chat : ChatCore.State;
  isInitialLoading : bool;
}.

Definition welcome (project : jsstring) (now : Z) : Message := {|
  msg_id := lit "welcome";
  msg_role := assistant;
  msg_content :=
    JStr (lit "Welcome to the " ++ project
          ++ lit " project! Ask me anything about your documents.");
  msg_timestamp := toISOString now;
|}.

Definition historyRequest (tok : jsstring) : Request := {|
  url := Config.API_URL ++ lit "/get_chats";
  method := None;
  headers := [(lit "Authorization", bearer tok)];
  body := None;
|}.

(** [new Date(chatData?.timestamp || Date.now()).toISOString()], where
    [k] is the number of clock readings made so far. *)
Definition stamp (chatData : Chat) (clock : nat -> Z) (k : nat) : Run jsstring :=
  if isEmpty (chat_timestamp chatData) then ret (toISOString (clock k))
  else match Date_parse (chat_timestamp chatData) with
       | Some t => ret (toISOString t)
       | None => throw (ErrorObject invalidTimeMessage)
       end.

(** The [forEach] over [chat_history], from index [index] on. *)
Fixpoint convert (chatData : Chat) (clock : nat -> Z)
    (items : list ChatHistoryItem) (index : nat) : Run (list Message) :=
  match items with
  | [] => ret []
  | item :: rest =>
      let* asked := stamp chatData clock (2 * index) in
      let* answered := stamp chatData clock (2 * index + 1) in
      let* more := convert chatData clock rest (S index) in
      ret ({| msg_id := lit "user-" ++ decimal (Z.of_nat index);
              msg_role := user;
              msg_content := JStr (user_query item);
              msg_timestamp := asked |}
           :: {| msg_id := lit "assistant-" ++ decimal (Z.of_nat index);
                 msg_role := assistant;
                 msg_content := JStr (chatbot_answer item);
                 msg_timestamp := answered |}
           :: more)
  end.

(** [data.chats.find((chat) => chat.vector_id === id)] *)
Definition findChat (id : jsstring) (chats : list Chat) : option Chat :=
  find (fun c => bool_decide (vector_id c = id)) chats.

(** "Find the specific chat with the matching vector_id" *)
Definition chatData_of (id : jsstring) (data : ChatsBody) : Thrown + option Chat :=
  match data with
  | BodyNull => inl (ErrorObject (nullPropertyMessage (lit "chats")))
  | BodyObject (Some chats) => inr (findChat id chats)
  | BodyObject None | BodyArray _ | BodyScalar => inr None
  end.

(** The body of the [try] block of [fetchChatHistory]: the messages to
    display, or [None] after the redirect to the login page. *)
Definition loadHistory (project id : jsstring) (w : World ChatsBody)
  : Run (option (list Message)) :=
  match usable (token w) with
  | None =>
      let* _ := emit (RouterPush (lit "/login")) in
      ret None
  | Some tok =>
      let* _ := emit (Fetch (historyRequest tok)) in
      let* response := lift (await (settles w)) in
      if negb (ok response) then
        throw (ErrorObject (lit "Failed to fetch chat history"))
      else
        let* data := lift (json response) in
        let* _ := emit (Console Log (lit "Fetched chats data:")) in
        let* chatData := lift (chatData_of id data) in
        match chatData with
        | None => ret (Some [welcome project (clock w 0)])
        | Some chatData =>
            let* convertedMessages :=
              convert chatData (clock w) (chat_history chatData) 0 in
            match convertedMessages with
            | _ :: _ => ret (Some convertedMessages)
            | [] => ret (Some [welcome project (clock w 0)])
            end
        end
  end.

Definition setMessages (msgs : list Message) (st : ChatCore.State)
  : ChatCore.State :=
  {| ChatCore.messages := msgs;
     ChatCore.input := ChatCore.input st;
     ChatCore.isLoading := ChatCore.isLoading st |}.

Definition fetchChatHistory (project id : jsstring) (st : State)
    (w : World ChatsBody) : State * list Effect :=
  match loadHistory project id w with
  | (tr, inr None) =>
      ({| chat := chat st; isInitialLoading := false |}, tr)
  | (tr, inr (Some msgs)) =>
      ({| chat := setMessages msgs (chat st); isInitialLoading := false |}, tr)
  | (tr, inl e) =>
      ({| chat := setMessages [welcome project (clock w 0)] (chat st);
          isInitialLoading := false |},
       tr ++ [Console Err (lit "Error fetching chat history:");
              Toast {| title := lit "Error";
                       description := JStr (lit "Failed to load chat history");
                       variant := Some (lit "destructive") |}])
  end.

(** "Also send the vector_id to continue the conversation";
    [formData.append] converts each string value to a [USVString]. *)
Definition formData (project id input : jsstring)
  : list (jsstring * FormValue) :=
  [(lit "user_query", FormText (toUSVString input));
   (lit "project_name", FormText (toUSVString project));
   (lit "vector_id", FormText (toUSVString id))].

Definition handleSubmit (project id : jsstring) (st : State)
    (w : World JValue) : State * list Effect :=
  let '(chat', tr) := ChatCore.submit (formData project id) (chat st) w in
  ({| chat := chat'; isInitialLoading := isInitialLoading st |}, tr).

End ChatDetailPage.
End ChatDetailPage.

(* ===================================================================== *)
(** * [app/dashboard/upload/page.tsx] *)
(* ===================================================================== *)

Module UploadPage.
Section UploadPage.
Context `{Host}.

Record State := {
  projectName : jsstring;
  files : list File;
  isUploading : bool;
}.

Definition setIsUploading (b : bool) (st : State) : State :=
  {| projectName := projectName st; files := files st; isUploading := b |}.

(** [formData.append("project_name", projectName)], which converts the
    name to a [USVString], and one [files_data] entry for each file. *)
Definition formData (st : State) : list (jsstring * FormValue) :=
  (lit "project_name", FormText (toUSVString (projectName st)))
  :: map (fun file => (lit "files_data", FormFile file)) (files st).

Definition ingestRequest (tok : jsstring) (st : State) : Request := {|
  url := Config.API_URL ++ lit "/data-ingest";
  method := Some (lit "POST");
  headers := [(lit "Authorization", bearer tok)];
  body := Some (formData st);
|}.

(** The body of the [try] block. *)
Definition attempt (st : State) (w : World JValue) : Run unit :=
  match usable (token w) with
  | None => emit (RouterPush (lit "/login"))
  | Some tok =>
      let* _ := emit (Fetch (ingestRequest tok st)) in
      let* response := lift (await (settles w)) in
      if negb (ok response) then
        let* errorData := lift (json response) in
        let* detail := lift (getProp errorData (lit "detail")) in
        throw (new_Error (or_else detail (JStr (lit "Failed to upload files"))))
      else
        let* data := lift (json response) in
        let* message := lift (getProp data (lit "message")) in
        let* _ := emit (Toast {| title := lit "Upload successful";
                                 description :=
                                   or_else message
                                     (JStr (lit "Files uploaded successfully"));
                                 variant := None |}) in
        emit (RouterPush (lit "/dashboard/chat/" ++ projectName st))
  end.

Definition handleSubmit (st : State) (w : World JValue)
  : State * list Effect :=
  if isEmpty (trim (projectName st)) then
    (st, [PreventDefault;
          Toast {| title := lit "Project name required";
                   description := JStr (lit "Please enter a project name");
                   variant := Some (lit "destructive") |}])
  else if (length (files st) =? 0)%nat then
    (st, [PreventDefault;
          Toast {| title := lit "No files selected";
                   description :=
                     JStr (lit "Please select at least one file to upload");
                   variant := Some (lit "destructive") |}])
  else
    match attempt st w with
    | (tr, inr _) => (setIsUploading false st, PreventDefault :: tr)
    | (tr, inl e) =>
        (setIsUploading false st,
         PreventDefault :: tr ++
           [Toast {| title := lit "Upload failed";
                     description :=
                       JStr (messageOr e (lit "An error occurred during upload"));
                     variant := Some (lit "destructive") |}])
    end.

(** ** The list of selected files *)

(** [handleFileChange]: [targetFiles] is [e.target.files], a list of files
    or [null]. *)
Definition handleFileChange (targetFiles : option (list File)) (st : State)
  : State :=
  match targetFiles with
  | Some newFiles =>
      {| projectName := projectName st;
         files := files st ++ newFiles;
         isUploading := isUploading st |}
  | None => st
  end.

(** What a drag handler does to its event. *)
Inductive DragEffect := DragPreventDefault | DragStopPropagation.

Definition handleDragOver : list DragEffect :=
  [DragPreventDefault; DragStopPropagation].

(** [handleDrop]: [dropped] is [e.dataTransfer.files]. *)
Definition handleDrop (dropped : option (list File)) (st : State)
  : State * list DragEffect :=
  (match dropped with
   | Some newFiles =>
       {| projectName := projectName st;
          files := files st ++ newFiles;
          isUploading := isUploading st |}
   | None => st
   end,
   [DragPreventDefault; DragStopPropagation]).

(** [xs.filter((x, i) => keep(x, i))], the elements of [xs] being numbered
    from [i] on. *)
Fixpoint filterIndexed {A} (keep : A -> nat -> bool) (xs : list A) (i : nat)
  : list A :=
  match xs with
  | [] => []
  | x :: rest =>
      if keep x i then x :: filterIndexed keep rest (S i)
      else filterIndexed keep rest (S i)
  end.

(** [removeFile]: [prevFiles.filter((_, i) => i !== index)] *)
Definition removeFile (index : nat) (st : State) : State :=
  {| projectName := projectName st;
     files := filterIndexed (fun _ i => negb (i =? index)%nat) (files st) 0;
     isUploading := isUploading st |}.

End UploadPage.
End UploadPage.

(* ===================================================================== *)
(** * The dashboard layout (second component of [upload/page.tsx]) *)
(* ===================================================================== *)

Module DashboardLayout.
Section DashboardLayout.
Context `{Host}.

Record State := {
  chats : list Chat;
  isLoading : bool;
  error : option jsstring;
}.

(** What the layout observes besides the [World]: the location, and the
    successive values of [Math.random().toString(36).substr(2, 9)]. *)
Record Browser := {
  window : Config.Window;
  random : nat -> jsstring;
}.

Definition chatsRequest (tok : jsstring) : Request := {|
  url := Config.API_URL ++ lit "/get_chats";
  method := None;
  headers := [(lit "Authorization", bearer tok)];
  body := None;
|}.

(** [chat.id] as a condition *)
Definition idTruthy (i : option ChatId) : bool :=
  match i with
  | None => false
  | Some (IdString s) => negb (isEmpty s)
  | Some (IdNumber n) => number_truthy n
  end.

Definition newConversation : jsstring := lit "New conversation".

(** The callback of [chatsList.map]; [k] counts the calls of [Date.now()]
    (and of [Math.random()]) made so far. *)
Definition normalize (w : World ChatsBody) (b : Browser) (chat : Chat)
    (k : nat) : Chat * nat :=
  let '(chatId, k') :=
    if idTruthy (chat_id chat) then (chat_id chat, k)
    else if negb (isEmpty (vector_id chat)) then
      (Some (IdString (vector_id chat)), k)
    else
      (Some (IdString (lit "chat-" ++ decimal (clock w k) ++ lit "-"
                       ++ random b k)), S k) in
  let lastMessage :=
    match chat_history chat with
    | first :: _ =>
        (* "Use the most recent message (which is the first in the array)" *)
        if isEmpty (user_query first) then newConversation
        else user_query first
    | [] => newConversation
    end in
  ({| chat_id := chatId;
      project_name := project_name chat;
      vector_id := vector_id chat;
      chat_history := chat_history chat;
      chat_timestamp := chat_timestamp chat;
      last_message := Some lastMessage;
      other := other chat |}, k').

Fixpoint normalizeAll (w : World ChatsBody) (b : Browser)
    (chatsList : list Chat) (k : nat) : list Chat :=
  match chatsList with
  | [] => []
  | chat :: rest =>
      let '(chat', k') := normalize w b chat k in
      chat' :: normalizeAll w b rest k'
  end.

(** The project of the current location: the path segment after the
    first segment [chat], if there is one. *)
Definition currentProject (b : Browser) : option jsstring :=
  let pathParts := split 47 (Config.pathname (window b)) in
  let projectIndex := indexOf pathParts (lit "chat") in
  if negb (projectIndex =? -1)
     && (Z.of_nat (length pathParts) >? projectIndex + 1)
  then pathParts !! Z.to_nat (projectIndex + 1)
  else None.

(** "Create a default chat for the current project if we're in a
    project" *)
Definition defaultChat (currentProject : jsstring) (now : Z) : Chat := {|
  chat_id := Some (IdString (lit "default"));
  project_name := currentProject;
  vector_id := lit "default";
  chat_history := [];
  chat_timestamp := toISOString now;
  last_message := Some newConversation;
  other := [];
|}.

(** [setChats([default chat])] when the location names a project. *)
Definition withDefault (w : World ChatsBody) (b : Browser)
    (shown : list Chat) : list Chat :=
  match currentProject b with
  | Some p => [defaultChat p (clock w 0)]
  | None => shown
  end.

(** "Handle the specific response format from your API" *)
Definition chatsList_of (data : ChatsBody) : Thrown + list Chat :=
  match data with
  | BodyNull => inl (ErrorObject (nullPropertyMessage (lit "chats")))
  | BodyObject (Some chats) => inr chats
  | BodyArray items => inr items
  | BodyObject None | BodyScalar => inr []
  end.

(** The body of the [try] block of [fetchChats]: the normalized chats,
    or [None] after the redirect that follows a 401. *)
Definition loadChats (tok : jsstring) (w : World ChatsBody) (b : Browser)
  : Run (option (list Chat)) :=
  let* _ := emit (Console Log (lit "Fetching chats from:")) in
  let* _ := emit (Fetch (chatsRequest tok)) in
  let* response := lift (await (settles w)) in
  let* _ := emit (Console Log (lit "Chat response status:")) in
  if negb (ok response) then
    if status response =? 401 then
      let* _ := emit (RemoveItem (lit "token")) in
      let* _ := emit (RouterPush (lit "/login")) in
      ret None
    else
      throw (ErrorObject (lit "Failed to fetch chats: "
                          ++ decimal (status response)))
  else
    let* data := lift (json response) in
    let* _ := emit (Console Log (lit "Parsed data:")) in
    let* chatsList := lift (chatsList_of data) in
    let* _ := emit (Console Log (lit "Processed chats list:")) in
    let normalizedChats := normalizeAll w b chatsList 0 in
    let* _ := emit (Console Log (lit "Normalized chats:")) in
    ret (Some normalizedChats).

Definition fetchChats (tok : jsstring) (st : State) (w : World ChatsBody)
    (b : Browser) : State * list Effect :=
  match loadChats tok w b with
  | (tr, inr None) =>
      ({| chats := chats st; isLoading := false; error := error st |}, tr)
  | (tr, inr (Some normalizedChats)) =>
      ({| chats := match normalizedChats with
                   | [] => withDefault w b normalizedChats
                   | _ :: _ => normalizedChats
                   end;
          isLoading := false;
          error := error st |}, tr)
  | (tr, inl e) =>
      let reason := messageOr e (lit "Unknown error") in
      ({| chats := withDefault w b (chats st);
          isLoading := false;
          error := Some reason |},
       tr ++ [Console Err (lit "Error fetching chats:");
              Toast {| title := lit "Error";
                       description :=
                         JStr (lit "Failed to load chat history: " ++ reason);
                       variant := Some (lit "destructive") |}])
  end.

(** The effect run when the layout mounts. *)
Definition onMount (st : State) (w : World ChatsBody) (b : Browser)
  : State * list Effect :=
  match usable (token w) with
  | None => (st, [RouterPush (lit "/login")])
  | Some tok => fetchChats tok st w b
  end.

(** The label of a chat in the sidebar. *)
Definition preview (chat : Chat) : jsstring :=
  match last_message chat with
  | Some m =>
      if (30 <? length m)%nat then take 30 m ++ lit "..."
      else if isEmpty m then lit "New Chat" else m
  | None => lit "New Chat"
  end.

(** [handleLogout] *)
Definition handleLogout : list Effect :=
  [RemoveItem (lit "token");
   RouterPush (lit "/login");
   Toast {| title := lit "Logged out";
            description := JStr (lit "You've been logged out successfully.");
            variant := None |}].

(** ** The sidebar *)

(** [chat.project_name || "Default Project"] *)
Definition groupName (chat : Chat) : jsstring :=
  if isEmpty (project_name chat) then lit "Default Project"
  else project_name chat.

(** The property names that every object inherits from
    [Object.prototype]: read on the accumulator [{}], each yields a truthy
    value that is not an array. *)
Definition inheritedNames : list jsstring :=
  [lit "constructor"; lit "hasOwnProperty"; lit "isPrototypeOf";
   lit "propertyIsEnumerable"; lit "toLocaleString"; lit "toString";
   lit "valueOf"; lit "__proto__"; lit "__defineGetter__";
   lit "__defineSetter__"; lit "__lookupGetter__"; lit "__lookupSetter__"].

Definition inherited (name : jsstring) : bool :=
  bool_decide (name ∈ inheritedNames).

(** The TypeError of a render: [acc[projectName].push] is not a
    function. *)
Inductive RenderError := PushIsNotAFunction (projectName : jsstring).

(** The callback of [chats.reduce]: the accumulator is an object used as
    a map from project names to arrays of chats.  A name that the
    accumulator does not own but inherits passes the test
    [!acc[projectName]], and the [push] that follows throws. *)
Definition addChat (acc : gmap jsstring (list Chat)) (chat : Chat)
  : RenderError + gmap jsstring (list Chat) :=
  let projectName := groupName chat in
  match acc !! projectName with
  | Some group => inr (<[projectName := group ++ [chat]]> acc)
  | None =>
      if inherited projectName then inl (PushIsNotAFunction projectName)
      else inr (<[projectName := [chat]]> acc)
  end.

Fixpoint reduce (chats : list Chat) (acc : gmap jsstring (list Chat))
  : RenderError + gmap jsstring (list Chat) :=
  match chats with
  | [] => inr acc
  | chat :: rest =>
      match addChat acc chat with
      | inl e => inl e
      | inr acc' => reduce rest acc'
      end
  end.

(** "Group chats by project name" *)
Definition chatsByProject (chats : list Chat)
  : RenderError + gmap jsstring (list Chat) :=
  reduce chats ∅.

(** What the sidebar shows under the "New Project" button: the loading
    skeleton, the error panel, the notice that no chat was found, or the
    menu of the groups (as a map: the order in which [Object.entries]
    lists the groups is not part of the model). *)
Inductive Sidebar : Type :=
  | Skeleton
  | ErrorPanel (message : jsstring)
  | NoChats
  | Menu (groups : gmap jsstring (list Chat)).

(** The render of the sidebar; the groups are computed on every render,
    before the choice of what to show. *)
Definition sidebar (st : State) : RenderError + Sidebar :=
  match chatsByProject (chats st) with
  | inl e => inl e
  | inr groups =>
      inr (if isLoading st then Skeleton
           else match error st with
                | Some (c :: m) => ErrorPanel (c :: m)
                | _ => if (size groups =? 0)%nat then NoChats
                       else Menu groups
                end)
  end.

(** The page a menu entry opens:
    [`/dashboard/chat/${projectName}/${chat.vector_id}`]. *)
Definition chatLink (projectName : jsstring) (chat : Chat) : jsstring :=
  lit "/dashboard/chat/" ++ projectName ++ lit "/" ++ vector_id chat.

(** An entry of the menu: the label it shows and the page it opens. *)
Record MenuEntry := {
  entry_label : jsstring;
  entry_opens : jsstring;
}.

(** [projectChats.map(...)]: the entries of the group [projectName]. *)
Definition menuEntries (projectName : jsstring) (projectChats : list Chat)
  : list MenuEntry :=
  map (fun chat => {| entry_label := preview chat;
                      entry_opens := chatLink projectName chat |})
      projectChats.

(** [Object.entries(chatsByProject).map(...)]: the menu as it is
    rendered, each group under its name with its entries. *)
Definition menu (groups : gmap jsstring (list Chat))
  : gmap jsstring (list MenuEntry) :=
  map_imap (fun projectName projectChats =>
              Some (menuEntries projectName projectChats)) groups.

End DashboardLayout.
End DashboardLayout.

(* ===================================================================== *)
(** * The per-project vector store *)
(* ===================================================================== *)

(** The back end is not part of the sources at hand; the store and the
    ingestion that fills it follow sections 3, 4.4, 4.5 and 4.6 of the
    specification. *)
Module VectorStore.
Section VectorStore.

(** The embedding vectors, their dimension, and the similarity order:
    [closer q a b] holds when [a] is at least as similar to the query [q]
    as [b] is. *)
Context {Embedding : Type}.
Variable dim : Embedding -> nat.
Variable closer : Embedding -> Embedding -> Embedding -> bool.

(** Modelled from the spec: the identity of a Project of section 3 (the
    back end is missing): its name, "unique per owning user", so the
    owner and the name. *)
Definition Project : Type := jsstring * jsstring.

(** Modelled from the spec: the Chunk of section 3 (the back end that
    declares it is missing): generated id, text, embedding, ordinal
    position, source document, source project, page or section metadata. *)
Record Chunk := {
  chunk_id : nat;
  text : jsstring;
  embedding : Embedding;
  ordinal : nat;
  document : nat;
  source_project : Project;
  metadata : option jsstring;
}.

(** Modelled from the spec: the error taxonomy of section 7 (missing), as
    far as ingestion and search raise it. *)
Inductive StoreError :=
  | UnsupportedFormat
  | LoadError
  | EmbeddingProviderError
  | DimensionMismatch
  | VectorStoreError
  | ProjectNotFound.

(** Modelled from the spec: the state of the Project/Collection Registry
    and of the Vector Store Adapter (both missing): the collection
    registered for each project, the records of each collection, and the
    counters that generate collection, chunk and document ids. *)
Record Store := {
  registry : gmap Project nat;
  collections : gmap nat (list Chunk);
  next_collection : nat;
  next_chunk : nat;
  next_document : nat;
}.

(** Modelled from the spec: the store before any call (missing): no
    project is registered. *)
Definition empty : Store := {|
  registry := ∅;
  collections := ∅;
  next_collection := 0;
  next_chunk := 0;
  next_document := 0;
|}.

(** Modelled from the spec: [ensure_collection] of section 4.4 (missing):
    "idempotent; creates if absent, reuses if present". *)
Definition ensure_collection (p : Project) (s : Store) : nat * Store :=
  match registry s !! p with
  | Some cid => (cid, s)
  | None =>
      let cid := next_collection s in
      (cid, {| registry := <[p := cid]> (registry s);
               collections := <[cid := []]> (collections s);
               next_collection := S cid;
               next_chunk := next_chunk s;
               next_document := next_document s |})
  end.

(** Modelled from the spec: the records of a collection after an
    [upsert] (missing): a record whose id is written again is replaced,
    the others are kept. *)
Definition merged (old records : list Chunk) : list Chunk :=
  filter (fun c => ¬ Exists (fun r => chunk_id r = chunk_id c) records) old
  ++ records.

(** Modelled from the spec: "the collection's established
    dimensionality" of section 4.3 (missing), if the collection holds a
    record. *)
Definition established (l : list Chunk) : option nat :=
  match l with
  | c :: _ => Some (dim (embedding c))
  | [] => None
  end.

(** Modelled from the spec: the check behind [DimensionMismatch]
    (missing): "a collection must not mix embeddings of different
    dimensionality". *)
Definition same_dimension (old records : list Chunk) : bool :=
  match established (old ++ records) with
  | Some d => forallb (fun c => (dim (embedding c) =? d)%nat) records
  | None => true
  end.

(** Modelled from the spec: [upsert] of section 4.4 (missing): atomic per
    call, and a write whose vector length differs from the collection's
    dimension is rejected with [DimensionMismatch]. *)
Definition upsert (cid : nat) (records : list Chunk) (s : Store)
  : StoreError + Store :=
  match collections s !! cid with
  | None => inl VectorStoreError
  | Some old =>
      if same_dimension old records then
        inr {| registry := registry s;
               collections := <[cid := merged old records]> (collections s);
               next_collection := next_collection s;
               next_chunk := next_chunk s;
               next_document := next_document s |}
      else inl DimensionMismatch
  end.

(** Modelled from the spec: the ranking of [search] (missing), "nearest-
    neighbor by vector similarity": insertion of a candidate into a ranked
    list, most similar first. *)
Fixpoint place (q : Embedding) (c : Chunk) (ranked : list Chunk) : list Chunk :=
  match ranked with
  | [] => [c]
  | d :: rest =>
      if closer q (embedding c) (embedding d) then c :: d :: rest
      else d :: place q c rest
  end.

(** Modelled from the spec: the candidates of a collection in ranked
    order (missing). *)
Definition rank (q : Embedding) (candidates : list Chunk) : list Chunk :=
  foldr (place q) [] candidates.

(** Modelled from the spec: [search] of section 4.4 (missing): the [k]
    nearest neighbours of the query in one collection.  The result lists
    the records themselves, of which the specification's (text, metadata,
    score) are projections. *)
Definition search (cid : nat) (q : Embedding) (k : nat) (s : Store)
  : StoreError + list Chunk :=
  match collections s !! cid with
  | None => inl VectorStoreError
  | Some l => inr (take k (rank q l))
  end.

(** Modelled from the spec: steps 1 and 3 of the orchestrator of section
    4.6 (missing): the project is resolved through the registry, "fails
    with ProjectNotFound if the project was never ingested", and the
    search runs against its collection. *)
Definition search_project (p : Project) (q : Embedding) (k : nat) (s : Store)
  : StoreError + list Chunk :=
  match registry s !! p with
  | None => inl ProjectNotFound
  | Some cid => search cid q k s
  end.

(** Modelled from the spec: [delete_collection] of section 4.4 (missing):
    "removes all vectors for a project; must be safe to call on a
    non-existent collection (no-op, not an error)". *)
Definition delete_collection (p : Project) (s : Store) : Store :=
  match registry s !! p with
  | None => s
  | Some cid =>
      {| registry := delete p (registry s);
         collections := delete cid (collections s);
         next_collection := next_collection s;
         next_chunk := next_chunk s;
         next_document := next_document s |}
  end.

(** Modelled from the spec: what the Loader, the Chunker and the Embedder
    of sections 4.1 to 4.3 (missing) make of one passage. *)
Record Passage := {
  passage_text : jsstring;
  passage_embedding : Embedding;
  passage_metadata : option jsstring;
}.

(** Modelled from the spec: the chunks of one document (the pipeline is
    missing): ids are generated from [first] on, and every chunk records
    its ordinal position, its document and the project it is ingested
    into. *)
Fixpoint chunksFrom (p : Project) (doc first position : nat)
    (passages : list Passage) : list Chunk :=
  match passages with
  | [] => []
  | x :: rest =>
      {| chunk_id := first;
         text := passage_text x;
         embedding := passage_embedding x;
         ordinal := position;
         document := doc;
         source_project := p;
         metadata := passage_metadata x |}
      :: chunksFrom p doc (S first) (S position) rest
  end.

(** Modelled from the spec: the per-file outcome of section 4.5
    (missing), "{success, chunk_count} | {failure, reason}". *)
Inductive FileOutcome :=
  | Success (chunk_count : nat)
  | Failure (reason : StoreError).

(** Modelled from the spec: the per-file part of [ingest] of section 4.5
    (missing).  A file arrives as the result of its first three stages,
    an error or its passages; the four stages run in sequence and "a
    failure at any stage short-circuits only that file", leaving the store
    as it was. *)
Definition ingest_file (p : Project) (file : StoreError + list Passage)
    (s : Store) : Store * FileOutcome :=
  match file with
  | inl e => (s, Failure e)
  | inr passages =>
      let '(cid, s1) := ensure_collection p s in
      let records := chunksFrom p (next_document s) (next_chunk s) 0 passages in
      match upsert cid records s1 with
      | inl e => (s, Failure e)
      | inr s2 =>
          ({| registry := registry s2;
              collections := collections s2;
              next_collection := next_collection s2;
              next_chunk := next_chunk s + length passages;
              next_document := S (next_document s) |},
           Success (length passages))
      end
  end.

(** Modelled from the spec: [ingest] of section 4.5 (missing): the files
    are processed independently, and the caller receives a per-file
    report. *)
Fixpoint ingest (p : Project) (batch : list (StoreError + list Passage))
    (s : Store) : Store * list FileOutcome :=
  match batch with
  | [] => (s, [])
  | file :: rest =>
      let '(s1, o) := ingest_file p file s in
      let '(s2, os) := ingest p rest s1 in
      (s2, o :: os)
  end.

(** Modelled from the spec: the core calls of section 6 that change the
    store (missing), [ingest] and [delete_collection]. *)
Inductive Call :=
  | Ingest (p : Project) (batch : list (StoreError + list Passage))
  | DeleteCollection (p : Project).

(** Modelled from the spec: the effect of one call on the store
    (missing). *)
Definition perform (s : Store) (c : Call) : Store :=
  match c with
  | Ingest p batch => fst (ingest p batch s)
  | DeleteCollection p => delete_collection p s
  end.

(** Modelled from the spec: the store after a history of calls, starting
    empty (missing). *)
Definition after (history : list Call) : Store :=
  fold_left perform history empty.

(** Modelled from the spec: "a chunk belongs to a project's collection"
    (the store is missing): [c] is a record of the collection registered
    for [p]. *)
Definition holds (s : Store) (p : Project) (c : Chunk) : Prop :=
  exists cid l,
    registry s !! p = Some cid /\ collections s !! cid = Some l /\ c ∈ l.

(** Modelled from the spec: "chunks ingested into project A" (the
    pipeline is missing): at some point of the history [c] was a record of
    the collection of [p]. *)
Definition ingested (history : list Call) (p : Project) (c : Chunk) : Prop :=
  exists n, holds (after (take n history)) p c.

(** Modelled from the spec: the invariant of the store (missing): a
    collection is registered for at most
    one project, under an id already generated; the ids of the stored
    chunks were already generated, and none occurs in two collections;
    and the chunks of a project's collection name that project as their
    source. *)
Record consistent (s : Store) : Prop := {
  registry_injective : forall p1 p2 cid,
    registry s !! p1 = Some cid -> registry s !! p2 = Some cid -> p1 = p2;
  registry_bound : forall p cid,
    registry s !! p = Some cid -> (cid < next_collection s)%nat;
  chunks_bound : forall cid l c,
    collections s !! cid = Some l -> c ∈ l -> (chunk_id c < next_chunk s)%nat;
  chunks_unique : forall cid1 cid2 l1 l2 c1 c2,
    collections s !! cid1 = Some l1 -> c1 ∈ l1 ->
    collections s !! cid2 = Some l2 -> c2 ∈ l2 ->
    chunk_id c1 = chunk_id c2 -> cid1 = cid2;
  chunks_owned : forall p cid l c,
    registry s !! p = Some cid -> collections s !! cid = Some l -> c ∈ l ->
    source_project c = p;
}.

End VectorStore.

Arguments empty {Embedding}.
Arguments Store : clear implicits.
Arguments Chunk : clear implicits.
Arguments Passage : clear implicits.
Arguments Call : clear implicits.

End VectorStore.

Module VS := VectorStore.

(* ===================================================================== *)
(** * Vocabulary of the statements *)
(* ===================================================================== *)

Section Vocabulary.
Context `{Host}.

(** A text is blank when it is empty or made of white space only. *)
Definition blank (s : jsstring) : bool := forallb isWhiteSpace s.

(** The toasts of a trace. *)
Definition toasts (tr : list Effect) : list ToastArgs :=
  omap (fun e => match e with Toast t => Some t | _ => None end) tr.

(** The navigations of a trace. *)
Definition redirects (tr : list Effect) : list jsstring :=
  omap (fun e => match e with RouterPush p => Some p | _ => None end) tr.

(** The value of the form field [k] of a request. *)
Definition field (k : jsstring) (r : Request) : option FormValue :=
  match body r with
  | Some fields =>
      snd <$> find (fun kv => bool_decide (fst kv = k)) fields
  | None => None
  end.

(** The text as a sequence of Unicode scalar values, which is what a form
    field can hold.  A surrogate code unit stands for itself only as half
    of a pair: a lead surrogate (U+D800 to U+DBFF) directly followed by a
    trail surrogate (U+DC00 to U+DFFF).  Any other surrogate reads as
    U+FFFD, the replacement character. *)
Definition leadSurrogate (c : N) : bool := ((0xD800 <=? c) && (c <=? 0xDBFF))%N.
Definition trailSurrogate (c : N) : bool := ((0xDC00 <=? c) && (c <=? 0xDFFF))%N.

Definition unpaired (before : option N) (c : N) (next : option N) : bool :=
  leadSurrogate c && negb (from_option trailSurrogate false next)
  || trailSurrogate c && negb (from_option leadSurrogate false before).

Fixpoint scalarValuesAfter (before : option N) (s : jsstring) : jsstring :=
  match s with
  | [] => []
  | c :: r =>
      (if unpaired before c (head r) then 0xFFFD%N else c)
      :: scalarValuesAfter (Some c) r
  end.

Definition scalarValues (s : jsstring) : jsstring := scalarValuesAfter None s.

(** The text holds no surrogate code unit at all. *)
Definition plainText (s : jsstring) : Prop :=
  Forall (fun c => (c < 0xD800 \/ 0xDFFF < c)%N) s.

(** The request carries the stored token: its [Authorization] header is
    the word [Bearer], a space and the token. *)
Definition authorized (tok : jsstring) (r : Request) : Prop :=
  (lit "Authorization", lit "Bearer " ++ tok) ∈ headers r.

(** The property names under which the chat pages look for the answer,
    in the order they are tried. *)
Definition answerFields : list jsstring :=
  [lit "chatbot_answer"; lit "response"; lit "answer"; lit "text"].

(** A parsed body "carries no recognizable answer text": it is not
    [null], none of the answer fields holds a truthy value, and it is not
    itself a string. *)
Definition unrecognized (data : JValue) : Prop :=
  Forall (fun k => exists v, getProp data k = inr v /\ truthy v = false)
         answerFields
  /\ isString data = false.

(** The answer in words: the first truthy value among the answer fields,
    else the body itself when it is a string, else the placeholder. *)
Definition sniffed (data : JValue) : JValue :=
  match data with
  | JObj props =>
      default (JStr ChatCore.placeholder)
              (find truthy (map (fun k => assoc k props) answerFields))
  | JStr s => JStr s
  | _ => JStr ChatCore.placeholder
  end.

(** A chat world in which the token is stored and the back end answers
    with status [code] and the parsed body [data]. *)
Definition answering (tok : jsstring) (clock : nat -> Z) (code : Z)
    (data : JValue) : World JValue :=
  {| token := Some tok; clock := clock;
     settles := Resolved {| status := code; json := inr data |} |}.

(** The message of the failure of a chat request, if it fails: the fetch
    is rejected, or the body does not parse, or it is [null], or the
    status is not 2xx. *)
Definition chatFault (w : World JValue) : option jsstring :=
  let reading e := Some (messageOr e (lit "Failed to get a response")) in
  match settles w with
  | Rejected e => reading e
  | Resolved r =>
      match json r with
      | inl e => reading e
      | inr data =>
          if ok r then
            match data with
            | JNull | JUndefined =>
                Some (nullPropertyMessage (lit "chatbot_answer"))
            | _ => None
            end
          else
            match data with
            | JNull | JUndefined => Some (nullPropertyMessage (lit "detail"))
            | JObj props =>
                Some (messageOr
                        (new_Error (or_else (assoc (lit "detail") props)
                                            (JStr (lit "Failed to get response"))))
                        (lit "Failed to get a response"))
            | _ => Some (lit "Failed to get response")
            end
      end
  end.

(** The message of the failure of a chat-list request that is not
    answered by a 401, if it fails. *)
Definition listFault (w : World ChatsBody) : option jsstring :=
  let reading e := Some (messageOr e (lit "Unknown error")) in
  match settles w with
  | Rejected e => reading e
  | Resolved r =>
      if ok r then
        match json r with
        | inl e => reading e
        | inr BodyNull => Some (nullPropertyMessage (lit "chats"))
        | inr _ => None
        end
      else if status r =? 401 then None
      else Some (lit "Failed to fetch chats: " ++ decimal (status r))
  end.

(** The conversation [id] exists: it is one of the stored chats. *)
Definition existing (id : jsstring) (stored : list Chat) : Prop :=
  exists c, c ∈ stored /\ vector_id c = id.

(** The message of the user's question and the assistant message that
    follows it in one run of [handleSubmit]. *)
Definition question (w : World JValue) (text : jsstring) : Message := {|
  msg_id := decimal (clock w 0);
  msg_role := user;
  msg_content := JStr text;
  msg_timestamp := toISOString (clock w 1);
|}.

Definition reply (w : World JValue) (content : JValue) : Message := {|
  msg_id := decimal (clock w 2);
  msg_role := assistant;
  msg_content := content;
  msg_timestamp := toISOString (clock w 3);
|}.

(** The chat state after the question was asked and answered with
    [content]. *)
Definition exchanged (st : ChatCore.State) (w : World JValue)
    (content : JValue) : ChatCore.State := {|
  ChatCore.messages :=
    ChatCore.messages st ++ [question w (ChatCore.input st); reply w content];
  ChatCore.input := [];
  ChatCore.isLoading := false;
|}.

Definition errorToast (m : jsstring) : ToastArgs := {|
  title := lit "Error";
  description := JStr m;
  variant := Some (lit "destructive");
|}.

(** The stored timestamp can be displayed: it is empty (the clock is
    read instead) or the [Date] object parses it. *)
Definition datable (chatData : Chat) : Prop :=
  chat_timestamp chatData = [] \/ is_Some (Date_parse (chat_timestamp chatData)).

(** The contents of the messages, with their roles, in display order. *)
Definition transcript (msgs : list Message) : list (Role * JValue) :=
  map (fun m => (msg_role m, msg_content m)) msgs.

(** The turns of a history, each a question followed by its answer. *)
Definition replayed (items : list ChatHistoryItem) : list (Role * JValue) :=
  flat_map (fun item => [(user, JStr (user_query item));
                         (assistant, JStr (chatbot_answer item))]) items.

(** Every request of the trace carries the token stored in local
    storage. *)
Definition attaches {A} (w : World A) (tr : list Effect) : Prop :=
  forall r, r ∈ requests tr ->
    exists tok, token w = Some tok /\ authorized tok r.

(** The run sent no request and redirected to the login page. *)
Definition turnedAway (tr : list Effect) : Prop :=
  requests tr = [] /\ redirects tr = [lit "/login"].

(** The code does not run in a browser, or the hostname contains
    "vercel.app", "localhost" or "127.0.0.1". *)
Definition skipsProbe (window : option Config.Window) : bool :=
  match window with
  | None => true
  | Some win =>
      includes (Config.hostname win) (lit "vercel.app")
      || includes (Config.hostname win) (lit "localhost")
      || includes (Config.hostname win) (lit "127.0.0.1")
  end.

End Vocabulary.

(* ===================================================================== *)
(** * A concrete host and concrete inputs *)
(* ===================================================================== *)

(** A host on which the model runs: integers as numbers, one date the
    [Date] object knows, and the messages of V8. *)
Definition sampleHost : Host := {|
  number := Z;
  number_truthy := fun z => negb (z =? 0);
  number_toString := decimal;
  Date_parse := fun s =>
    if decide (s = lit "2025-01-01T00:00:00.000Z") then Some 1735689600000
    else None;
  toISOString := fun t =>
    if t =? 1735689600000 then lit "2025-01-01T00:00:00.000Z"
    else lit "@" ++ decimal t;
  nullPropertyMessage := fun k =>
    lit "Cannot read properties of null (reading '" ++ k ++ lit "')";
  invalidTimeMessage := lit "Invalid time value";
  notPrimitiveMessage := lit "Cannot convert object to primitive value";
  NEXT_PUBLIC_API_URL := None;
|}.

Module Sample.
#[local] Existing Instance sampleHost.

Definition tick (n : nat) : Z := 1735689600000 + Z.of_nat n.

(** A chat page on which the user has typed a question. *)
Definition asking (question : string) : ChatCore.State := {|
  ChatCore.messages := [];
  ChatCore.input := lit question;
  ChatCore.isLoading := false;
|}.

Definition conversation (question : string) : ChatDetailPage.State := {|
  ChatDetailPage.chat := asking question;
  ChatDetailPage.isInitialLoading := false;
|}.

(** The user types a question on a conversation page. *)
Definition typing (question : string) (st : ChatDetailPage.State)
  : ChatDetailPage.State := {|
  ChatDetailPage.chat :=
    {| ChatCore.messages := ChatCore.messages (ChatDetailPage.chat st);
       ChatCore.input := lit question;
       ChatCore.isLoading := ChatCore.isLoading (ChatDetailPage.chat st) |};
  ChatDetailPage.isInitialLoading := ChatDetailPage.isInitialLoading st;
|}.

(** The user types the next question on a project page. *)
Definition retyping (question : string) (st : ChatCore.State)
  : ChatCore.State := {|
  ChatCore.messages := ChatCore.messages st;
  ChatCore.input := lit question;
  ChatCore.isLoading := ChatCore.isLoading st;
|}.

(** The back end answers 200 with the given body. *)
Definition replying (data : JValue) : World JValue :=
  answering (lit "t0k3n") tick 200 data.

(** The request never reaches the back end. *)
Definition offline {A} : World A := {|
  token := Some (lit "t0k3n");
  clock := tick;
  settles := Rejected (ErrorObject (lit "Failed to fetch"));
|}.

(** Nobody is logged in. *)
Definition anonymous {A} : World A := {|
  token := None;
  clock := tick;
  settles := Rejected (ErrorObject (lit "Failed to fetch"));
|}.

(** The back end answers the chat-list request with the given status and
    body. *)
Definition listing (code : Z) (data : ChatsBody) : World ChatsBody := {|
  token := Some (lit "t0k3n");
  clock := tick;
  settles := Resolved {| status := code; json := inr data |};
|}.

Definition at_ (host path : string) : DashboardLayout.Browser := {|
  DashboardLayout.window :=
    {| Config.hostname := lit host; Config.pathname := lit path |};
  DashboardLayout.random := fun _ => lit "k3x9q0zr1";
|}.

Definition turn (q a : string) : ChatHistoryItem :=
  {| user_query := lit q; chatbot_answer := lit a |}.

(** A stored conversation of two turns. *)
Definition twoTurns : Chat := {|
  chat_id := None;
  project_name := lit "demo";
  vector_id := lit "c-17";
  chat_history := [turn "What is X?" "X is a letter.";
                   turn "And why?" "By convention."];
  chat_timestamp := lit "2025-01-01T00:00:00.000Z";
  last_message := None;
  other := [];
|}.

Definition emptyLayout : DashboardLayout.State := {|
  DashboardLayout.chats := [];
  DashboardLayout.isLoading := true;
  DashboardLayout.error := None;
|}.

Definition report : File := {|
  file_name := lit "report.pdf";
  file_type := lit "application/pdf";
  file_bytes := [37; 80; 68; 70]%N;
|}.

Definition upload (name : string) (fs : list File) : UploadPage.State := {|
  UploadPage.projectName := lit name;
  UploadPage.files := fs;
  UploadPage.isUploading := false;
|}.

End Sample.

(** Concrete projects and a concrete history for the vector store, with
    integers as embeddings of dimension one, compared by distance. *)
Module SampleStore.

Definition dim (v : Z) : nat := 1.

Definition closer (q a b : Z) : bool := Z.abs (a - q) <=? Z.abs (b - q).

Definition alpha : VectorStore.Project := (lit "ada", lit "alpha").
Definition beta : VectorStore.Project := (lit "ada", lit "beta").

Definition passage (t : string) (v : Z) : VectorStore.Passage Z := {|
  VectorStore.passage_text := lit t;
  VectorStore.passage_embedding := v;
  VectorStore.passage_metadata := None;
|}.

Definition history : list (VectorStore.Call Z) :=
  [VectorStore.Ingest alpha [inr [passage "first" 3; passage "second" 8]];
   VectorStore.Ingest beta [inl VectorStore.UnsupportedFormat;
                            inr [passage "third" 4]]].

(** The first chunk ingested into [alpha]. *)
Definition first : VectorStore.Chunk Z := {|
  VectorStore.chunk_id := 0;
  VectorStore.text := lit "first";
  VectorStore.embedding := 3;
  VectorStore.ordinal := 0;
  VectorStore.document := 0;
  VectorStore.source_project := alpha;
  VectorStore.metadata := None;
|}.

(** The chunk ingested into [beta]. *)
Definition third : VectorStore.Chunk Z := {|
  VectorStore.chunk_id := 2;
  VectorStore.text := lit "third";
  VectorStore.embedding := 4;
  VectorStore.ordinal := 0;
  VectorStore.document := 1;
  VectorStore.source_project := beta;
  VectorStore.metadata := None;
|}.

End SampleStore.

(* ===================================================================== *)
(** * Vocabulary of the further properties *)
(* ===================================================================== *)

Section FurtherVocabulary.
Context `{Host}.

(** The message of the failure of an upload request, if it fails. *)
Definition uploadFault (w : World JValue) : option jsstring :=
  let reading e := Some (messageOr e (lit "An error occurred during upload")) in
  match settles w with
  | Rejected e => reading e
  | Resolved r =>
      match json r with
      | inl e => reading e
      | inr data =>
          if ok r then
            match data with
            | JNull | JUndefined => Some (nullPropertyMessage (lit "message"))
            | _ => None
            end
          else
            match data with
            | JNull | JUndefined => Some (nullPropertyMessage (lit "detail"))
            | JObj props =>
                Some (messageOr
                        (new_Error (or_else (assoc (lit "detail") props)
                                            (JStr (lit "Failed to upload files"))))
                        (lit "An error occurred during upload"))
            | _ => Some (lit "Failed to upload files")
            end
      end
  end.

(** The parts separated by commas. *)
Fixpoint commaJoin (parts : list jsstring) : jsstring :=
  match parts with
  | [] => []
  | [x] => x
  | x :: rest => x ++ lit "," ++ commaJoin rest
  end.

(** A body as FastAPI sends it for a request it cannot validate: the
    [detail] is an array of objects. *)
Definition validationBody (errors : list (list (jsstring * JValue))) : JValue :=
  JObj [(lit "detail", JArr (map JObj errors))].

(** The token left in local storage by a trace: [removeItem("token")]
    deletes it, and no handler of these pages stores one. *)
Definition removesToken (e : Effect) : bool :=
  match e with
  | RemoveItem key => bool_decide (key = lit "token")
  | _ => false
  end.

Definition tokenAfter (tr : list Effect) (stored : option jsstring)
  : option jsstring :=
  if existsb removesToken tr then None else stored.

(** [pat] occurs somewhere in [s]. *)
Definition occursIn (pat s : jsstring) : Prop :=
  exists pre post, s = pre ++ pat ++ post.

(** The ids that the conversation page gives to the messages of [n]
    turns, in display order. *)
Definition turnIds (n : nat) : list jsstring :=
  flat_map (fun i => [lit "user-" ++ decimal (Z.of_nat i);
                      lit "assistant-" ++ decimal (Z.of_nat i)])
           (seq 0 n).

(** The state in which the layout mounts. *)
Definition mounting : DashboardLayout.State := {|
  DashboardLayout.chats := [];
  DashboardLayout.isLoading := true;
  DashboardLayout.error := None;
|}.

(** The name under which the sidebar files a chat: its project name, or
    "Default Project" when it has none. *)
Definition projectKey (c : Chat) : jsstring :=
  match project_name c with
  | [] => lit "Default Project"
  | name => name
  end.

(** The names of the properties of [Object.prototype], which the empty
    object has without owning them. *)
Definition objectPrototypeNames : list jsstring :=
  [lit "__defineGetter__"; lit "__defineSetter__"; lit "__lookupGetter__";
   lit "__lookupSetter__"; lit "__proto__"; lit "constructor";
   lit "hasOwnProperty"; lit "isPrototypeOf"; lit "propertyIsEnumerable";
   lit "toLocaleString"; lit "toString"; lit "valueOf"].

(** The chats of a project, in the order of the list. *)
Definition ofProject (name : jsstring) (chats : list Chat) : list Chat :=
  filter (fun c => projectKey c = name) chats.

(** The label that the layout gives a chat of the list: the question of
    the first turn of its history, or "New conversation" when the history
    is empty or that question is. *)
Definition firstQuestion (c : Chat) : jsstring :=
  match chat_history c with
  | first :: _ =>
      match user_query first with
      | [] => lit "New conversation"
      | q => q
      end
  | [] => lit "New conversation"
  end.

(** The id [i] is the one that the layout gives the chat [c] of the list:
    the chat's own id when that is a string that is not empty or a number
    that is truthy; else its conversation id when that is not empty; else
    the text [chat-<clock>-<random>], from a reading of the clock and a
    value of the random source. *)
Definition identifies (w : World ChatsBody) (b : DashboardLayout.Browser)
    (c : Chat) (i : option ChatId) : Prop :=
  let otherwise :=
    match vector_id c with
    | _ :: _ => i = Some (IdString (vector_id c))
    | [] =>
        exists j, i = Some (IdString (lit "chat-" ++ decimal (clock w j)
                                      ++ lit "-"
                                      ++ DashboardLayout.random b j))
    end in
  match chat_id c with
  | Some (IdString (a :: s)) => i = Some (IdString (a :: s))
  | Some (IdNumber n) =>
      if number_truthy n then i = Some (IdNumber n) else otherwise
  | Some (IdString []) | None => otherwise
  end.

(** The destructive toast of a failed upload. *)
Definition uploadFailed (m : jsstring) : ToastArgs := {|
  title := lit "Upload failed";
  description := JStr m;
  variant := Some (lit "destructive");
|}.

(** The location [/dashboard/chat/<project><rest>]. *)
Definition onChatPath (b : DashboardLayout.Browser) (project rest : jsstring)
  : Prop :=
  Config.pathname (DashboardLayout.window b)
  = lit "/dashboard/chat/" ++ project ++ rest.

End FurtherVocabulary.

(** Further concrete inputs. *)
Module SampleMore.
#[local] Existing Instance sampleHost.

(** A second file. *)
Definition notes : File := {|
  file_name := lit "notes.txt";
  file_type := lit "text/plain";
  file_bytes := [104; 105]%N;
|}.

(** The back end rejects the request with two validation errors. *)
Definition rejecting : World JValue :=
  answering (lit "t0k3n") Sample.tick 422
    (validationBody [[(lit "msg", JStr (lit "field required"))];
                     [(lit "msg", JStr (lit "field required"))]]).

(** A stored conversation whose timestamp is not a date. *)
Definition undated : Chat := {|
  chat_id := None;
  project_name := lit "demo";
  vector_id := lit "c-18";
  chat_history := [Sample.turn "What is X?" "X is a letter."];
  chat_timestamp := lit "yesterday";
  last_message := None;
  other := [];
|}.

(** A chat as the sidebar holds it, with its label. *)
Definition labelled (label : string) : Chat := {|
  chat_id := Some (IdString (lit "c-17"));
  project_name := lit "demo";
  vector_id := lit "c-17";
  chat_history := [];
  chat_timestamp := lit "2025-01-01T00:00:00.000Z";
  last_message := Some (lit label);
  other := [];
|}.

(** The layout after a load that found the given chats. *)
Definition loaded (found : list Chat) : DashboardLayout.State := {|
  DashboardLayout.chats := found;
  DashboardLayout.isLoading := false;
  DashboardLayout.error := None;
|}.

End SampleMore.

(* ===================================================================== *)
(** * Strings *)
(* ===================================================================== *)

(** The conversion of [FormData.append], which scans the text for pairs,
    gives the scalar values of the text, which are defined unit by
    unit. *)
Lemma surrogate_ranges (c : N) :
  isHighSurrogate c = leadSurrogate c /\ isLowSurrogate c = trailSurrogate c
  /\ (leadSurrogate c = true -> trailSurrogate c = false).
Proof.
  unfold isHighSurrogate, isLowSurrogate, leadSurrogate, trailSurrogate.
  repeat split; try reflexivity.
  intros Hl. apply andb_true_iff in Hl as [_ Hl]. apply N.leb_le in Hl.
  apply andb_false_iff. left. apply N.leb_gt. lia.
Qed.

Lemma toUSVString_cons (c : N) (r : jsstring) :
  toUSVString (c :: r)
  = if isHighSurrogate c then
      match r with
      | d :: r' =>
          if isLowSurrogate d then c :: d :: toUSVString r'
          else 65533%N :: toUSVString r
      | [] => [65533%N]
      end
    else if isLowSurrogate c then 65533%N :: toUSVString r
    else c :: toUSVString r.
Proof. reflexivity. Qed.

Lemma toUSVString_after (n : nat) (s : jsstring) (before : option N) :
  (length s <= n)%nat ->
  (from_option leadSurrogate false before = true ->
   from_option trailSurrogate false (head s) = false) ->
  toUSVString s = scalarValuesAfter before s.
Proof.
  revert s before. induction n as [|n IH]; intros [|c r] before Hn Hb;
    try reflexivity; try (simpl in Hn; lia).
  assert (Hr : (length r <= n)%nat) by (simpl in Hn; lia).
  rewrite toUSVString_cons. cbn [scalarValuesAfter]. unfold unpaired.
  destruct (surrogate_ranges c) as (Eh & El & Hdisj). rewrite Eh, El.
  cbn [head from_option] in Hb.
  destruct (leadSurrogate c) eqn:Hc.
  - rewrite (Hdisj eq_refl). destruct r as [|d r']; [reflexivity|].
    cbn [head from_option].
    destruct (surrogate_ranges d) as (_ & El' & Hdisj'). rewrite El'.
    destruct (trailSurrogate d) eqn:Hd; cbn [andb orb negb].
    + cbn [scalarValuesAfter]. unfold unpaired. cbn [from_option].
      rewrite Hc, Hd.
      destruct (leadSurrogate d) eqn:Hd'; [specialize (Hdisj' eq_refl); congruence|].
      cbn [andb orb negb]. do 2 f_equal.
      apply IH; [simpl in Hr; lia|]. cbn [from_option]. congruence.
    + f_equal. apply IH; [exact Hr|]. intros _. exact Hd.
  - cbn [andb orb negb]. destruct (trailSurrogate c) eqn:Hc'.
    + destruct (from_option leadSurrogate false before) eqn:Hbf.
      * specialize (Hb eq_refl). congruence.
      * cbn [andb orb negb]. f_equal. apply IH; [exact Hr|].
        cbn [from_option]. congruence.
    + f_equal. apply IH; [exact Hr|]. cbn [from_option]. congruence.
Qed.

Lemma toUSVString_scalarValues (s : jsstring) : toUSVString s = scalarValues s.
Proof.
  apply (toUSVString_after (length s)); [lia|]. simpl. intros; congruence.
Qed.

Lemma scalarValues_plain (s : jsstring) : plainText s -> scalarValues s = s.
Proof.
  intros Hp. unfold scalarValues. generalize (@None N).
  induction Hp as [|c r Hc _ IH]; intros before; simpl; [reflexivity|].
  rewrite IH. f_equal.
  unfold unpaired, leadSurrogate, trailSurrogate.
  replace ((0xD800 <=? c) && (c <=? 0xDBFF))%N with false
    by (symmetry; apply andb_false_iff; rewrite !N.leb_gt; lia).
  replace ((0xDC00 <=? c) && (c <=? 0xDFFF))%N with false
    by (symmetry; apply andb_false_iff; rewrite !N.leb_gt; lia).
  reflexivity.
Qed.

Lemma plainText_checked (s : jsstring) :
  forallb (fun c => (c <? 0xD800) || (0xDFFF <? c))%N s = true -> plainText s.
Proof.
  induction s as [|c r IH]; simpl; [constructor|].
  intros [Hc Hr]%andb_prop. constructor; [|exact (IH Hr)].
  apply orb_true_iff in Hc as [Hc|Hc]; apply N.ltb_lt in Hc; [left|right];
    exact Hc.
Qed.

Lemma trimStart_blank (s : jsstring) : blank s = true -> trimStart s = [].
Proof.
  induction s as [|c r IH]; simpl; [done|].
  intros [Hc Hr]%andb_prop. rewrite Hc. auto.
Qed.

Lemma trim_blank (s : jsstring) : blank s = true -> trim s = [].
Proof.
  intros Hs. unfold trim. rewrite (trimStart_blank s Hs). reflexivity.
Qed.

Lemma trimStart_nil_blank (s : jsstring) : trimStart s = [] -> blank s = true.
Proof.
  induction s as [|c r IH]; simpl; [done|].
  destruct (isWhiteSpace c); [auto | discriminate].
Qed.

Lemma blank_app (s t : jsstring) : blank (s ++ t) = blank s && blank t.
Proof. unfold blank. apply forallb_app. Qed.

Lemma blank_rev (s : jsstring) : blank (rev s) = blank s.
Proof.
  induction s as [|c r IH]; simpl; [done|].
  rewrite blank_app, IH. simpl. rewrite andb_true_r. apply andb_comm.
Qed.

Lemma trimStart_suffix (s : jsstring) :
  exists p, s = p ++ trimStart s /\ blank p = true.
Proof.
  induction s as [|c r [p [Hp Hb]]]; simpl.
  - exists []. done.
  - destruct (isWhiteSpace c) eqn:Hc.
    + exists (c :: p). simpl. rewrite Hc, Hb. split; [congruence | done].
    + exists []. done.
Qed.

(** [trim] yields the empty string exactly on blank texts. *)
Lemma trim_nil_iff (s : jsstring) : trim s = [] <-> blank s = true.
Proof.
  split; [|apply trim_blank].
  unfold trim, trimEnd. intros Ht.
  destruct (trimStart_suffix s) as [p [Hs Hp]].
  assert (Hr : trimStart (rev (trimStart s)) = []).
  { apply (f_equal (@rev N)) in Ht. rewrite rev_involutive in Ht. exact Ht. }
  apply trimStart_nil_blank in Hr. rewrite blank_rev in Hr.
  rewrite Hs, blank_app, Hp, Hr. done.
Qed.

Lemma startsWith_spec (s pat : jsstring) :
  startsWith s pat = true <-> exists post, s = pat ++ post.
Proof.
  revert s. induction pat as [|p pat IH]; intros s; simpl.
  - destruct s; simpl; (split; [intros _; eexists; reflexivity | done]).
  - destruct s as [|c s]; simpl.
    + split; [discriminate | intros [post Hp]; discriminate].
    + rewrite andb_true_iff, N.eqb_eq, IH. split.
      * intros [-> [post ->]]. eauto.
      * intros [post [= -> ->]]. eauto.
Qed.

(** [includes] finds the pattern exactly when it occurs in the string. *)
Lemma includes_spec (s pat : jsstring) :
  includes s pat = true <-> exists pre post, s = pre ++ pat ++ post.
Proof.
  induction s as [|c r IH]; cbn [includes].
  - rewrite orb_false_r, startsWith_spec. split.
    + intros [post Hp]. exists [], post. exact Hp.
    + intros [pre [post Hp]]. symmetry in Hp.
      apply app_eq_nil in Hp as [-> Hp]. exists post. symmetry. exact Hp.
  - rewrite orb_true_iff, startsWith_spec, IH. split.
    + intros [[post Hp] | [pre [post Hp]]].
      * exists [], post. exact Hp.
      * exists (c :: pre), post. simpl. congruence.
    + intros [[|c' pre] [post Hp]]; simpl in Hp.
      * left. eauto.
      * right. injection Hp as -> ->. eauto.
Qed.

(* ===================================================================== *)
(** * The chat pages: what a submission does *)
(* ===================================================================== *)

Section ChatFacts.
Context `{Host}.

Lemma trim_isEmpty (s : jsstring) : isEmpty (trim s) = blank s.
Proof.
  destruct (blank s) eqn:Hb.
  - rewrite (trim_blank s Hb). reflexivity.
  - destruct (trim s) eqn:Ht; [|reflexivity].
    apply trim_nil_iff in Ht. congruence.
Qed.

(** The sniffing of the source finds the value that [sniffed] words. *)
Lemma responseText_sniffed (data : JValue) :
  data <> JNull -> data <> JUndefined ->
  ChatCore.responseText data = ret (sniffed data).
Proof.
  intros Hn Hu. unfold ChatCore.responseText.
  destruct data; try congruence; try reflexivity.
  unfold sniffed, answerFields, getProp, lift, bind, ret. simpl.
  repeat (match goal with
          | |- context [truthy ?v] => destruct (truthy v) eqn:?; simpl
          end); reflexivity.
Qed.

Lemma responseText_null (data : JValue) :
  data = JNull \/ data = JUndefined ->
  ChatCore.responseText data
  = throw (ErrorObject (nullPropertyMessage (lit "chatbot_answer"))).
Proof. intros [-> | ->]; reflexivity. Qed.

(** What the [try] block does, case by case. *)
Lemma attempt_outcome fields (w : World JValue) :
  ChatCore.attempt fields w
  = match usable (token w) with
    | None => ([RouterPush (lit "/login")], inr None)
    | Some tok =>
        let sent := Fetch (ChatCore.chatRequest tok fields) in
        match settles w with
        | Rejected e => ([sent], inl e)
        | Resolved r =>
            match json r with
            | inl e => ([sent], inl e)
            | inr data =>
                if ok r then
                  ([sent; Console Log (lit "Backend response:")],
                   match data with
                   | JNull | JUndefined =>
                       inl (ErrorObject
                              (nullPropertyMessage (lit "chatbot_answer")))
                   | _ => inr (Some (reply w (sniffed data)))
                   end)
                else
                  ([sent],
                   match getProp data (lit "detail") with
                   | inl e => inl e
                   | inr detail =>
                       inl (new_Error
                              (or_else detail
                                 (JStr (lit "Failed to get response"))))
                   end)
            end
        end
    end.
Proof.
  unfold ChatCore.attempt.
  destruct (usable (token w)) as [tok|]; [|reflexivity].
  destruct (settles w) as [e|[code [e|data]]]; [reflexivity| |].
  - unfold await, lift, bind, emit, json; simpl. destruct (ok _); reflexivity.
  - unfold await, lift, bind, emit, json; simpl.
    destruct (ok _); simpl.
    + destruct data;
        first [ reflexivity
              | rewrite responseText_sniffed by congruence; reflexivity ].
    + destruct (getProp data (lit "detail")); reflexivity.
Qed.

(** The requests of a submission: none for a blank input or without a
    token, else the one request to [/chat] with the page's form data. *)
Lemma submit_requests fields (st : ChatCore.State) (w : World JValue) :
  requests (snd (ChatCore.submit fields st w))
  = if blank (ChatCore.input st) then []
    else match usable (token w) with
         | Some tok => [ChatCore.chatRequest tok (fields (ChatCore.input st))]
         | None => []
         end.
Proof.
  unfold ChatCore.submit. rewrite trim_isEmpty, attempt_outcome.
  destruct (blank (ChatCore.input st)); [reflexivity|].
  destruct (usable (token w)) as [tok|]; [|reflexivity].
  destruct (settles w) as [e|[code [e|data]]]; simpl; try reflexivity.
  destruct (ok _); simpl.
  - destruct data; reflexivity.
  - destruct (getProp data (lit "detail")); reflexivity.
Qed.

(** A successful answer: the question and the sniffed answer are
    appended, and nothing is reported. *)
Lemma submit_answered fields (st : ChatCore.State) tok clk code data :
  blank (ChatCore.input st) = false ->
  tok <> [] -> 200 <= code <= 299 ->
  data <> JNull -> data <> JUndefined ->
  ChatCore.submit fields st (answering tok clk code data)
  = (exchanged st (answering tok clk code data) (sniffed data),
     [PreventDefault;
      Fetch (ChatCore.chatRequest tok (fields (ChatCore.input st)));
      Console Log (lit "Backend response:")]).
Proof.
  intros Hb Ht Hc Hn Hu.
  unfold ChatCore.submit. rewrite trim_isEmpty, Hb, attempt_outcome.
  destruct tok as [|c tok]; [done|]. simpl.
  assert (Hok : ok {| status := code; json := inr data |} = true).
  { unfold ok. simpl. apply andb_true_intro. split; apply Z.leb_le; lia. }
  rewrite Hok. unfold exchanged.
  destruct data; try congruence; simpl; rewrite <- app_assoc; reflexivity.
Qed.

(** A failed request: the question and the fixed apology are appended,
    and the one toast carries the message of the failure. *)
Lemma submit_failed fields (st : ChatCore.State) (w : World JValue) tok m :
  blank (ChatCore.input st) = false ->
  usable (token w) = Some tok ->
  chatFault w = Some m ->
  fst (ChatCore.submit fields st w)
  = exchanged st w (JStr ChatCore.apology)
  /\ toasts (snd (ChatCore.submit fields st w)) = [errorToast m].
Proof.
  intros Hb Ht Hm.
  unfold ChatCore.submit. rewrite trim_isEmpty, Hb, attempt_outcome, Ht.
  unfold chatFault in Hm. unfold exchanged.
  destruct (settles w) as [e|[code [e|data]]]; simpl in *.
  - injection Hm as <-. rewrite <- app_assoc. split; reflexivity.
  - injection Hm as <-. rewrite <- app_assoc. split; reflexivity.
  - destruct (ok _); simpl.
    + destruct data; try discriminate; injection Hm as <-;
        simpl; rewrite <- app_assoc; split; reflexivity.
    + destruct data; simpl; injection Hm as <-;
        rewrite <- app_assoc; split; reflexivity.
Qed.

(** Without a token a submission only redirects. *)
Lemma submit_anonymous fields (st : ChatCore.State) (w : World JValue) :
  blank (ChatCore.input st) = false ->
  usable (token w) = None ->
  snd (ChatCore.submit fields st w)
  = [PreventDefault; RouterPush (lit "/login")].
Proof.
  intros Hb Ht. unfold ChatCore.submit.
  rewrite trim_isEmpty, Hb, attempt_outcome, Ht. reflexivity.
Qed.

(** A blank submission is ignored. *)
Lemma submit_blank fields (st : ChatCore.State) (w : World JValue) :
  blank (ChatCore.input st) = true ->
  ChatCore.submit fields st w = (st, [PreventDefault]).
Proof.
  intros Hb. unfold ChatCore.submit. rewrite trim_isEmpty, Hb. reflexivity.
Qed.

(** The conversation page runs the shared handler on its chat cells. *)
Lemma detail_submit project id (dst : ChatDetailPage.State) (w : World JValue) :
  ChatDetailPage.handleSubmit project id dst w
  = ({| ChatDetailPage.chat :=
          fst (ChatCore.submit (ChatDetailPage.formData project id)
                 (ChatDetailPage.chat dst) w);
        ChatDetailPage.isInitialLoading := ChatDetailPage.isInitialLoading dst |},
     snd (ChatCore.submit (ChatDetailPage.formData project id)
            (ChatDetailPage.chat dst) w)).
Proof.
  unfold ChatDetailPage.handleSubmit.
  destruct (ChatCore.submit _ _ _). reflexivity.
Qed.

Lemma usable_token (t : option jsstring) tok :
  usable t = Some tok -> t = Some tok.
Proof.
  destruct t as [[|c s]|]; simpl; intros Hu; try discriminate.
  injection Hu as <-. reflexivity.
Qed.

End ChatFacts.

(* ===================================================================== *)
(** * The conversation page: loading the history *)
(* ===================================================================== *)

Section HistoryFacts.
Context `{Host}.

Lemma bind_trace {A B} (m : Run A) (k : A -> Run B) :
  fst (bind m k)
  = fst m ++ match snd m with
             | inr a => fst (k a)
             | inl _ => []
             end.
Proof.
  destruct m as [tr [e|a]]; simpl.
  - symmetry. apply app_nil_r.
  - destruct (k a). reflexivity.
Qed.

(** Reading the time of a stored chat performs no effect, and succeeds
    as soon as the stored timestamp is empty or a date. *)
Lemma stamp_silent (chatData : Chat) clk k :
  fst (ChatDetailPage.stamp chatData clk k) = [].
Proof.
  unfold ChatDetailPage.stamp.
  destruct (isEmpty _); [reflexivity|]. destruct (Date_parse _); reflexivity.
Qed.

Lemma convert_silent (chatData : Chat) clk items index :
  fst (ChatDetailPage.convert chatData clk items index) = [].
Proof.
  revert index. induction items as [|item rest IH]; intros index; simpl.
  - reflexivity.
  - rewrite bind_trace, stamp_silent. simpl.
    destruct (snd (ChatDetailPage.stamp chatData clk (index + (index + 0))));
      [reflexivity|].
    rewrite bind_trace, stamp_silent. simpl.
    destruct (snd (ChatDetailPage.stamp chatData clk (index + (index + 0) + 1)));
      [reflexivity|].
    rewrite bind_trace, IH. simpl.
    destruct (snd (ChatDetailPage.convert chatData clk rest (S index)));
      reflexivity.
Qed.

Lemma stamp_datable (chatData : Chat) clk k :
  datable chatData ->
  exists t, ChatDetailPage.stamp chatData clk k = ret t.
Proof.
  unfold ChatDetailPage.stamp. intros [He|[t Ht]].
  - rewrite He. simpl. eauto.
  - destruct (isEmpty _); [eauto|]. rewrite Ht. eauto.
Qed.

(** The conversion replays the history in stored order. *)
Lemma convert_replays (chatData : Chat) clk items index :
  datable chatData ->
  exists msgs,
    ChatDetailPage.convert chatData clk items index = ret msgs
    /\ transcript msgs = replayed items.
Proof.
  intros Hd. revert index.
  induction items as [|item rest IH]; intros index.
  - exists []. done.
  - destruct (IH (S index)) as [more [Hmore Htr]].
    destruct (stamp_datable chatData clk (2 * index) Hd) as [t1 Ht1].
    destruct (stamp_datable chatData clk (2 * index + 1) Hd) as [t2 Ht2].
    eexists. split.
    + cbn [ChatDetailPage.convert]. rewrite Ht1, Ht2, Hmore. reflexivity.
    + cbn [transcript replayed flat_map map msg_role msg_content app].
      f_equal. f_equal. exact Htr.
Qed.

(** The requests of the history load. *)
Lemma loadHistory_requests project id (w : World ChatsBody) :
  requests (fst (ChatDetailPage.loadHistory project id w))
  = match usable (token w) with
    | Some tok => [ChatDetailPage.historyRequest tok]
    | None => []
    end.
Proof.
  unfold ChatDetailPage.loadHistory.
  destruct (usable (token w)) as [tok|]; [|reflexivity].
  destruct (settles w) as [e|[code [e|data]]]; simpl; try reflexivity.
  - destruct (ok _); reflexivity.
  - destruct (ok _); simpl; [|reflexivity].
    destruct (ChatDetailPage.chatData_of id data) as [e|[chatData|]];
      simpl; try reflexivity.
    pose proof (convert_silent chatData (clock w) (chat_history chatData) 0) as Hs.
    destruct (ChatDetailPage.convert _ _ _ _) as [tr [e|[|m ms]]];
      simpl in *; subst tr; reflexivity.
Qed.

Lemma fetchChatHistory_requests project id st (w : World ChatsBody) :
  requests (snd (ChatDetailPage.fetchChatHistory project id st w))
  = match usable (token w) with
    | Some tok => [ChatDetailPage.historyRequest tok]
    | None => []
    end.
Proof.
  rewrite <- (loadHistory_requests project id).
  unfold ChatDetailPage.fetchChatHistory.
  destruct (ChatDetailPage.loadHistory project id w) as [tr [e|[msgs|]]];
    simpl; try reflexivity.
  unfold requests. rewrite omap_app. simpl. apply app_nil_r.
Qed.

Lemma fetchChatHistory_anonymous project id st (w : World ChatsBody) :
  usable (token w) = None ->
  ChatDetailPage.fetchChatHistory project id st w
  = ({| ChatDetailPage.chat := ChatDetailPage.chat st;
        ChatDetailPage.isInitialLoading := false |},
     [RouterPush (lit "/login")]).
Proof.
  intros Ht. unfold ChatDetailPage.fetchChatHistory, ChatDetailPage.loadHistory.
  rewrite Ht. reflexivity.
Qed.

(** A stored conversation with turns and a displayable timestamp is shown
    turn by turn, in stored order. *)
Lemma fetchChatHistory_replays project id st (w : World ChatsBody) tok r chats chatData :
  usable (token w) = Some tok ->
  settles w = Resolved r -> ok r = true ->
  json r = inr (BodyObject (Some chats)) ->
  ChatDetailPage.findChat id chats = Some chatData ->
  chat_history chatData <> [] ->
  datable chatData ->
  transcript
    (ChatCore.messages
       (ChatDetailPage.chat
          (fst (ChatDetailPage.fetchChatHistory project id st w))))
  = replayed (chat_history chatData).
Proof.
  intros Ht Hs Hok Hj Hf Hne Hd.
  unfold ChatDetailPage.fetchChatHistory, ChatDetailPage.loadHistory.
  rewrite Ht, Hs. unfold await, lift, bind, emit. simpl.
  rewrite Hok, Hj. simpl. rewrite Hf.
  destruct (convert_replays chatData (clock w) (chat_history chatData) 0 Hd)
    as [msgs [Hc Htr]].
  rewrite Hc. unfold ret.
  destruct msgs as [|m ms].
  - destruct (chat_history chatData); [done | discriminate].
  - simpl. exact Htr.
Qed.

End HistoryFacts.

(* ===================================================================== *)
(** * The upload page and the dashboard layout *)
(* ===================================================================== *)

Section UploadFacts.
Context `{Host}.

(** The requests of an upload: none unless the name is not blank, a file
    is selected and a token is stored; then the one request to
    [/data-ingest]. *)
Lemma upload_requests (st : UploadPage.State) (w : World JValue) :
  requests (snd (UploadPage.handleSubmit st w))
  = if blank (UploadPage.projectName st) then []
    else match UploadPage.files st with
         | [] => []
         | _ :: _ =>
             match usable (token w) with
             | Some tok => [UploadPage.ingestRequest tok st]
             | None => []
             end
         end.
Proof.
  unfold UploadPage.handleSubmit. rewrite trim_isEmpty.
  destruct (blank _); [reflexivity|].
  destruct (UploadPage.files st) as [|f fs] eqn:Hf; [reflexivity|].
  cbn [length Nat.eqb]. unfold UploadPage.attempt.
  destruct (usable (token w)) as [tok|]; [|reflexivity].
  destruct (settles w) as [e|[code [e|data]]]; simpl; try reflexivity.
  - destruct (ok _); reflexivity.
  - destruct (ok _); simpl.
    + destruct (getProp data (lit "message")); reflexivity.
    + destruct (getProp data (lit "detail")); reflexivity.
Qed.

(** Without a token a validated upload only redirects. *)
Lemma upload_anonymous (st : UploadPage.State) (w : World JValue) :
  blank (UploadPage.projectName st) = false ->
  UploadPage.files st <> [] ->
  usable (token w) = None ->
  snd (UploadPage.handleSubmit st w)
  = [PreventDefault; RouterPush (lit "/login")].
Proof.
  intros Hb Hf Ht. unfold UploadPage.handleSubmit.
  rewrite trim_isEmpty, Hb.
  destruct (UploadPage.files st) as [|f fs]; [done|].
  cbn [length Nat.eqb]. unfold UploadPage.attempt. rewrite Ht. reflexivity.
Qed.

End UploadFacts.

Section LayoutFacts.
Context `{Host}.

(** What the [try] block of [fetchChats] does, case by case. *)
Lemma loadChats_outcome tok (w : World ChatsBody) (b : DashboardLayout.Browser) :
  DashboardLayout.loadChats tok w b
  = let opening := [Console Log (lit "Fetching chats from:");
                    Fetch (DashboardLayout.chatsRequest tok)] in
    match settles w with
    | Rejected e => (opening, inl e)
    | Resolved r =>
        let answered := opening ++ [Console Log (lit "Chat response status:")] in
        if ok r then
          match json r with
          | inl e => (answered, inl e)
          | inr data =>
              match DashboardLayout.chatsList_of data with
              | inl e => (answered ++ [Console Log (lit "Parsed data:")], inl e)
              | inr chatsList =>
                  (answered ++ [Console Log (lit "Parsed data:");
                                Console Log (lit "Processed chats list:");
                                Console Log (lit "Normalized chats:")],
                   inr (Some (DashboardLayout.normalizeAll w b chatsList 0)))
              end
          end
        else if status r =? 401 then
          (answered ++ [RemoveItem (lit "token"); RouterPush (lit "/login")],
           inr None)
        else
          (answered,
           inl (ErrorObject (lit "Failed to fetch chats: " ++ decimal (status r))))
    end.
Proof.
  unfold DashboardLayout.loadChats.
  destruct (settles w) as [e|[code [e|data]]]; simpl; try reflexivity.
  - destruct (ok _); simpl; [reflexivity|]. destruct (code =? 401); reflexivity.
  - destruct (ok _); simpl.
    + destruct (DashboardLayout.chatsList_of data); reflexivity.
    + destruct (code =? 401); reflexivity.
Qed.

Lemma requests_app (tr tr' : list Effect) :
  requests (tr ++ tr') = requests tr ++ requests tr'.
Proof. apply omap_app. Qed.

(** The chat-list fetch sends exactly one request, with the token. *)
Lemma fetchChats_requests tok st (w : World ChatsBody) b :
  requests (snd (DashboardLayout.fetchChats tok st w b))
  = [DashboardLayout.chatsRequest tok].
Proof.
  unfold DashboardLayout.fetchChats. rewrite loadChats_outcome.
  destruct (settles w) as [e|[code [e|data]]]; simpl; try reflexivity.
  - destruct (ok _); simpl; [reflexivity|]. destruct (code =? 401); reflexivity.
  - destruct (ok _); simpl.
    + destruct (DashboardLayout.chatsList_of data); reflexivity.
    + destruct (code =? 401); reflexivity.
Qed.

(** A 401 removes the stored token and redirects to the login page; the
    chats and the error are left as they were. *)
Lemma fetchChats_unauthorized tok st (w : World ChatsBody) b r :
  settles w = Resolved r -> status r = 401 ->
  DashboardLayout.fetchChats tok st w b
  = ({| DashboardLayout.chats := DashboardLayout.chats st;
        DashboardLayout.isLoading := false;
        DashboardLayout.error := DashboardLayout.error st |},
     [Console Log (lit "Fetching chats from:");
      Fetch (DashboardLayout.chatsRequest tok);
      Console Log (lit "Chat response status:");
      RemoveItem (lit "token");
      RouterPush (lit "/login")]).
Proof.
  intros Hs Hc. unfold DashboardLayout.fetchChats.
  rewrite loadChats_outcome, Hs. cbn zeta.
  unfold ok. rewrite Hc. reflexivity.
Qed.

(** A failed chat-list request: the message is recorded and shown, and
    the list becomes the default chat of the project of the location, if
    the location names one. *)
Lemma fetchChats_failed tok st (w : World ChatsBody) b m :
  listFault w = Some m ->
  fst (DashboardLayout.fetchChats tok st w b)
  = {| DashboardLayout.chats :=
         DashboardLayout.withDefault w b (DashboardLayout.chats st);
       DashboardLayout.isLoading := false;
       DashboardLayout.error := Some m |}
  /\ toasts (snd (DashboardLayout.fetchChats tok st w b))
     = [errorToast (lit "Failed to load chat history: " ++ m)].
Proof.
  intros Hm. unfold DashboardLayout.fetchChats.
  rewrite loadChats_outcome. unfold listFault in Hm.
  destruct (settles w) as [e|[code [e|data]]]; simpl in *.
  - injection Hm as <-. split; reflexivity.
  - destruct (ok _); simpl.
    + injection Hm as <-. split; reflexivity.
    + destruct (code =? 401); [discriminate|].
      injection Hm as <-. split; reflexivity.
  - destruct (ok _); simpl.
    + destruct data; try discriminate. injection Hm as <-. split; reflexivity.
    + destruct (code =? 401); [discriminate|].
      injection Hm as <-. split; reflexivity.
Qed.

End LayoutFacts.

(* ===================================================================== *)
(** * The vector store: the invariant and its consequences *)
(* ===================================================================== *)

Section StoreFacts.
Context {Embedding : Type}.
Variable dim : Embedding -> nat.
Variable closer : Embedding -> Embedding -> Embedding -> bool.

Implicit Types (s : VS.Store Embedding) (c r : VS.Chunk Embedding)
  (p : VS.Project) (l : list (VS.Chunk Embedding)).

Lemma consistent_empty : VS.consistent (@VS.empty Embedding).
Proof.
  split; simpl; intros *; rewrite ?lookup_empty; discriminate.
Qed.

(** The chunks made for a document carry the ids generated for them and
    the project they are made for. *)
Lemma chunksFrom_spec p doc first position (passages : list (VS.Passage Embedding)) c :
  c ∈ VS.chunksFrom p doc first position passages ->
  (first <= VS.chunk_id c < first + length passages)%nat
  /\ VS.source_project c = p.
Proof.
  revert first position.
  induction passages as [|x rest IH]; intros first position; simpl.
  - intros Hc. inversion Hc.
  - intros Hc. apply elem_of_cons in Hc as [-> | Hc]; simpl.
    + split; [lia | reflexivity].
    + apply IH in Hc as [Hc Hp]. split; [lia | exact Hp].
Qed.

Lemma merged_elem (old records : list (VS.Chunk Embedding)) c :
  c ∈ VS.merged old records -> c ∈ old \/ c ∈ records.
Proof.
  unfold VS.merged. rewrite elem_of_app, list_elem_of_filter. tauto.
Qed.

(** Closes a goal from a registered id that would have to be fresh, or
    from a record of an empty collection. *)
Ltac absurd_store Hreg :=
  solve
    [ eauto
    | lia
    | exfalso; eapply not_elem_of_nil; eassumption
    | repeat match goal with
             | Hx : VS.registry _ !! _ = Some _ |- _ => apply Hreg in Hx
             end; lia ].

Lemma consistent_ensure p s :
  VS.consistent s ->
  VS.consistent (snd (VS.ensure_collection p s))
  /\ VS.registry (snd (VS.ensure_collection p s)) !! p
     = Some (fst (VS.ensure_collection p s))
  /\ VS.next_chunk (snd (VS.ensure_collection p s)) = VS.next_chunk s.
Proof.
  intros [Hinj Hreg Hbound Huniq Hown]. unfold VS.ensure_collection.
  destruct (VS.registry s !! p) as [cid|] eqn:Hp; simpl.
  { repeat split; auto. }
  split; [|split; [apply lookup_insert_eq | reflexivity]].
  split; simpl.
  - intros p1 p2 cid. rewrite !lookup_insert.
    repeat case_decide; subst; intros H1 H2; simplify_eq;
      absurd_store Hreg.
  - intros p' cid. rewrite lookup_insert.
    case_decide; intros H1; simplify_eq; absurd_store Hreg.
  - intros cid l c. rewrite lookup_insert.
    case_decide; intros H1 Hc; simplify_eq; absurd_store Hreg.
  - intros cid1 cid2 l1 l2 c1 c2. rewrite !lookup_insert.
    repeat case_decide; intros H1 Hc1 H2 Hc2; simplify_eq;
      absurd_store Hreg.
  - intros p' cid l c. rewrite !lookup_insert.
    repeat case_decide; intros H1 H2 Hc; simplify_eq;
      absurd_store Hreg.
Qed.

Lemma consistent_ingest_file p file s :
  VS.consistent s -> VS.consistent (fst (VS.ingest_file dim p file s)).
Proof.
  intros Hs. unfold VS.ingest_file.
  destruct file as [e|passages]; [exact Hs|].
  destruct (consistent_ensure p s Hs) as [Hs1 [Hp Hn]].
  destruct (VS.ensure_collection p s) as [cid s1]. simpl in Hs1, Hp, Hn.
  unfold VS.upsert.
  destruct (VS.collections s1 !! cid) as [old|] eqn:Hold; [|exact Hs].
  destruct (VS.same_dimension dim old _); [|exact Hs].
  destruct Hs1 as [Hinj Hreg Hbound Huniq Hown].
  set (records := VS.chunksFrom p (VS.next_document s) (VS.next_chunk s) 0 passages).
  assert (Hrec : forall c, c ∈ records ->
            (VS.next_chunk s1 <= VS.chunk_id c
             < VS.next_chunk s1 + length passages)%nat
            /\ VS.source_project c = p).
  { intros c Hc. rewrite Hn. apply (chunksFrom_spec _ _ _ _ _ _ Hc). }
  split; simpl.
  - exact Hinj.
  - exact Hreg.
  - intros cid' l c. rewrite lookup_insert.
    case_decide; intros H1 Hc; simplify_eq.
    + apply merged_elem in Hc as [Hc|Hc].
      * specialize (Hbound _ _ _ Hold Hc). lia.
      * apply Hrec in Hc. lia.
    + specialize (Hbound _ _ _ H1 Hc). lia.
  - intros cid1 cid2 l1 l2 c1 c2. rewrite !lookup_insert.
    repeat case_decide; intros H1 Hc1 H2 Hc2 Heq; simplify_eq; auto.
    + apply merged_elem in Hc1 as [Hc1|Hc1]; [eauto|].
      apply Hrec in Hc1. specialize (Hbound _ _ _ H2 Hc2). lia.
    + apply merged_elem in Hc2 as [Hc2|Hc2]; [eauto|].
      apply Hrec in Hc2. specialize (Hbound _ _ _ H1 Hc1). lia.
    + eauto.
  - intros p' cid' l c Hp'. rewrite lookup_insert.
    case_decide; intros H1 Hc; simplify_eq.
    + assert (p' = p) as -> by eauto.
      apply merged_elem in Hc as [Hc|Hc]; [eauto|].
      apply Hrec in Hc. tauto.
    + eauto.
Qed.

Lemma consistent_ingest p batch s :
  VS.consistent s -> VS.consistent (fst (VS.ingest dim p batch s)).
Proof.
  revert s. induction batch as [|file rest IH]; intros s Hs; simpl; [exact Hs|].
  pose proof (consistent_ingest_file p file s Hs) as H1.
  destruct (VS.ingest_file dim p file s) as [s1 o]. simpl in H1.
  specialize (IH s1 H1).
  destruct (VS.ingest dim p rest s1) as [s2 os]. exact IH.
Qed.

Lemma consistent_delete p s :
  VS.consistent s -> VS.consistent (VS.delete_collection p s).
Proof.
  intros Hs. unfold VS.delete_collection.
  destruct (VS.registry s !! p) as [cid|] eqn:Hp; [|exact Hs].
  destruct Hs as [Hinj Hreg Hbound Huniq Hown].
  split; simpl.
  - intros p1 p2 cid'. rewrite !lookup_delete.
    repeat case_decide; intros H1 H2; simplify_eq; eauto.
  - intros p' cid'. rewrite lookup_delete.
    case_decide; intros H1; simplify_eq; eauto.
  - intros cid' l c. rewrite lookup_delete.
    case_decide; intros H1 Hc; simplify_eq; eauto.
  - intros cid1 cid2 l1 l2 c1 c2. rewrite !lookup_delete.
    repeat case_decide; intros H1 Hc1 H2 Hc2; simplify_eq; eauto.
  - intros p' cid' l c. rewrite !lookup_delete.
    repeat case_decide; intros H1 H2 Hc; simplify_eq; eauto.
Qed.

Lemma consistent_perform s call :
  VS.consistent s -> VS.consistent (VS.perform dim s call).
Proof.
  destruct call; simpl; [apply consistent_ingest | apply consistent_delete].
Qed.

(** Every reachable store is consistent. *)
Lemma consistent_after history : VS.consistent (VS.after dim history).
Proof.
  unfold VS.after. generalize (@consistent_empty).
  generalize (@VS.empty Embedding).
  induction history as [|call rest IH]; intros s Hs; simpl; [exact Hs|].
  apply IH, consistent_perform, Hs.
Qed.

Lemma place_elem q c l r : r ∈ VS.place closer q c l -> r = c \/ r ∈ l.
Proof.
  induction l as [|d rest IH]; simpl.
  - rewrite list_elem_of_singleton. auto.
  - destruct (closer _ _ _).
    + rewrite elem_of_cons. tauto.
    + rewrite !elem_of_cons. intros [->|Hr]; [auto|].
      apply IH in Hr. tauto.
Qed.

Lemma rank_elem q l r : r ∈ VS.rank closer q l -> r ∈ l.
Proof.
  unfold VS.rank. induction l as [|c rest IH]; simpl; [done|].
  intros Hr. apply place_elem in Hr as [->|Hr].
  - apply list_elem_of_here.
  - apply list_elem_of_further, IH, Hr.
Qed.

(** A search against a project returns records of its collection only. *)
Lemma search_project_holds p q k s found r :
  VS.search_project closer p q k s = inr found -> r ∈ found -> VS.holds s p r.
Proof.
  unfold VS.search_project, VS.search, VS.holds.
  destruct (VS.registry s !! p) as [cid|] eqn:Hp; [|discriminate].
  destruct (VS.collections s !! cid) as [l|] eqn:Hl; [|discriminate].
  intros [= <-] Hr. exists cid, l. repeat split; auto.
  apply (rank_elem q). eapply subseteq_take; eauto.
Qed.

End StoreFacts.

(* ===================================================================== *)
(** * The properties of the specification *)
(* ===================================================================== *)

Section AnswerText.
Context `{Host}.

Lemma unrecognized_sniffed (data : JValue) :
  unrecognized data ->
  data <> JNull /\ data <> JUndefined
  /\ sniffed data = JStr ChatCore.placeholder.
Proof.
  intros [Hf Hs]. unfold answerFields in Hf.
  apply Forall_cons in Hf as [[v1 [H1 T1]] Hf].
  apply Forall_cons in Hf as [[v2 [H2 T2]] Hf].
  apply Forall_cons in Hf as [[v3 [H3 T3]] Hf].
  apply Forall_cons in Hf as [[v4 [H4 T4]] _].
  destruct data; simpl in *; try discriminate; try (repeat split; congruence).
  injection H1 as <-. injection H2 as <-. injection H3 as <-. injection H4 as <-.
  repeat split; try congruence.
  unfold answerFields. simpl. rewrite T1, T2, T3, T4. reflexivity.
Qed.

(** C1, amended.  When a 2xx response carries no recognizable answer text
    (its body is not [null], none of [chatbot_answer], [response],
    [answer], [text] is truthy, and it is not a string), each chat page
    appends, after the question, an assistant message whose content is
    the fixed text "I couldn't find an answer to that question.", and
    reports nothing: the trace holds the request and a console log, no
    toast. *)
Theorem unrecognized_answer_gets_placeholder
    (project id : jsstring) (st : ChatCore.State) (dst : ChatDetailPage.State)
    (tok : jsstring) (clk : nat -> Z) (code : Z) (data : JValue) :
  tok <> [] -> 200 <= code <= 299 -> unrecognized data ->
  let w := answering tok clk code data in
  (blank (ChatCore.input st) = false ->
   ChatPage.handleSubmit project st w
   = (exchanged st w (JStr ChatCore.placeholder),
      [PreventDefault;
       Fetch (ChatCore.chatRequest tok
                (ChatPage.formData project (ChatCore.input st)));
       Console Log (lit "Backend response:")]))
  /\ (blank (ChatCore.input (ChatDetailPage.chat dst)) = false ->
      ChatDetailPage.handleSubmit project id dst w
      = ({| ChatDetailPage.chat :=
              exchanged (ChatDetailPage.chat dst) w (JStr ChatCore.placeholder);
            ChatDetailPage.isInitialLoading :=
              ChatDetailPage.isInitialLoading dst |},
         [PreventDefault;
          Fetch (ChatCore.chatRequest tok
                   (ChatDetailPage.formData project id
                      (ChatCore.input (ChatDetailPage.chat dst))));
          Console Log (lit "Backend response:")])).
Proof.
  intros Ht Hc Hd w.
  destruct (unrecognized_sniffed data Hd) as (Hn & Hu & Hs).
  split; intros Hb.
  - unfold ChatPage.handleSubmit, w.
    rewrite submit_answered by assumption. rewrite Hs. reflexivity.
  - rewrite detail_submit. unfold w.
    rewrite submit_answered by assumption. rewrite Hs. reflexivity.
Qed.

(** C2, amended.  For every 2xx response whose body is not [null], the
    answer appended by each chat page is found by trying the fields
    [chatbot_answer], [response], [answer], [text] in turn and taking the
    first truthy one; failing them, the body itself when it is a string;
    failing that, the fixed placeholder.  No shape of the body is
    rejected. *)
Theorem answer_is_sniffed
    (project id : jsstring) (st : ChatCore.State) (dst : ChatDetailPage.State)
    (tok : jsstring) (clk : nat -> Z) (code : Z) (data : JValue) :
  tok <> [] -> 200 <= code <= 299 -> data <> JNull -> data <> JUndefined ->
  let w := answering tok clk code data in
  (blank (ChatCore.input st) = false ->
   fst (ChatPage.handleSubmit project st w) = exchanged st w (sniffed data)
   /\ toasts (snd (ChatPage.handleSubmit project st w)) = [])
  /\ (blank (ChatCore.input (ChatDetailPage.chat dst)) = false ->
      ChatDetailPage.chat (fst (ChatDetailPage.handleSubmit project id dst w))
      = exchanged (ChatDetailPage.chat dst) w (sniffed data)
      /\ toasts (snd (ChatDetailPage.handleSubmit project id dst w)) = []).
Proof.
  intros Ht Hc Hn Hu w.
  split; intros Hb.
  - unfold ChatPage.handleSubmit, w.
    rewrite submit_answered by assumption. split; reflexivity.
  - rewrite detail_submit. unfold w.
    rewrite submit_answered by assumption. split; reflexivity.
Qed.

(** C6, amended.  A question submitted from the project page
    [/chat/[project]] is sent with exactly the fields [user_query] and
    [project_name]; a question submitted from the conversation page
    [/chat/[project]/[id]] is sent with exactly [user_query],
    [project_name] and [vector_id], the id of the route, whether or not a
    conversation of that id is stored.  Each field holds the scalar values
    of its text: the text itself, but for a surrogate that is not half of
    a pair, which is sent as U+FFFD; a text without surrogates is sent as
    it is.  Either page sends one request, and none for a blank input or
    without a token. *)
Theorem query_payload
    (project id : jsstring) (st : ChatCore.State) (dst : ChatDetailPage.State)
    (w : World JValue) :
  requests (snd (ChatPage.handleSubmit project st w))
  = (if blank (ChatCore.input st) then []
     else match usable (token w) with
          | Some tok =>
              [ChatCore.chatRequest tok
                 [(lit "user_query", FormText (scalarValues (ChatCore.input st)));
                  (lit "project_name", FormText (scalarValues project))]]
          | None => []
          end)
  /\ requests (snd (ChatDetailPage.handleSubmit project id dst w))
     = (if blank (ChatCore.input (ChatDetailPage.chat dst)) then []
        else match usable (token w) with
             | Some tok =>
                 [ChatCore.chatRequest tok
                    [(lit "user_query",
                      FormText (scalarValues
                                  (ChatCore.input (ChatDetailPage.chat dst))));
                     (lit "project_name", FormText (scalarValues project));
                     (lit "vector_id", FormText (scalarValues id))]]
             | None => []
             end)
  /\ (plainText (ChatCore.input st) ->
      scalarValues (ChatCore.input st) = ChatCore.input st)
  /\ (plainText (ChatCore.input (ChatDetailPage.chat dst)) ->
      scalarValues (ChatCore.input (ChatDetailPage.chat dst))
      = ChatCore.input (ChatDetailPage.chat dst))
  /\ (plainText project -> scalarValues project = project)
  /\ (plainText id -> scalarValues id = id).
Proof.
  split; [|split].
  - unfold ChatPage.handleSubmit. rewrite submit_requests.
    unfold ChatPage.formData. rewrite !toUSVString_scalarValues. reflexivity.
  - rewrite detail_submit. cbn [snd]. rewrite submit_requests.
    unfold ChatDetailPage.formData. rewrite !toUSVString_scalarValues.
    reflexivity.
  - repeat split; apply scalarValues_plain.
Qed.

(** C9.  A chat form submitted with an empty or white-space-only input
    is ignored by both pages: the state (messages, input, loading flag)
    is returned as it was, and the trace holds [preventDefault] only, so
    no request is sent. *)
Theorem blank_submission_is_ignored
    (project id : jsstring) (st : ChatCore.State) (dst : ChatDetailPage.State)
    (w : World JValue) :
  (blank (ChatCore.input st) = true ->
   ChatPage.handleSubmit project st w = (st, [PreventDefault])
   /\ requests (snd (ChatPage.handleSubmit project st w)) = [])
  /\ (blank (ChatCore.input (ChatDetailPage.chat dst)) = true ->
      ChatDetailPage.handleSubmit project id dst w = (dst, [PreventDefault])
      /\ requests (snd (ChatDetailPage.handleSubmit project id dst w)) = []).
Proof.
  split; intros Hb.
  - unfold ChatPage.handleSubmit. rewrite submit_blank by assumption.
    split; reflexivity.
  - rewrite detail_submit, submit_blank by assumption.
    destruct dst. split; reflexivity.
Qed.

(** C4, amended.  A chat request that fails (the fetch is rejected, the
    status is not 2xx, the body does not parse or is [null]) makes each
    chat page show one destructive toast titled "Error" whose description
    is the message of the failure (the [detail] of the error body when it
    has one, as [new Error] converts it to a string, or the engine's
    message when it cannot be converted; else "Failed to get response"),
    and append the fixed
    assistant message "Sorry, I encountered an error processing your
    request.".  A chat-list request that fails otherwise than by a 401
    makes the layout record the message, show it in a toast, and replace
    the chats by one default chat for the project of the location, if the
    location names one. *)
Theorem failures_are_toasted
    (project id : jsstring) (st : ChatCore.State) (dst : ChatDetailPage.State)
    (lst : DashboardLayout.State) (w : World JValue) (lw : World ChatsBody)
    (b : DashboardLayout.Browser) (tok m : jsstring) :
  (blank (ChatCore.input st) = false ->
   usable (token w) = Some tok -> chatFault w = Some m ->
   fst (ChatPage.handleSubmit project st w)
   = exchanged st w (JStr ChatCore.apology)
   /\ toasts (snd (ChatPage.handleSubmit project st w)) = [errorToast m])
  /\ (blank (ChatCore.input (ChatDetailPage.chat dst)) = false ->
      usable (token w) = Some tok -> chatFault w = Some m ->
      ChatDetailPage.chat (fst (ChatDetailPage.handleSubmit project id dst w))
      = exchanged (ChatDetailPage.chat dst) w (JStr ChatCore.apology)
      /\ toasts (snd (ChatDetailPage.handleSubmit project id dst w))
         = [errorToast m])
  /\ (usable (token lw) = Some tok -> listFault lw = Some m ->
      fst (DashboardLayout.onMount lst lw b)
      = {| DashboardLayout.chats :=
             DashboardLayout.withDefault lw b (DashboardLayout.chats lst);
           DashboardLayout.isLoading := false;
           DashboardLayout.error := Some m |}
      /\ toasts (snd (DashboardLayout.onMount lst lw b))
         = [errorToast (lit "Failed to load chat history: " ++ m)]).
Proof.
  split; [|split].
  - intros Hb Ht Hm. unfold ChatPage.handleSubmit.
    eapply submit_failed; eassumption.
  - intros Hb Ht Hm. rewrite detail_submit. cbn [fst snd ChatDetailPage.chat].
    eapply submit_failed; eassumption.
  - intros Ht Hm. unfold DashboardLayout.onMount. rewrite Ht.
    apply fetchChats_failed, Hm.
Qed.

End AnswerText.

Section Requests.
Context `{Host}.


(** C8.  Every request of the five protected handlers carries, as
    [Authorization: Bearer], the token stored in local storage.  When no
    token is stored, a handler that gets to the point of sending (a chat
    question that is not blank, an upload with a name and a file, the
    history load, the layout's mount) sends nothing and redirects to
    [/login].  A 401 answer to the chat-list fetch removes the stored
    token, redirects to [/login] and leaves the chats as they were. *)
Theorem ambient_reauthentication
    (project id : jsstring) (st : ChatCore.State)
    (dst hst : ChatDetailPage.State) (ust : UploadPage.State)
    (lst : DashboardLayout.State) (w : World JValue) (lw : World ChatsBody)
    (b : DashboardLayout.Browser) :
  (attaches w (snd (ChatPage.handleSubmit project st w))
   /\ attaches w (snd (ChatDetailPage.handleSubmit project id dst w))
   /\ attaches w (snd (UploadPage.handleSubmit ust w))
   /\ attaches lw (snd (ChatDetailPage.fetchChatHistory project id hst lw))
   /\ attaches lw (snd (DashboardLayout.onMount lst lw b)))
  /\ (usable (token w) = None ->
      (blank (ChatCore.input st) = false ->
       turnedAway (snd (ChatPage.handleSubmit project st w)))
      /\ (blank (ChatCore.input (ChatDetailPage.chat dst)) = false ->
          turnedAway (snd (ChatDetailPage.handleSubmit project id dst w)))
      /\ (blank (UploadPage.projectName ust) = false ->
          UploadPage.files ust <> [] ->
          turnedAway (snd (UploadPage.handleSubmit ust w))))
  /\ (usable (token lw) = None ->
      turnedAway (snd (ChatDetailPage.fetchChatHistory project id hst lw))
      /\ turnedAway (snd (DashboardLayout.onMount lst lw b)))
  /\ (forall tok r,
        usable (token lw) = Some tok ->
        settles lw = Resolved r -> status r = 401 ->
        DashboardLayout.onMount lst lw b
        = ({| DashboardLayout.chats := DashboardLayout.chats lst;
              DashboardLayout.isLoading := false;
              DashboardLayout.error := DashboardLayout.error lst |},
           [Console Log (lit "Fetching chats from:");
            Fetch (DashboardLayout.chatsRequest tok);
            Console Log (lit "Chat response status:");
            RemoveItem (lit "token");
            RouterPush (lit "/login")])).
Proof.
  assert (Hone : forall A (x : World A) (mk : jsstring -> Request) tr,
            (forall tok, authorized tok (mk tok)) ->
            requests tr = [] \/
            requests tr = match usable (token x) with
                          | Some tok => [mk tok]
                          | None => []
                          end ->
            attaches x tr).
  { intros A x mk tr Hmk [Htr|Htr] r Hr; rewrite Htr in Hr; [inversion Hr|].
    destruct (usable (token x)) as [tok|] eqn:Hu; [|inversion Hr].
    apply list_elem_of_singleton in Hr as ->.
    exists tok. split; [apply usable_token, Hu | apply Hmk]. }
  assert (Hauth : forall tok u m bd,
            authorized tok {| url := u; method := m;
                              headers := [(lit "Authorization", bearer tok)];
                              body := bd |}).
  { intros. apply list_elem_of_here. }
  split; [|split; [|split]].
  - repeat split.
    + apply (Hone _ w (fun tok => ChatCore.chatRequest tok
                         (ChatPage.formData project (ChatCore.input st)))).
      * intros tok. apply Hauth.
      * unfold ChatPage.handleSubmit. rewrite submit_requests.
        destruct (blank _); auto.
    + apply (Hone _ w (fun tok => ChatCore.chatRequest tok
                         (ChatDetailPage.formData project id
                            (ChatCore.input (ChatDetailPage.chat dst))))).
      * intros tok. apply Hauth.
      * rewrite detail_submit. cbn [snd]. rewrite submit_requests.
        destruct (blank _); auto.
    + apply (Hone _ w (fun tok => UploadPage.ingestRequest tok ust)).
      * intros tok. apply Hauth.
      * rewrite upload_requests. destruct (blank _); [auto|].
        destruct (UploadPage.files ust); auto.
    + apply (Hone _ lw ChatDetailPage.historyRequest).
      * intros tok. apply Hauth.
      * right. apply fetchChatHistory_requests.
    + apply (Hone _ lw DashboardLayout.chatsRequest).
      * intros tok. apply Hauth.
      * right. unfold DashboardLayout.onMount.
        destruct (usable (token lw)); [apply fetchChats_requests | reflexivity].
  - intros Ht. repeat split.
    + unfold ChatPage.handleSubmit. rewrite submit_anonymous by assumption.
      reflexivity.
    + unfold ChatPage.handleSubmit. rewrite submit_anonymous by assumption.
      reflexivity.
    + rewrite detail_submit. cbn [snd].
      rewrite submit_anonymous by assumption. reflexivity.
    + rewrite detail_submit. cbn [snd].
      rewrite submit_anonymous by assumption. reflexivity.
    + rewrite upload_anonymous by assumption. reflexivity.
    + rewrite upload_anonymous by assumption. reflexivity.
  - intros Ht. unfold DashboardLayout.onMount.
    rewrite fetchChatHistory_anonymous, Ht by assumption.
    repeat split; reflexivity.
  - intros tok r Ht Hs Hc. unfold DashboardLayout.onMount. rewrite Ht.
    apply (fetchChats_unauthorized tok lst lw b r Hs Hc).
Qed.

(** C10.  [isApiReachable] always returns a boolean and never throws.
    Outside a browser, or when the hostname contains "vercel.app",
    "localhost" or "127.0.0.1", it returns [false] and sends nothing.
    Otherwise it arms a timer of 3000 ms, sends the one GET request to
    [API_URL], and returns [true] exactly when the request completes
    before the timer fires, with an [ok] status; a failed or aborted
    fetch and a status that is not [ok] give [false]. *)
Theorem isApiReachable_total (window : option Config.Window)
    (o : Config.ProbeOutcome) :
  exists tr reachable,
    Config.isApiReachable window o = (tr, inr reachable)
    /\ (skipsProbe window = true -> reachable = false /\ requests tr = [])
    /\ (skipsProbe window = false ->
        requests tr = [Config.probe]
        /\ method Config.probe = Some (lit "GET")
        /\ url Config.probe = Config.API_URL
        /\ SetTimeout 3000 ∈ tr
        /\ (reachable = true <->
            exists r, o = Config.Completed r /\ ok r = true)).
Proof.
  unfold Config.isApiReachable.
  destruct window as [win|]; simpl.
  2:{ exists [], false. repeat split; try discriminate. }
  destruct (_ || _) eqn:Hp; simpl.
  { exists [], false. repeat split; try discriminate. }
  destruct o as [r|e|e]; simpl.
  - eexists _, (ok r). split; [reflexivity|]. split; [discriminate|].
    intros _. repeat split.
    + apply list_elem_of_here.
    + intros Hr. eauto.
    + intros [r' [[= <-] Hr]]. exact Hr.
  - eexists _, false. split; [reflexivity|]. split; [done|].
    intros _. repeat split; try apply list_elem_of_here; try discriminate.
    intros [r [[=] _]].
  - eexists _, false. split; [reflexivity|]. split; [done|].
    intros _. repeat split; try apply list_elem_of_here; try discriminate.
    intros [r [[=] _]].
Qed.

End Requests.

Section Isolation.
Context {Embedding : Type}.
Variable dim : Embedding -> nat.
Variable closer : Embedding -> Embedding -> Embedding -> bool.

(** C3.  After any history of ingestions and deletions, a chunk that was
    ingested into project A is never among the results of a search
    against another project B; every result of that search names B as
    its source and has an id that no record of A's collection has; and a
    stored chunk belongs to the collection of one project only: two
    stored records with the same generated id are held by the same
    project. *)
Theorem project_isolation (history : list (VS.Call Embedding)) :
  (forall (A B : VS.Project) (q : Embedding) (k : nat)
          (c : VS.Chunk Embedding) (found : list (VS.Chunk Embedding)),
      A <> B ->
      VS.ingested dim history A c ->
      VS.search_project closer B q k (VS.after dim history) = inr found ->
      c ∉ found)
  /\ (forall (A B : VS.Project) (q : Embedding) (k : nat)
             (c r : VS.Chunk Embedding) (found : list (VS.Chunk Embedding)),
        A <> B ->
        VS.holds (VS.after dim history) A c ->
        VS.search_project closer B q k (VS.after dim history) = inr found ->
        r ∈ found ->
        VS.chunk_id r <> VS.chunk_id c /\ VS.source_project r = B)
  /\ (forall (P P' : VS.Project) (c c' : VS.Chunk Embedding),
        VS.holds (VS.after dim history) P c ->
        VS.holds (VS.after dim history) P' c' ->
        VS.chunk_id c = VS.chunk_id c' ->
        P = P').
Proof.
  assert (Hone : forall (P P' : VS.Project) (c c' : VS.Chunk Embedding),
            VS.holds (VS.after dim history) P c ->
            VS.holds (VS.after dim history) P' c' ->
            VS.chunk_id c = VS.chunk_id c' ->
            P = P').
  { intros P P' c c' (cid & l & Hr & Hl & Hc) (cid' & l' & Hr' & Hl' & Hc') Hid.
    pose proof (consistent_after dim history) as Hs.
    assert (cid = cid') as <-
      by exact (VS.chunks_unique _ Hs cid cid' l l' c c' Hl Hc Hl' Hc' Hid).
    exact (VS.registry_injective _ Hs P P' cid Hr Hr'). }
  split; [|split; [|exact Hone]].
  2:{ intros A B q k c r found Hne Hc Hs Hr.
      pose proof (search_project_holds dim closer B q k _ found r Hs Hr) as Hb.
      split.
      - intros Hid. apply Hne. symmetry. exact (Hone B A r c Hb Hc Hid).
      - destruct Hb as (cid & l & Hreg & Hl & Hin).
        exact (VS.chunks_owned _ (consistent_after dim history)
                 B cid l r Hreg Hl Hin). }
  - intros A B q k c found Hne [n (cidA & lA & HrA & HlA & HcA)] Hs Hc.
    pose proof (search_project_holds dim closer B q k _ found c Hs Hc)
      as (cidB & lB & HrB & HlB & HcB).
    pose proof (VS.chunks_owned _ (consistent_after dim (take n history))
                  A cidA lA c HrA HlA HcA) as HA.
    pose proof (VS.chunks_owned _ (consistent_after dim history)
                  B cidB lB c HrB HlB HcB) as HB.
    congruence.
Qed.

End Isolation.

(* ===================================================================== *)
(** * The properties on concrete inputs *)
(* ===================================================================== *)

Section Concrete.
#[local] Existing Instance sampleHost.

(** A concrete text without surrogates is plain. *)
Ltac plain_text := apply plainText_checked; vm_compute; reflexivity.

Lemma empty_object_unrecognized : unrecognized (JObj []).
Proof.
  split; [|reflexivity].
  repeat constructor; exists JUndefined; split; reflexivity.
Qed.

(** C1 fails as stated: the back end answers 200 with the empty object,
    a body without answer text; the project page shows no error and
    presents the fixed fallback text as the assistant's answer. *)
Lemma placeholder_presented_as_answer :
  let run := ChatPage.handleSubmit (lit "demo") (Sample.asking "What is X?")
               (Sample.replying (JObj [])) in
  unrecognized (JObj [])
  /\ transcript (ChatCore.messages (fst run))
     = [(user, JStr (lit "What is X?"));
        (assistant, JStr (lit "I couldn't find an answer to that question."))]
  /\ toasts (snd run) = [].
Proof.
  split; [apply empty_object_unrecognized|].
  split; vm_compute; reflexivity.
Qed.

(** The amended C1 at work: the back end answers 200 with the empty
    object. *)
Lemma unrecognized_answer_gets_placeholder_witness :
  let w := Sample.replying (JObj []) in
  ChatPage.handleSubmit (lit "demo") (Sample.asking "What is X?") w
  = (exchanged (Sample.asking "What is X?") w (JStr ChatCore.placeholder),
     [PreventDefault;
      Fetch (ChatCore.chatRequest (lit "t0k3n")
               (ChatPage.formData (lit "demo") (lit "What is X?")));
      Console Log (lit "Backend response:")])
  /\ ChatDetailPage.handleSubmit (lit "demo") (lit "c-17")
       (Sample.conversation "What is X?") w
     = ({| ChatDetailPage.chat :=
             exchanged (Sample.asking "What is X?") w
               (JStr ChatCore.placeholder);
           ChatDetailPage.isInitialLoading := false |},
        [PreventDefault;
         Fetch (ChatCore.chatRequest (lit "t0k3n")
                  (ChatDetailPage.formData (lit "demo") (lit "c-17")
                     (lit "What is X?")));
         Console Log (lit "Backend response:")]).
Proof.
  intros w.
  destruct (unrecognized_answer_gets_placeholder
              (lit "demo") (lit "c-17") (Sample.asking "What is X?")
              (Sample.conversation "What is X?") (lit "t0k3n")
              Sample.tick 200 (JObj []))
    as [Hpage Hconversation].
  - discriminate.
  - lia.
  - apply empty_object_unrecognized.
  - split; [exact (Hpage eq_refl) | exact (Hconversation eq_refl)].
Defined.

(** C2 fails as stated: a body that holds the answer under [response]
    and has no [chatbot_answer] is not rejected; the answer is taken from
    the second name tried, and the page shows what it shows for a body
    that holds it under [chatbot_answer]. *)
Lemma answer_found_under_second_name :
  let drifted := JObj [(lit "response", JStr (lit "X is a letter."))] in
  let expected := JObj [(lit "chatbot_answer", JStr (lit "X is a letter."))] in
  let run data := ChatPage.handleSubmit (lit "demo")
                    (Sample.asking "What is X?") (Sample.replying data) in
  getProp drifted (lit "chatbot_answer") = inr JUndefined
  /\ transcript (ChatCore.messages (fst (run drifted)))
     = [(user, JStr (lit "What is X?"));
        (assistant, JStr (lit "X is a letter."))]
  /\ toasts (snd (run drifted)) = []
  /\ run drifted = run expected.
Proof. repeat split; vm_compute; reflexivity. Qed.

(** The amended C2 at work: the answer is held under [answer], the third
    name tried. *)
Lemma answer_is_sniffed_witness :
  let w := Sample.replying (JObj [(lit "answer", JStr (lit "X is a letter."))]) in
  (fst (ChatPage.handleSubmit (lit "demo") (Sample.asking "What is X?") w)
   = exchanged (Sample.asking "What is X?") w (JStr (lit "X is a letter."))
   /\ toasts (snd (ChatPage.handleSubmit (lit "demo")
                     (Sample.asking "What is X?") w)) = [])
  /\ (ChatDetailPage.chat
        (fst (ChatDetailPage.handleSubmit (lit "demo") (lit "c-17")
                (Sample.conversation "What is X?") w))
      = exchanged (Sample.asking "What is X?") w (JStr (lit "X is a letter."))
      /\ toasts (snd (ChatDetailPage.handleSubmit (lit "demo") (lit "c-17")
                        (Sample.conversation "What is X?") w)) = []).
Proof.
  intros w.
  destruct (answer_is_sniffed
              (lit "demo") (lit "c-17") (Sample.asking "What is X?")
              (Sample.conversation "What is X?") (lit "t0k3n")
              Sample.tick 200
              (JObj [(lit "answer", JStr (lit "X is a letter."))]))
    as [Hpage Hconversation].
  - discriminate.
  - lia.
  - discriminate.
  - discriminate.
  - split; [exact (Hpage eq_refl) | exact (Hconversation eq_refl)].
Defined.

(** C4 fails as stated: when the request never reaches the back end, the
    project page answers with a fixed apology that names no fault, the
    same for every fault; and the layout, opened on a project, replaces
    the chat list it could not load by a made-up default chat. *)
Lemma generic_apology_and_default_chat :
  let run := ChatPage.handleSubmit (lit "demo") (Sample.asking "What is X?")
               Sample.offline in
  let mount := DashboardLayout.onMount Sample.emptyLayout Sample.offline
                 (Sample.at_ "rag.example.com" "/dashboard/chat/demo") in
  transcript (ChatCore.messages (fst run))
  = [(user, JStr (lit "What is X?"));
     (assistant,
      JStr (lit "Sorry, I encountered an error processing your request."))]
  /\ DashboardLayout.chats (fst mount)
     = [DashboardLayout.defaultChat (lit "demo") (Sample.tick 0)].
Proof. split; vm_compute; reflexivity. Qed.

(** The amended C4 at work: the requests never reach the back end; then
    the back end refuses the question with a [detail] that is a string,
    and with one that cannot be converted to a string. *)
Lemma failures_are_toasted_witness :
  let here := Sample.at_ "rag.example.com" "/dashboard/chat/demo" in
  let refusing :=
    answering (lit "t0k3n") Sample.tick 404
      (JObj [(lit "detail", JStr (lit "Project not found"))]) in
  let garbled :=
    answering (lit "t0k3n") Sample.tick 422
      (JObj [(lit "detail",
              JArr [JStr (lit "bad input");
                    JObj [(lit "toString", JNum 1)]])]) in
  (fst (ChatPage.handleSubmit (lit "demo") (Sample.asking "What is X?")
          Sample.offline)
   = exchanged (Sample.asking "What is X?") Sample.offline
       (JStr ChatCore.apology)
   /\ toasts (snd (ChatPage.handleSubmit (lit "demo")
                     (Sample.asking "What is X?") Sample.offline))
      = [errorToast (lit "Failed to fetch")])
  /\ (ChatDetailPage.chat
        (fst (ChatDetailPage.handleSubmit (lit "demo") (lit "c-17")
                (Sample.conversation "What is X?") Sample.offline))
      = exchanged (Sample.asking "What is X?") Sample.offline
          (JStr ChatCore.apology)
      /\ toasts (snd (ChatDetailPage.handleSubmit (lit "demo") (lit "c-17")
                        (Sample.conversation "What is X?") Sample.offline))
         = [errorToast (lit "Failed to fetch")])
  /\ (fst (DashboardLayout.onMount Sample.emptyLayout Sample.offline here)
      = {| DashboardLayout.chats :=
             DashboardLayout.withDefault Sample.offline here [];
           DashboardLayout.isLoading := false;
           DashboardLayout.error := Some (lit "Failed to fetch") |}
      /\ toasts (snd (DashboardLayout.onMount Sample.emptyLayout
                        Sample.offline here))
         = [errorToast (lit "Failed to load chat history: "
                        ++ lit "Failed to fetch")])
  /\ toasts (snd (ChatPage.handleSubmit (lit "demo")
                    (Sample.asking "What is X?") refusing))
     = [{| title := lit "Error";
           description := JStr (lit "Project not found");
           variant := Some (lit "destructive") |}]
  /\ toasts (snd (ChatDetailPage.handleSubmit (lit "demo") (lit "c-17")
                    (Sample.conversation "What is X?") garbled))
     = [{| title := lit "Error";
           description :=
             JStr (lit "Cannot convert object to primitive value");
           variant := Some (lit "destructive") |}].
Proof.
  intros here refusing garbled.
  destruct (failures_are_toasted
              (lit "demo") (lit "c-17") (Sample.asking "What is X?")
              (Sample.conversation "What is X?") Sample.emptyLayout
              Sample.offline Sample.offline here
              (lit "t0k3n") (lit "Failed to fetch"))
    as (Hpage & Hconversation & Hlayout).
  destruct (failures_are_toasted
              (lit "demo") (lit "c-17") (Sample.asking "What is X?")
              (Sample.conversation "What is X?") Sample.emptyLayout
              refusing Sample.offline here
              (lit "t0k3n") (lit "Project not found"))
    as (Hrefused & _ & _).
  destruct (failures_are_toasted
              (lit "demo") (lit "c-17") (Sample.asking "What is X?")
              (Sample.conversation "What is X?") Sample.emptyLayout
              garbled Sample.offline here
              (lit "t0k3n") (lit "Cannot convert object to primitive value"))
    as (_ & Hgarbled & _).
  split; [exact (Hpage eq_refl eq_refl eq_refl)|].
  split; [exact (Hconversation eq_refl eq_refl eq_refl)|].
  split; [exact (Hlayout eq_refl eq_refl)|].
  split.
  - exact (proj2 (Hrefused eq_refl eq_refl eq_refl)).
  - exact (proj2 (Hgarbled eq_refl eq_refl eq_refl)).
Defined.

(** C5, on a stored conversation of two turns: the conversation page
    replays the turns in stored order, so that the last stored turn ("And
    why?") is the most recent one, next to what the user asks next; the
    sidebar, whose comment calls the first item of the array the most
    recent message, previews the conversation by its oldest turn ("What
    is X?"). *)
Theorem preview_shows_oldest_turn :
  let body := BodyObject (Some [Sample.twoTurns]) in
  let loaded := ChatDetailPage.fetchChatHistory (lit "demo") (lit "c-17")
                  (Sample.conversation "") (Sample.listing 200 body) in
  let mounted := DashboardLayout.onMount Sample.emptyLayout
                   (Sample.listing 200 body)
                   (Sample.at_ "rag.example.com" "/dashboard") in
  transcript (ChatCore.messages (ChatDetailPage.chat (fst loaded)))
  = [(user, JStr (lit "What is X?")); (assistant, JStr (lit "X is a letter."));
     (user, JStr (lit "And why?")); (assistant, JStr (lit "By convention."))]
  /\ map DashboardLayout.preview (DashboardLayout.chats (fst mounted))
     = [lit "What is X?"].
Proof. split; vm_compute; reflexivity. Qed.

(** C6 fails as stated: the back end lists no conversation, the
    conversation page opened on the id "default" (the id of the layout's
    default chat, labelled "New conversation") finds none and shows the
    welcome message only; the question asked there is nevertheless sent
    with that id as [vector_id].  Conversely a follow-up question asked
    on the project page, under the first question and its answer, is sent
    without any [vector_id]. *)
Lemma identifier_sent_without_conversation :
  let stored : list Chat := [] in
  let loaded := ChatDetailPage.fetchChatHistory (lit "demo") (lit "default")
                  (Sample.conversation "")
                  (Sample.listing 200 (BodyObject (Some stored))) in
  let run := ChatDetailPage.handleSubmit (lit "demo") (lit "default")
               (Sample.typing "What is X?" (fst loaded))
               (Sample.replying (JObj [])) in
  let answer := JObj [(lit "chatbot_answer", JStr (lit "X is a letter."));
                      (lit "vector_id", JStr (lit "c-17"))] in
  let asked := fst (ChatPage.handleSubmit (lit "demo")
                      (Sample.asking "What is X?") (Sample.replying answer)) in
  let followUp := ChatPage.handleSubmit (lit "demo")
                    (Sample.retyping "And why?" asked)
                    (Sample.replying answer) in
  ~ existing (lit "default") stored
  /\ map msg_id (ChatCore.messages (ChatDetailPage.chat (fst loaded)))
     = [lit "welcome"]
  /\ map (field (lit "vector_id")) (requests (snd run))
     = [Some (FormText (lit "default"))]
  /\ length (ChatCore.messages asked) = 2%nat
  /\ map (field (lit "vector_id")) (requests (snd followUp)) = [None].
Proof.
  split; [|repeat split; vm_compute; reflexivity].
  intros [c [Hc _]]. inversion Hc.
Qed.

(** The amended C6 at work: a question of the project page, and on the
    conversation page a question that ends with a pair of surrogates
    followed by a lead surrogate alone. *)
Lemma query_payload_witness :
  let odd := {|
    ChatDetailPage.chat :=
      {| ChatCore.messages := [];
         ChatCore.input := lit "Why " ++ [0xD83D; 0xDE00; 0xD83D]%N;
         ChatCore.isLoading := false |};
    ChatDetailPage.isInitialLoading := false |} in
  map body (requests (snd (ChatPage.handleSubmit (lit "demo")
                             (Sample.asking "What is X?") Sample.offline)))
  = [Some [(lit "user_query", FormText (lit "What is X?"));
           (lit "project_name", FormText (lit "demo"))]]
  /\ map body (requests (snd (ChatDetailPage.handleSubmit (lit "demo")
                                (lit "c-17") odd Sample.offline)))
     = [Some [(lit "user_query",
               FormText (lit "Why " ++ [0xD83D; 0xDE00; 0xFFFD]%N));
              (lit "project_name", FormText (lit "demo"));
              (lit "vector_id", FormText (lit "c-17"))]].
Proof.
  intros odd.
  destruct (query_payload (lit "demo") (lit "c-17")
              (Sample.asking "What is X?") odd Sample.offline)
    as (Hpage & Hconversation & Hinput & _ & Hproject & Hid).
  split.
  - rewrite Hpage, (Hinput ltac:(plain_text)), (Hproject ltac:(plain_text)).
    reflexivity.
  - rewrite Hconversation, (Hproject ltac:(plain_text)),
      (Hid ltac:(plain_text)).
    vm_compute. reflexivity.
Defined.


(** C8 at work: the token [t0k3n] is stored and each handler sends its
    request with the header [Authorization: Bearer t0k3n]; nobody is
    logged in; the back end answers the chat-list request with a 401. *)
Lemma ambient_reauthentication_witness :
  let expired := Sample.listing 401 BodyNull in
  let here := Sample.at_ "rag.example.com" "/dashboard" in
  let sent (tr : list Effect) (target : jsstring) :=
    exists r, requests tr = [r] /\ url r = target
              /\ (lit "Authorization", lit "Bearer t0k3n") ∈ headers r in
  (sent (snd (ChatPage.handleSubmit (lit "demo")
                (Sample.asking "What is X?") Sample.offline))
        (lit "http://localhost:8000/chat")
   /\ sent (snd (ChatDetailPage.handleSubmit (lit "demo") (lit "c-17")
                   (Sample.conversation "What is X?") Sample.offline))
           (lit "http://localhost:8000/chat")
   /\ sent (snd (UploadPage.handleSubmit
                   (Sample.upload "demo" [Sample.report]) Sample.offline))
           (lit "http://localhost:8000/data-ingest")
   /\ sent (snd (ChatDetailPage.fetchChatHistory (lit "demo") (lit "c-17")
                   (Sample.conversation "") Sample.offline))
           (lit "http://localhost:8000/get_chats")
   /\ sent (snd (DashboardLayout.onMount Sample.emptyLayout Sample.offline
                   here))
           (lit "http://localhost:8000/get_chats"))
  /\ (turnedAway (snd (ChatPage.handleSubmit (lit "demo")
                      (Sample.asking "What is X?") Sample.anonymous))
   /\ turnedAway (snd (ChatDetailPage.handleSubmit (lit "demo") (lit "c-17")
                         (Sample.conversation "What is X?") Sample.anonymous))
   /\ turnedAway (snd (UploadPage.handleSubmit
                         (Sample.upload "demo" [Sample.report])
                         Sample.anonymous)))
  /\ (turnedAway (snd (ChatDetailPage.fetchChatHistory (lit "demo")
                         (lit "c-17") (Sample.conversation "")
                         Sample.anonymous))
      /\ turnedAway (snd (DashboardLayout.onMount Sample.emptyLayout
                            Sample.anonymous here)))
  /\ RemoveItem (lit "token")
     ∈ snd (DashboardLayout.onMount Sample.emptyLayout expired here).
Proof.
  intros expired here sent.
  pose proof (ambient_reauthentication
                (lit "demo") (lit "c-17") (Sample.asking "What is X?")
                (Sample.conversation "What is X?") (Sample.conversation "")
                (Sample.upload "demo" [Sample.report]) Sample.emptyLayout
                Sample.offline Sample.offline here)
    as ((Hasked & Hcontinued & Huploaded & Hhistory & Hmounted) & _).
  assert (Hsent : forall (A : Type) (tr : list Effect) (r : Request)
                         (target : jsstring),
             attaches (@Sample.offline A) tr ->
             requests tr = [r] -> url r = target -> sent tr target).
  { intros A tr r target Hattached Hreq Hurl. exists r.
    split; [exact Hreq|]. split; [exact Hurl|].
    destruct (Hattached r) as (tok & Htok & Hheader).
    - rewrite Hreq. apply list_elem_of_here.
    - injection Htok as <-. exact Hheader. }
  split.
  { split.
    { apply (Hsent _ _ (ChatCore.chatRequest (lit "t0k3n")
                          (ChatPage.formData (lit "demo") (lit "What is X?")))
               _ Hasked); vm_compute; reflexivity. }
    split.
    { apply (Hsent _ _ (ChatCore.chatRequest (lit "t0k3n")
                          (ChatDetailPage.formData (lit "demo") (lit "c-17")
                             (lit "What is X?")))
               _ Hcontinued); vm_compute; reflexivity. }
    split.
    { apply (Hsent _ _ (UploadPage.ingestRequest (lit "t0k3n")
                          (Sample.upload "demo" [Sample.report]))
               _ Huploaded); vm_compute; reflexivity. }
    split.
    { apply (Hsent _ _ (ChatDetailPage.historyRequest (lit "t0k3n"))
               _ Hhistory); vm_compute; reflexivity. }
    apply (Hsent _ _ (DashboardLayout.chatsRequest (lit "t0k3n"))
             _ Hmounted); vm_compute; reflexivity. }
  pose proof (ambient_reauthentication
                (lit "demo") (lit "c-17") (Sample.asking "What is X?")
                (Sample.conversation "What is X?") (Sample.conversation "")
                (Sample.upload "demo" [Sample.report]) Sample.emptyLayout
                Sample.anonymous expired here)
    as (_ & Hmissing & _ & Hexpired).
  pose proof (ambient_reauthentication
                (lit "demo") (lit "c-17") (Sample.asking "What is X?")
                (Sample.conversation "What is X?") (Sample.conversation "")
                (Sample.upload "demo" [Sample.report]) Sample.emptyLayout
                Sample.anonymous Sample.anonymous here)
    as (_ & _ & Hloading & _).
  destruct (Hmissing eq_refl) as (Hpage & Hconversation & Hupload).
  split.
  { split; [exact (Hpage eq_refl)|].
    split; [exact (Hconversation eq_refl)|].
    apply Hupload; [reflexivity | discriminate]. }
  split; [exact (Hloading eq_refl)|].
  rewrite (Hexpired (lit "t0k3n") {| status := 401; json := inr BodyNull |}
             eq_refl eq_refl eq_refl).
  apply list_elem_of_further, list_elem_of_further, list_elem_of_further,
    list_elem_of_here.
Defined.

(** C9 at work: three spaces, and the empty input. *)
Lemma blank_submission_is_ignored_witness :
  let st := Sample.asking "   " in
  let dst := Sample.conversation "" in
  (ChatPage.handleSubmit (lit "demo") st Sample.offline = (st, [PreventDefault])
   /\ requests (snd (ChatPage.handleSubmit (lit "demo") st Sample.offline)) = [])
  /\ (ChatDetailPage.handleSubmit (lit "demo") (lit "c-17") dst Sample.offline
      = (dst, [PreventDefault])
      /\ requests (snd (ChatDetailPage.handleSubmit (lit "demo") (lit "c-17")
                          dst Sample.offline)) = []).
Proof.
  intros st dst.
  destruct (blank_submission_is_ignored
              (lit "demo") (lit "c-17") st dst Sample.offline)
    as [Hpage Hconversation].
  split; [exact (Hpage eq_refl) | exact (Hconversation eq_refl)].
Defined.

(** C10 at work: on localhost nothing is sent; elsewhere, a probe answered
    with a 200 gives [true]. *)
Lemma isApiReachable_total_witness :
  let here := Some {| Config.hostname := lit "localhost";
                      Config.pathname := lit "/" |} in
  let there := Some {| Config.hostname := lit "rag.example.com";
                       Config.pathname := lit "/" |} in
  let up := Config.Completed {| status := 200; json := inr JNull |} in
  (exists tr, Config.isApiReachable here up = (tr, inr false)
              /\ requests tr = [])
  /\ (exists tr, Config.isApiReachable there up = (tr, inr true)
                 /\ requests tr = [Config.probe]).
Proof.
  intros here there up. split.
  - destruct (isApiReachable_total here up) as (tr & b & Hrun & Hskip & _).
    destruct (Hskip eq_refl) as [-> Hreq]. exists tr. split; assumption.
  - destruct (isApiReachable_total there up) as (tr & b & Hrun & _ & Hprobe).
    destruct (Hprobe eq_refl) as (Hreq & _ & _ & _ & Hiff).
    exists tr. split; [|exact Hreq].
    rewrite Hrun. f_equal. f_equal. apply Hiff.
    exists {| status := 200; json := inr JNull |}. split; reflexivity.
Defined.

End Concrete.

(** C3 at work: a search against [beta] returns the chunk of [beta] and
    not the first chunk of [alpha]. *)
Lemma project_isolation_witness :
  SampleStore.alpha <> SampleStore.beta
  /\ VS.search_project SampleStore.closer SampleStore.beta 5 4
       (VS.after SampleStore.dim SampleStore.history)
     = inr [SampleStore.third]
  /\ (SampleStore.first ∉ [SampleStore.third])
  /\ (VS.chunk_id SampleStore.third <> VS.chunk_id SampleStore.first
      /\ VS.source_project SampleStore.third = SampleStore.beta)
  /\ SampleStore.alpha = SampleStore.alpha.
Proof.
  assert (Hne : SampleStore.alpha <> SampleStore.beta) by discriminate.
  assert (Hfound : VS.search_project SampleStore.closer SampleStore.beta 5 4
                     (VS.after SampleStore.dim SampleStore.history)
                   = inr [SampleStore.third]) by (vm_compute; reflexivity).
  assert (Hheld : forall n, n = 1%nat \/ n = 2%nat ->
            VS.holds (VS.after SampleStore.dim (take n SampleStore.history))
              SampleStore.alpha SampleStore.first).
  { intros n Hn. exists 0%nat.
    exists [SampleStore.first;
            {| VS.chunk_id := 1; VS.text := lit "second"; VS.embedding := 8;
               VS.ordinal := 1; VS.document := 0;
               VS.source_project := SampleStore.alpha;
               VS.metadata := None |}].
    destruct Hn as [-> | ->];
      (split; [vm_compute; reflexivity|];
       split; [vm_compute; reflexivity | apply list_elem_of_here]). }
  destruct (project_isolation SampleStore.dim SampleStore.closer
              SampleStore.history) as (Hnever & Hdistinct & Hone).
  split; [exact Hne|]. split; [exact Hfound|].
  split.
  { exact (Hnever SampleStore.alpha SampleStore.beta 5 4%nat SampleStore.first
             [SampleStore.third] Hne
             (ex_intro _ 1%nat (Hheld 1%nat (or_introl eq_refl))) Hfound). }
  split.
  { exact (Hdistinct SampleStore.alpha SampleStore.beta 5 4%nat
             SampleStore.first SampleStore.third [SampleStore.third] Hne
             (Hheld 2%nat (or_intror eq_refl)) Hfound
             (list_elem_of_here _ _)). }
  exact (Hone SampleStore.alpha SampleStore.alpha SampleStore.first
           SampleStore.first (Hheld 2%nat (or_intror eq_refl))
           (Hheld 2%nat (or_intror eq_refl)) eq_refl).
Defined.

(* ===================================================================== *)
(** * Further properties: the upload page *)
(* ===================================================================== *)

Section UploadFiles.
Context `{Host}.

Lemma filterIndexed_keep {A} (keep : A -> nat -> bool) (xs : list A) i :
  (forall x j, (i <= j)%nat -> keep x j = true) ->
  UploadPage.filterIndexed keep xs i = xs.
Proof.
  revert i. induction xs as [|x rest IH]; intros i Hk; simpl; [done|].
  rewrite Hk by lia. f_equal. apply IH. intros y j Hj. apply Hk. lia.
Qed.

Lemma filterIndexed_delete {A} (keep : A -> nat -> bool) (xs : list A)
    (i k : nat) :
  (forall x j, keep x j = negb (j =? k + i)%nat) ->
  UploadPage.filterIndexed keep xs i = delete k xs.
Proof.
  revert i k. induction xs as [|x rest IH]; intros i k Hk; simpl; [done|].
  rewrite Hk. destruct k as [|k]; simpl.
  - rewrite Nat.eqb_refl. simpl. apply filterIndexed_keep.
    intros y j Hj. rewrite Hk. apply negb_true_iff, Nat.eqb_neq. lia.
  - replace (i =? S (k + i))%nat with false
      by (symmetry; apply Nat.eqb_neq; lia).
    simpl. f_equal. apply IH.
    intros y j. rewrite Hk. do 2 f_equal. lia.
Qed.

Lemma removeFile_files index (st : UploadPage.State) :
  UploadPage.files (UploadPage.removeFile index st)
  = delete index (UploadPage.files st).
Proof.
  unfold UploadPage.removeFile. simpl. apply filterIndexed_delete.
  intros x j. do 2 f_equal. lia.
Qed.

Lemma removeFile_take_drop (index : nat) (st : UploadPage.State) :
  UploadPage.removeFile index st
  = {| UploadPage.projectName := UploadPage.projectName st;
       UploadPage.files := take index (UploadPage.files st)
                           ++ drop (S index) (UploadPage.files st);
       UploadPage.isUploading := UploadPage.isUploading st |}.
Proof.
  pose proof (removeFile_files index st) as Hf.
  rewrite <- delete_take_drop, <- Hf. reflexivity.
Qed.

(** X1.  [removeFile] drops exactly the file at the given index: the
    files before it and after it stay, in order, and the project name and
    the uploading flag are untouched; an index past the end changes
    nothing. *)
Theorem removeFile_drops_one (index : nat) (st : UploadPage.State) :
  UploadPage.removeFile index st
  = {| UploadPage.projectName := UploadPage.projectName st;
       UploadPage.files := take index (UploadPage.files st)
                           ++ drop (S index) (UploadPage.files st);
       UploadPage.isUploading := UploadPage.isUploading st |}
  /\ ((length (UploadPage.files st) <= index)%nat ->
      UploadPage.removeFile index st = st).
Proof.
  split; [apply removeFile_take_drop|].
  intros Hge. rewrite removeFile_take_drop.
  destruct st as [name fs up]. simpl in *. f_equal.
  rewrite take_ge, drop_ge by lia. apply app_nil_r.
Qed.

(** X2.  Selecting more files, in the file dialog or by dropping them on
    the page, appends them after the ones already selected and changes
    nothing else; a selection of nothing ([null]) changes nothing.  So
    removing an earlier file leaves the new ones alone (the two operations
    commute), and removing the first of the files just added leaves the
    state as if only the others had been added. *)
Theorem removeFile_after_adding (index : nat) (newFiles : list File)
    (file : File) (st : UploadPage.State) :
  UploadPage.handleFileChange (Some newFiles) st
  = {| UploadPage.projectName := UploadPage.projectName st;
       UploadPage.files := UploadPage.files st ++ newFiles;
       UploadPage.isUploading := UploadPage.isUploading st |}
  /\ UploadPage.handleFileChange None st = st
  /\ fst (UploadPage.handleDrop (Some newFiles) st)
     = {| UploadPage.projectName := UploadPage.projectName st;
          UploadPage.files := UploadPage.files st ++ newFiles;
          UploadPage.isUploading := UploadPage.isUploading st |}
  /\ fst (UploadPage.handleDrop None st) = st
  /\ ((index < length (UploadPage.files st))%nat ->
      UploadPage.files
        (UploadPage.removeFile index
           (UploadPage.handleFileChange (Some newFiles) st))
      = UploadPage.files (UploadPage.removeFile index st) ++ newFiles)
  /\ UploadPage.files
       (UploadPage.removeFile (length (UploadPage.files st))
          (UploadPage.handleFileChange (Some (file :: newFiles)) st))
     = UploadPage.files st ++ newFiles.
Proof.
  repeat split.
  - intros Hlt. rewrite !removeFile_take_drop.
    unfold UploadPage.handleFileChange. simpl.
    rewrite take_app_le, drop_app_le by lia.
    apply app_assoc.
  - rewrite removeFile_take_drop.
    destruct st as [name fs up]. simpl.
    rewrite take_app_length.
    replace (S (length fs)) with (length (fs ++ [file]))
      by (rewrite length_app; simpl; lia).
    change (fs ++ file :: newFiles) with (fs ++ [file] ++ newFiles).
    rewrite app_assoc, drop_app_length. reflexivity.
Qed.

(** What the [try] block of the upload does, case by case. *)
Lemma upload_attempt_outcome (st : UploadPage.State) (w : World JValue) :
  UploadPage.attempt st w
  = match usable (token w) with
    | None => ([RouterPush (lit "/login")], inr tt)
    | Some tok =>
        let sent := Fetch (UploadPage.ingestRequest tok st) in
        match settles w with
        | Rejected e => ([sent], inl e)
        | Resolved r =>
            match json r with
            | inl e => ([sent], inl e)
            | inr data =>
                if ok r then
                  match getProp data (lit "message") with
                  | inl e => ([sent], inl e)
                  | inr message =>
                      ([sent;
                        Toast {| title := lit "Upload successful";
                                 description :=
                                   or_else message
                                     (JStr (lit "Files uploaded successfully"));
                                 variant := None |};
                        RouterPush (lit "/dashboard/chat/"
                                    ++ UploadPage.projectName st)],
                       inr tt)
                  end
                else
                  ([sent],
                   match getProp data (lit "detail") with
                   | inl e => inl e
                   | inr detail =>
                       inl (new_Error
                              (or_else detail
                                 (JStr (lit "Failed to upload files"))))
                   end)
            end
        end
    end.
Proof.
  unfold UploadPage.attempt.
  destruct (usable (token w)) as [tok|]; [|reflexivity].
  destruct (settles w) as [e|[code [e|data]]]; [reflexivity| |].
  - unfold await, lift, bind, emit, json; simpl. destruct (ok _); reflexivity.
  - unfold await, lift, bind, emit, json; simpl.
    destruct (ok _); simpl.
    + destruct (getProp data (lit "message")); reflexivity.
    + destruct (getProp data (lit "detail")); reflexivity.
Qed.

(** X3.  The form is validated before anything else: with a blank
    project name, or with a name and no file, the upload page shows the
    one toast that names the missing part and does nothing more: the
    state is as it was and, token or no token, nothing is sent and
    nobody is redirected.  The name is checked first. *)
Theorem upload_validation (st : UploadPage.State) (w : World JValue) :
  (blank (UploadPage.projectName st) = true ->
   fst (UploadPage.handleSubmit st w) = st
   /\ map title (toasts (snd (UploadPage.handleSubmit st w)))
      = [lit "Project name required"]
   /\ requests (snd (UploadPage.handleSubmit st w)) = []
   /\ redirects (snd (UploadPage.handleSubmit st w)) = [])
  /\ (blank (UploadPage.projectName st) = false ->
      UploadPage.files st = [] ->
      fst (UploadPage.handleSubmit st w) = st
      /\ map title (toasts (snd (UploadPage.handleSubmit st w)))
         = [lit "No files selected"]
      /\ requests (snd (UploadPage.handleSubmit st w)) = []
      /\ redirects (snd (UploadPage.handleSubmit st w)) = []).
Proof.
  unfold UploadPage.handleSubmit. rewrite trim_isEmpty. split.
  - intros ->. repeat split.
  - intros -> ->. repeat split.
Qed.

(** X4.  An upload answered by a 2xx status with a body that is not
    [null] shows one toast, "Upload successful", whose description is the
    [message] of the body when it is truthy and "Files uploaded
    successfully" otherwise, then opens the chat page of the project,
    under the name as typed; the selected files and the name stay in the
    state, and the uploading flag is down. *)
Theorem upload_succeeds (st : UploadPage.State) (tok : jsstring)
    (clk : nat -> Z) (code : Z) (data message : JValue) :
  blank (UploadPage.projectName st) = false ->
  UploadPage.files st <> [] ->
  tok <> [] -> 200 <= code <= 299 ->
  getProp data (lit "message") = inr message ->
  UploadPage.handleSubmit st (answering tok clk code data)
  = ({| UploadPage.projectName := UploadPage.projectName st;
        UploadPage.files := UploadPage.files st;
        UploadPage.isUploading := false |},
     [PreventDefault;
      Fetch (UploadPage.ingestRequest tok st);
      Toast {| title := lit "Upload successful";
               description :=
                 or_else message (JStr (lit "Files uploaded successfully"));
               variant := None |};
      RouterPush (lit "/dashboard/chat/" ++ UploadPage.projectName st)]).
Proof.
  intros Hb Hf Ht Hc Hm. unfold UploadPage.handleSubmit.
  rewrite trim_isEmpty, Hb.
  destruct (UploadPage.files st) as [|f fs] eqn:Hfs; [done|].
  cbn [length Nat.eqb]. rewrite upload_attempt_outcome.
  destruct tok as [|c tok]; [done|]. simpl.
  assert (Hok : ok {| status := code; json := inr data |} = true).
  { unfold ok. simpl. apply andb_true_intro. split; apply Z.leb_le; lia. }
  rewrite Hok, Hm. unfold UploadPage.setIsUploading. rewrite Hfs. reflexivity.
Qed.

(** X5.  An upload that fails (the fetch is rejected, the status is not
    2xx, the body does not parse or is [null]) shows one destructive
    toast, "Upload failed", with the message of the failure (for a status
    that is not 2xx, the [detail] of the body as [new Error] converts it
    to a string, or the engine's message when it cannot be converted),
    and opens no page; the selected files and the name stay in the state, ready for
    another attempt, and the uploading flag is down. *)
Theorem upload_fails (st : UploadPage.State) (w : World JValue)
    (tok m : jsstring) :
  blank (UploadPage.projectName st) = false ->
  UploadPage.files st <> [] ->
  usable (token w) = Some tok ->
  uploadFault w = Some m ->
  fst (UploadPage.handleSubmit st w)
  = {| UploadPage.projectName := UploadPage.projectName st;
       UploadPage.files := UploadPage.files st;
       UploadPage.isUploading := false |}
  /\ toasts (snd (UploadPage.handleSubmit st w)) = [uploadFailed m]
  /\ redirects (snd (UploadPage.handleSubmit st w)) = []
  /\ requests (snd (UploadPage.handleSubmit st w))
     = [UploadPage.ingestRequest tok st].
Proof.
  intros Hb Hf Ht Hm. unfold UploadPage.handleSubmit.
  rewrite trim_isEmpty, Hb.
  destruct (UploadPage.files st) as [|f fs] eqn:Hfs; [done|].
  cbn [length Nat.eqb]. rewrite upload_attempt_outcome, Ht.
  unfold uploadFault in Hm. unfold UploadPage.setIsUploading. rewrite Hfs.
  destruct (settles w) as [e|[code [e|data]]]; simpl in *.
  - injection Hm as <-. repeat split.
  - injection Hm as <-. repeat split.
  - destruct (ok _); simpl.
    + destruct data; try discriminate; injection Hm as <-; repeat split.
    + destruct data; simpl; injection Hm as <-; repeat split.
Qed.

End UploadFiles.

(* ===================================================================== *)
(** * Further properties: the chat pages *)
(* ===================================================================== *)

Section ChatMessages.
Context `{Host}.

(** The messages after a submission that is not blank. *)
Lemma submit_messages fields (st : ChatCore.State) (w : World JValue) :
  blank (ChatCore.input st) = false ->
  ChatCore.input (fst (ChatCore.submit fields st w)) = []
  /\ ChatCore.isLoading (fst (ChatCore.submit fields st w)) = false
  /\ match usable (token w) with
     | Some _ =>
         exists content,
           ChatCore.messages (fst (ChatCore.submit fields st w))
           = ChatCore.messages st
             ++ [question w (ChatCore.input st); reply w content]
     | None =>
         ChatCore.messages (fst (ChatCore.submit fields st w))
         = ChatCore.messages st ++ [question w (ChatCore.input st)]
     end.
Proof.
  intros Hb. unfold ChatCore.submit.
  rewrite trim_isEmpty, Hb, attempt_outcome.
  destruct (usable (token w)) as [tok|]; [|repeat split].
  assert (Hassoc : forall (a b : Message),
            (ChatCore.messages st ++ [a]) ++ [b]
            = ChatCore.messages st ++ [a; b])
    by (intros; rewrite <- app_assoc; reflexivity).
  destruct (settles w) as [e|[code [e|data]]]; simpl.
  - repeat split. eexists. apply Hassoc.
  - repeat split. eexists. apply Hassoc.
  - destruct (ok _); simpl.
    + destruct data; simpl; repeat split; eexists; apply Hassoc.
    + destruct (getProp data (lit "detail")); simpl;
        repeat split; eexists; apply Hassoc.
Qed.

(** X6.  A submission that is not blank only ever appends to the
    conversation: with a token, the question as typed and then exactly
    one assistant message (the answer, or the apology); without a token,
    the question alone, which is shown although it was never sent.  In
    both cases the input is cleared and the loading flag is down when the
    handler returns.  This holds on the project page and on the
    conversation page, whose initial-loading flag is untouched. *)
Theorem submission_appends (project id : jsstring) (st : ChatCore.State)
    (dst : ChatDetailPage.State) (w : World JValue) :
  (blank (ChatCore.input st) = false ->
   let st' := fst (ChatPage.handleSubmit project st w) in
   ChatCore.input st' = [] /\ ChatCore.isLoading st' = false
   /\ match usable (token w) with
      | Some _ =>
          exists content,
            ChatCore.messages st'
            = ChatCore.messages st
              ++ [question w (ChatCore.input st); reply w content]
      | None =>
          ChatCore.messages st'
          = ChatCore.messages st ++ [question w (ChatCore.input st)]
      end)
  /\ (blank (ChatCore.input (ChatDetailPage.chat dst)) = false ->
      let dst' := fst (ChatDetailPage.handleSubmit project id dst w) in
      let old := ChatDetailPage.chat dst in
      ChatDetailPage.isInitialLoading dst' = ChatDetailPage.isInitialLoading dst
      /\ ChatCore.input (ChatDetailPage.chat dst') = []
      /\ ChatCore.isLoading (ChatDetailPage.chat dst') = false
      /\ match usable (token w) with
         | Some _ =>
             exists content,
               ChatCore.messages (ChatDetailPage.chat dst')
               = ChatCore.messages old
                 ++ [question w (ChatCore.input old); reply w content]
         | None =>
             ChatCore.messages (ChatDetailPage.chat dst')
             = ChatCore.messages old ++ [question w (ChatCore.input old)]
         end).
Proof.
  split; intros Hb.
  - exact (submit_messages (ChatPage.formData project) st w Hb).
  - cbn zeta. rewrite detail_submit. cbn [fst ChatDetailPage.chat
      ChatDetailPage.isInitialLoading].
    split; [reflexivity|].
    exact (submit_messages (ChatDetailPage.formData project id)
             (ChatDetailPage.chat dst) w Hb).
Qed.

Lemma hasOwn_elem (k : jsstring) (props : list (jsstring * JValue)) :
  hasOwn k props = true <-> k ∈ map fst props.
Proof.
  unfold hasOwn. induction props as [|[k' v] rest IH]; simpl.
  - split; [discriminate | intros Hk; inversion Hk].
  - rewrite orb_true_iff, IH, elem_of_cons.
    split; (intros [Hk|Hk]; [left|right; exact Hk]).
    + apply bool_decide_eq_true in Hk. congruence.
    + apply bool_decide_eq_true. congruence.
Qed.

Lemma ToString_cons (x : JValue) (rest : list JValue) :
  ToString (JArr (x :: rest))
  = match (match x with
           | JUndefined | JNull => inr []
           | _ => ToString x
           end) with
    | inl e => inl e
    | inr here =>
        match rest with
        | [] => inr here
        | _ :: _ =>
            match ToString (JArr rest) with
            | inl e => inl e
            | inr more => inr (here ++ lit "," ++ more)
            end
        end
    end.
Proof. reflexivity. Qed.

Lemma ToString_object (props : list (jsstring * JValue)) :
  ToString (JObj props)
  = if hasOwn (lit "toString") props
    then inl (ErrorObject notPrimitiveMessage)
    else inr (lit "[object Object]").
Proof. reflexivity. Qed.

(** [String] of an array of objects none of which has a property
    [toString] of its own. *)
Lemma ToString_objects (errors : list (list (jsstring * JValue))) :
  Forall (fun props => lit "toString" ∉ map fst props) errors ->
  ToString (JArr (map JObj errors))
  = inr (commaJoin (map (fun _ => lit "[object Object]") errors)).
Proof.
  induction 1 as [|e rest He Hrest IH]; [reflexivity|].
  cbn [map]. rewrite ToString_cons, ToString_object.
  destruct (hasOwn (lit "toString") e) eqn:Hown;
    [apply hasOwn_elem in Hown; contradiction|].
  destruct rest as [|e' rest]; [reflexivity|].
  cbn [map] in IH |- *. rewrite IH. reflexivity.
Qed.

(** [String] of an array of objects one of which has a property
    [toString] of its own. *)
Lemma ToString_objects_owning (errors : list (list (jsstring * JValue))) :
  Exists (fun props => lit "toString" ∈ map fst props) errors ->
  ToString (JArr (map JObj errors)) = inl (ErrorObject notPrimitiveMessage).
Proof.
  induction errors as [|e rest IH]; intros Hsome; [inversion Hsome|].
  cbn [map]. rewrite ToString_cons, ToString_object.
  destruct (hasOwn (lit "toString") e) eqn:Hown; [reflexivity|].
  assert (Hrest : Exists (fun props => lit "toString" ∈ map fst props) rest).
  { inversion Hsome as [? ? He|? ? Hr]; subst; [|exact Hr].
    apply hasOwn_elem in He. congruence. }
  specialize (IH Hrest).
  destruct rest as [|e' rest]; [inversion Hrest|].
  cbn [map] in IH |- *. rewrite IH. reflexivity.
Qed.

(** X7.  When the back end rejects a request with a status that is not
    2xx and a [detail] that is an array of objects, as FastAPI does for a
    request it cannot validate, the toast of either chat page and of the
    upload page does not show the errors.  When no error has a property
    named [toString], its description is "[object Object]" once per
    error, separated by commas (and empty for an empty array); when one
    has, [new Error] cannot convert the array to a string, and the
    description is the message of the engine's TypeError. *)
Theorem validation_errors_are_not_shown (project id : jsstring)
    (st : ChatCore.State) (dst : ChatDetailPage.State)
    (ust : UploadPage.State) (tok : jsstring) (clk : nat -> Z) (code : Z)
    (errors : list (list (jsstring * JValue))) (shown : jsstring) :
  tok <> [] -> ~ (200 <= code <= 299) ->
  (Forall (fun props => lit "toString" ∉ map fst props) errors
   /\ shown = commaJoin (map (fun _ => lit "[object Object]") errors))
  \/ (Exists (fun props => lit "toString" ∈ map fst props) errors
      /\ shown = notPrimitiveMessage) ->
  let w := answering tok clk code (validationBody errors) in
  (blank (ChatCore.input st) = false ->
   toasts (snd (ChatPage.handleSubmit project st w))
   = [{| title := lit "Error"; description := JStr shown;
         variant := Some (lit "destructive") |}])
  /\ (blank (ChatCore.input (ChatDetailPage.chat dst)) = false ->
      toasts (snd (ChatDetailPage.handleSubmit project id dst w))
      = [{| title := lit "Error"; description := JStr shown;
            variant := Some (lit "destructive") |}])
  /\ (blank (UploadPage.projectName ust) = false ->
      UploadPage.files ust <> [] ->
      toasts (snd (UploadPage.handleSubmit ust w))
      = [{| title := lit "Upload failed"; description := JStr shown;
            variant := Some (lit "destructive") |}]).
Proof.
  intros Ht Hc Hshown w.
  assert (Hok : ok {| status := code; json := inr (validationBody errors) |}
                = false).
  { unfold ok. simpl. apply andb_false_iff.
    destruct (Z.leb_spec 200 code); [|auto].
    destruct (Z.leb_spec code 299); [lia|auto]. }
  assert (Hu : usable (token w) = Some tok)
    by (destruct tok; [done | reflexivity]).
  assert (Hdetail : forall fallback,
             new_Error
               (or_else
                  (assoc (lit "detail") [(lit "detail", JArr (map JObj errors))])
                  (JStr fallback))
             = ErrorObject shown).
  { intros fallback. unfold assoc. rewrite decide_True by reflexivity.
    unfold or_else. cbn [truthy]. unfold new_Error.
    destruct Hshown as [[Hnone ->]|[Hsome ->]].
    - rewrite (ToString_objects _ Hnone). reflexivity.
    - rewrite (ToString_objects_owning _ Hsome). reflexivity. }
  assert (Hfault : chatFault w = Some shown).
  { unfold chatFault, w, answering. cbn [settles json]. rewrite Hok.
    unfold validationBody. rewrite Hdetail. reflexivity. }
  split; [|split].
  - intros Hb. unfold ChatPage.handleSubmit.
    exact (proj2 (submit_failed _ st w tok shown Hb Hu Hfault)).
  - intros Hb. rewrite detail_submit. cbn [snd].
    exact (proj2 (submit_failed _ _ w tok shown Hb Hu Hfault)).
  - intros Hb Hf.
    unfold UploadPage.handleSubmit. rewrite trim_isEmpty, Hb.
    destruct (UploadPage.files ust) as [|f fs] eqn:Hfs; [done|].
    cbn [length Nat.eqb]. rewrite upload_attempt_outcome, Hu.
    unfold w, answering. cbn [settles json]. rewrite Hok.
    unfold validationBody at 1. cbn [getProp].
    rewrite Hdetail. reflexivity.
Qed.

End ChatMessages.

(* ===================================================================== *)
(** * Further properties: loading a conversation *)
(* ===================================================================== *)

Lemma lit_cons (a : ascii) (s : string) :
  lit (String a s) = N_of_ascii a :: lit s.
Proof. reflexivity. Qed.

Lemma lit_inj (s t : string) : lit s = lit t -> s = t.
Proof.
  revert t. induction s as [|a s IH]; intros [|b t]; try discriminate.
  - reflexivity.
  - rewrite !lit_cons. intros [= Hab Hst].
    f_equal; [|apply IH, Hst].
    rewrite <- (ascii_N_embedding a), <- (ascii_N_embedding b).
    congruence.
Qed.

(** Distinct integers have distinct decimal renderings. *)
Lemma decimal_inj (x y : Z) : decimal x = decimal y -> x = y.
Proof.
  unfold decimal. intros Heq%lit_inj.
  assert (Hnil : forall z, Z.to_int z <> Decimal.Pos Decimal.Nil
                           /\ Z.to_int z <> Decimal.Neg Decimal.Nil).
  { intros [|p|p]; simpl; split; try discriminate;
      intros [= Hp]; exact (DecimalPos.Unsigned.to_uint_nonnil p Hp). }
  apply DecimalZ.to_int_inj.
  pose proof (NilZero.isi (Z.to_int x) (proj1 (Hnil x)) (proj2 (Hnil x))) as Hx.
  pose proof (NilZero.isi (Z.to_int y) (proj1 (Hnil y)) (proj2 (Hnil y))) as Hy.
  rewrite Heq in Hx. congruence.
Qed.

Section History.
Context `{Host}.

(** What the [try] block of [fetchChatHistory] does, case by case. *)
Lemma loadHistory_outcome project id (w : World ChatsBody) :
  ChatDetailPage.loadHistory project id w
  = match usable (token w) with
    | None => ([RouterPush (lit "/login")], inr None)
    | Some tok =>
        let sent := Fetch (ChatDetailPage.historyRequest tok) in
        let logged := [sent; Console Log (lit "Fetched chats data:")] in
        let greeting := [ChatDetailPage.welcome project (clock w 0)] in
        match settles w with
        | Rejected e => ([sent], inl e)
        | Resolved r =>
            if ok r then
              match json r with
              | inl e => ([sent], inl e)
              | inr data =>
                  match ChatDetailPage.chatData_of id data with
                  | inl e => (logged, inl e)
                  | inr None => (logged, inr (Some greeting))
                  | inr (Some chatData) =>
                      match snd (ChatDetailPage.convert chatData (clock w)
                                   (chat_history chatData) 0) with
                      | inl e => (logged, inl e)
                      | inr [] => (logged, inr (Some greeting))
                      | inr (m :: ms) => (logged, inr (Some (m :: ms)))
                      end
                  end
              end
            else ([sent], inl (ErrorObject (lit "Failed to fetch chat history")))
        end
    end.
Proof.
  unfold ChatDetailPage.loadHistory.
  destruct (usable (token w)) as [tok|]; [|reflexivity].
  destruct (settles w) as [e|[code [e|data]]]; [reflexivity| |].
  - unfold await, lift, bind, emit, json; simpl. destruct (ok _); reflexivity.
  - unfold await, lift, bind, emit, json; simpl.
    destruct (ok _); simpl; [|reflexivity].
    destruct (ChatDetailPage.chatData_of id data) as [e|[chatData|]];
      try reflexivity.
    pose proof (convert_silent chatData (clock w) (chat_history chatData) 0) as Hs.
    destruct (ChatDetailPage.convert _ _ _ _) as [tr [e|[|m ms]]];
      simpl in *; subst tr; reflexivity.
Qed.

(** X8.  Once the history load has run with a token, the conversation
    page shows at least one message, whatever the back end answered: the
    stored turns, or else the welcome message.  The input and the loading
    flag are untouched, and the initial-loading flag is down. *)
Theorem history_load_never_leaves_the_page_empty (project id : jsstring)
    (st : ChatDetailPage.State) (w : World ChatsBody) (tok : jsstring) :
  usable (token w) = Some tok ->
  let st' := fst (ChatDetailPage.fetchChatHistory project id st w) in
  ChatCore.messages (ChatDetailPage.chat st') <> []
  /\ ChatCore.input (ChatDetailPage.chat st')
     = ChatCore.input (ChatDetailPage.chat st)
  /\ ChatCore.isLoading (ChatDetailPage.chat st')
     = ChatCore.isLoading (ChatDetailPage.chat st)
  /\ ChatDetailPage.isInitialLoading st' = false.
Proof.
  intros Ht. cbn zeta. unfold ChatDetailPage.fetchChatHistory.
  rewrite loadHistory_outcome, Ht. cbn zeta.
  destruct (settles w) as [e|[code [e|data]]]; simpl;
    try (repeat split; discriminate).
  - destruct (ok _); simpl; repeat split; discriminate.
  - destruct (ok _); simpl; [|repeat split; discriminate].
    destruct (ChatDetailPage.chatData_of id data) as [e|[chatData|]]; simpl;
      try (repeat split; discriminate).
    destruct (snd (ChatDetailPage.convert _ _ _ _)) as [e|[|m ms]]; simpl;
      repeat split; discriminate.
Qed.

(** The ids of the converted messages. *)
Lemma convert_ids (chatData : Chat) clk items index msgs :
  ChatDetailPage.convert chatData clk items index = ret msgs ->
  map msg_id msgs
  = flat_map (fun i => [lit "user-" ++ decimal (Z.of_nat i);
                        lit "assistant-" ++ decimal (Z.of_nat i)])
             (seq index (length items)).
Proof.
  revert index msgs. induction items as [|item rest IH]; intros index msgs.
  - intros [= <-]. reflexivity.
  - cbn [ChatDetailPage.convert].
    pose proof (stamp_silent chatData clk (2 * index)) as H1.
    destruct (ChatDetailPage.stamp chatData clk (2 * index)) as [tr1 [e|t1]];
      simpl in H1; subst tr1; [discriminate|].
    pose proof (stamp_silent chatData clk (2 * index + 1)) as H2.
    destruct (ChatDetailPage.stamp chatData clk (2 * index + 1))
      as [tr2 [e|t2]]; simpl in H2; subst tr2; [discriminate|].
    pose proof (convert_silent chatData clk rest (S index)) as H3.
    destruct (ChatDetailPage.convert chatData clk rest (S index))
      as [tr3 [e|more]] eqn:Hmore; simpl in H3; subst tr3; [discriminate|].
    intros [= <-]. cbn [map msg_id length seq flat_map app].
    do 2 f_equal. exact (IH (S index) more Hmore).
Qed.

Lemma turn_ids_distinct (a n : nat) :
  NoDup (flat_map (fun i => [lit "user-" ++ decimal (Z.of_nat i);
                             lit "assistant-" ++ decimal (Z.of_nat i)])
                  (seq a n)).
Proof.
  revert a. induction n as [|n IH]; intros a; cbn [seq flat_map app].
  - constructor.
  - assert (Hlater : forall x,
              In x (flat_map
                      (fun i => [lit "user-" ++ decimal (Z.of_nat i);
                                 lit "assistant-" ++ decimal (Z.of_nat i)])
                      (seq (S a) n)) ->
              exists i, (a < i)%nat
                        /\ (x = lit "user-" ++ decimal (Z.of_nat i)
                            \/ x = lit "assistant-" ++ decimal (Z.of_nat i))).
    { intros x Hx. apply in_flat_map in Hx as [i [Hi Hx]].
      apply in_seq in Hi. exists i. split; [lia|].
      destruct Hx as [<-|[<-|[]]]; auto. }
    assert (Hua : forall i j,
              lit "user-" ++ decimal (Z.of_nat i)
              <> lit "assistant-" ++ decimal (Z.of_nat j)).
    { intros i j. change (lit "user-") with (lit (String "u" "ser-")).
      change (lit "assistant-") with (lit (String "a" "ssistant-")).
      rewrite !lit_cons. simpl. intros Heq. discriminate Heq. }
    assert (Hinj : forall (pre : jsstring) i j,
              pre ++ decimal (Z.of_nat i) = pre ++ decimal (Z.of_nat j) ->
              i = j).
    { intros pre i j Heq%app_inv_head%decimal_inj. lia. }
    constructor; [|constructor; [|apply IH]].
    + rewrite elem_of_cons. intros [Heq|Hin]; [exact (Hua _ _ Heq)|].
      apply list_elem_of_In, Hlater in Hin as [i [Hi [Heq|Heq]]].
      * apply Hinj in Heq. lia.
      * exact (Hua _ _ Heq).
    + intros Hin.
      apply list_elem_of_In, Hlater in Hin as [i [Hi [Heq|Heq]]].
      * exact (Hua _ _ (eq_sym Heq)).
      * apply Hinj in Heq. lia.
Qed.

Lemma turnIds_length (n : nat) : length (turnIds n) = (2 * n)%nat.
Proof.
  unfold turnIds.
  enough (forall a,
            length (flat_map
                      (fun i => [lit "user-" ++ decimal (Z.of_nat i);
                                 lit "assistant-" ++ decimal (Z.of_nat i)])
                      (seq a n)) = (2 * n)%nat) as Hgen by apply Hgen.
  induction n as [|n IH]; intros a; cbn [seq flat_map app length];
    [reflexivity|].
  rewrite IH. lia.
Qed.

(** X9.  When the stored conversation is found, holds turns and has a
    timestamp that is empty or a date, the page shows two messages per
    turn, and their ids, "user-i" and "assistant-i" for the i-th turn, are
    pairwise distinct. *)
Theorem replayed_messages_have_distinct_ids (project id : jsstring)
    (st : ChatDetailPage.State) (w : World ChatsBody) (tok : jsstring)
    (r : Response ChatsBody) (chats : list Chat) (chatData : Chat) :
  usable (token w) = Some tok ->
  settles w = Resolved r -> ok r = true ->
  json r = inr (BodyObject (Some chats)) ->
  ChatDetailPage.findChat id chats = Some chatData ->
  chat_history chatData <> [] ->
  datable chatData ->
  let shown := ChatCore.messages
                 (ChatDetailPage.chat
                    (fst (ChatDetailPage.fetchChatHistory project id st w))) in
  map msg_id shown = turnIds (length (chat_history chatData))
  /\ length shown = (2 * length (chat_history chatData))%nat
  /\ NoDup (map msg_id shown).
Proof.
  intros Ht Hs Hok Hj Hf Hne Hd. cbn zeta.
  unfold ChatDetailPage.fetchChatHistory.
  rewrite loadHistory_outcome, Ht, Hs. cbn zeta. rewrite Hok, Hj.
  cbn [ChatDetailPage.chatData_of]. rewrite Hf.
  destruct (convert_replays chatData (clock w) (chat_history chatData) 0 Hd)
    as [msgs [Hc Htr]].
  pose proof (convert_ids _ _ _ _ _ Hc) as Hids.
  rewrite Hc. unfold ret. cbn [snd].
  assert (Hshown : map msg_id msgs = turnIds (length (chat_history chatData)))
    by exact Hids.
  assert (Hlen : length msgs = (2 * length (chat_history chatData))%nat).
  { rewrite <- (length_map msg_id), Hshown. apply turnIds_length. }
  destruct msgs as [|m ms].
  - destruct (chat_history chatData); [done | discriminate].
  - cbn [fst ChatDetailPage.chat ChatDetailPage.setMessages ChatCore.messages].
    split; [exact Hshown|]. split; [exact Hlen|].
    rewrite Hshown. apply turn_ids_distinct.
Qed.

(** X10.  A stored timestamp that is neither empty nor a date hides the
    conversation: although the chat is found and holds turns, the page
    shows the welcome message alone and the toast "Failed to load chat
    history". *)
Theorem unreadable_timestamp_hides_the_history (project id : jsstring)
    (st : ChatDetailPage.State) (w : World ChatsBody) (tok : jsstring)
    (r : Response ChatsBody) (chats : list Chat) (chatData : Chat) :
  usable (token w) = Some tok ->
  settles w = Resolved r -> ok r = true ->
  json r = inr (BodyObject (Some chats)) ->
  ChatDetailPage.findChat id chats = Some chatData ->
  chat_history chatData <> [] ->
  chat_timestamp chatData <> [] ->
  Date_parse (chat_timestamp chatData) = None ->
  ChatCore.messages
    (ChatDetailPage.chat (fst (ChatDetailPage.fetchChatHistory project id st w)))
  = [ChatDetailPage.welcome project (clock w 0)]
  /\ toasts (snd (ChatDetailPage.fetchChatHistory project id st w))
     = [errorToast (lit "Failed to load chat history")].
Proof.
  intros Ht Hs Hok Hj Hf Hne Hts Hp.
  unfold ChatDetailPage.fetchChatHistory.
  rewrite loadHistory_outcome, Ht, Hs. cbn zeta. rewrite Hok, Hj.
  cbn [ChatDetailPage.chatData_of]. rewrite Hf.
  destruct (chat_history chatData) as [|item rest]; [done|].
  cbn [ChatDetailPage.convert]. unfold ChatDetailPage.stamp.
  destruct (chat_timestamp chatData) as [|c ts]; [done|].
  cbn [isEmpty]. rewrite Hp. split; reflexivity.
Qed.

(** X11.  The conversation page reads the chats from the [chats] property
    of the body only.  When the body is itself the array of chats, the
    page shows the welcome message alone and reports nothing, even for an
    id that the array holds, while the layout lists the chats of that
    same body. *)
Theorem bare_array_is_read_by_the_layout_only (project id : jsstring)
    (st : ChatDetailPage.State) (lst : DashboardLayout.State)
    (w : World ChatsBody) (b : DashboardLayout.Browser) (tok : jsstring)
    (r : Response ChatsBody) (first : Chat) (others : list Chat) :
  usable (token w) = Some tok ->
  settles w = Resolved r -> ok r = true ->
  json r = inr (BodyArray (first :: others)) ->
  (ChatCore.messages
     (ChatDetailPage.chat (fst (ChatDetailPage.fetchChatHistory project id st w)))
   = [ChatDetailPage.welcome project (clock w 0)]
   /\ toasts (snd (ChatDetailPage.fetchChatHistory project id st w)) = [])
  /\ (DashboardLayout.chats (fst (DashboardLayout.onMount lst w b))
      = DashboardLayout.normalizeAll w b (first :: others) 0
      /\ toasts (snd (DashboardLayout.onMount lst w b)) = []).
Proof.
  intros Ht Hs Hok Hj. split.
  - unfold ChatDetailPage.fetchChatHistory.
    rewrite loadHistory_outcome, Ht, Hs. cbn zeta. rewrite Hok, Hj.
    split; reflexivity.
  - unfold DashboardLayout.onMount, DashboardLayout.fetchChats.
    rewrite Ht, loadChats_outcome, Hs. cbn zeta. rewrite Hok, Hj.
    cbn [DashboardLayout.chatsList_of DashboardLayout.normalizeAll].
    destruct (DashboardLayout.normalize w b first 0) as [chat' k'].
    split; reflexivity.
Qed.

Lemma findChat_None id (chats : list Chat) :
  ChatDetailPage.findChat id chats = None <-> ~ existing id chats.
Proof.
  unfold ChatDetailPage.findChat, existing. split.
  - intros Hn [c [Hc Hid]].
    apply list_elem_of_In in Hc.
    pose proof (find_none _ _ Hn c Hc) as Hb. cbn beta in Hb.
    apply bool_decide_eq_false in Hb. contradiction.
  - intros Hn. destruct (find _ chats) as [c|] eqn:Hf; [|reflexivity].
    apply find_some in Hf as [Hc Hb]. apply bool_decide_eq_true in Hb.
    exfalso. apply Hn. exists c. split; [apply list_elem_of_In, Hc | exact Hb].
Qed.

(** X12.  Opening the conversation page on an id that none of the stored
    chats has is not an error: the page shows the welcome message alone
    and no toast.  When several stored chats have the id, the first one
    in the list is the one shown. *)
Theorem unknown_conversation_is_welcomed (project id : jsstring)
    (st : ChatDetailPage.State) (w : World ChatsBody) (tok : jsstring)
    (r : Response ChatsBody) (chats : list Chat) :
  usable (token w) = Some tok ->
  settles w = Resolved r -> ok r = true ->
  json r = inr (BodyObject (Some chats)) ->
  (~ existing id chats ->
   ChatCore.messages
     (ChatDetailPage.chat (fst (ChatDetailPage.fetchChatHistory project id st w)))
   = [ChatDetailPage.welcome project (clock w 0)]
   /\ toasts (snd (ChatDetailPage.fetchChatHistory project id st w)) = [])
  /\ (forall before chatData after,
        chats = before ++ chatData :: after ->
        ~ existing id before -> vector_id chatData = id ->
        ChatDetailPage.findChat id chats = Some chatData).
Proof.
  intros Ht Hs Hok Hj. split.
  - intros Hn%findChat_None. unfold ChatDetailPage.fetchChatHistory.
    rewrite loadHistory_outcome, Ht, Hs. cbn zeta. rewrite Hok, Hj.
    cbn [ChatDetailPage.chatData_of]. rewrite Hn. split; reflexivity.
  - intros before chatData after -> Hn Hid. clear Hj.
    unfold ChatDetailPage.findChat. revert Hn.
    induction before as [|c before IH]; intros Hn; simpl.
    + rewrite bool_decide_eq_true_2 by exact Hid. reflexivity.
    + rewrite bool_decide_eq_false_2.
      * apply IH. intros [c' [Hc' Hid']]. apply Hn. exists c'.
        split; [apply list_elem_of_further, Hc' | exact Hid'].
      * intros Hc. apply Hn. exists c. split; [apply list_elem_of_here | exact Hc].
Qed.

End History.

(* ===================================================================== *)
(** * Further properties: the dashboard layout *)
(* ===================================================================== *)

Section Layout.
Context `{Host}.

Lemma lit_nonempty (a : ascii) (s : string) (t : jsstring) :
  isEmpty (lit (String a s) ++ t) = false.
Proof. rewrite lit_cons. reflexivity. Qed.

(** What the normalization of one chat keeps and what it sets. *)
Lemma normalize_spec (w : World ChatsBody) (b : DashboardLayout.Browser)
    (chat : Chat) (k : nat) :
  let chat' := fst (DashboardLayout.normalize w b chat k) in
  (project_name chat', vector_id chat', chat_history chat',
   chat_timestamp chat', other chat')
  = (project_name chat, vector_id chat, chat_history chat,
     chat_timestamp chat, other chat)
  /\ DashboardLayout.idTruthy (chat_id chat') = true
  /\ (exists m, last_message chat' = Some m /\ m <> [])
  /\ (DashboardLayout.idTruthy (chat_id chat) = true ->
      chat_id chat' = chat_id chat
      /\ snd (DashboardLayout.normalize w b chat k) = k).
Proof.
  unfold DashboardLayout.normalize.
  assert (Hlabel : exists m,
            Some match chat_history chat with
                 | [] => DashboardLayout.newConversation
                 | first :: _ =>
                     if isEmpty (user_query first)
                     then DashboardLayout.newConversation
                     else user_query first
                 end = Some m /\ m <> []).
  { eexists. split; [reflexivity|].
    destruct (chat_history chat) as [|first rest]; [discriminate|].
    destruct (user_query first); [discriminate | discriminate]. }
  destruct (DashboardLayout.idTruthy (chat_id chat)) eqn:Hid; cbn.
  { repeat split; auto. }
  destruct (isEmpty (vector_id chat)) eqn:Hv; cbn.
  - repeat split; auto; discriminate.
  - repeat split; auto; try discriminate. rewrite Hv. reflexivity.
Qed.

(** X13.  The normalization of the chat list keeps the chats, in order,
    with their project name, conversation id, history, timestamp and
    other properties; it only sets the id and the label. *)
Theorem normalization_keeps_the_chats (w : World ChatsBody)
    (b : DashboardLayout.Browser) (chatsList : list Chat) (k : nat) :
  let kept (c : Chat) :=
    (project_name c, vector_id c, chat_history c, chat_timestamp c, other c) in
  map kept (DashboardLayout.normalizeAll w b chatsList k) = map kept chatsList
  /\ length (DashboardLayout.normalizeAll w b chatsList k) = length chatsList.
Proof.
  cbn zeta.
  assert (Hmap : map (fun c : Chat =>
                        (project_name c, vector_id c, chat_history c,
                         chat_timestamp c, other c))
                     (DashboardLayout.normalizeAll w b chatsList k)
                 = map (fun c : Chat =>
                          (project_name c, vector_id c, chat_history c,
                           chat_timestamp c, other c)) chatsList).
  { revert k. induction chatsList as [|chat rest IH]; intros k; [reflexivity|].
    cbn [DashboardLayout.normalizeAll].
    pose proof (normalize_spec w b chat k) as [Hkept _].
    destruct (DashboardLayout.normalize w b chat k) as [chat' k'].
    cbn [map fst] in *. rewrite Hkept, IH. reflexivity. }
  split; [exact Hmap|].
  apply (f_equal length) in Hmap. rewrite !length_map in Hmap. exact Hmap.
Qed.

(** X14.  The layout gives every chat of the list an id and a label.  The
    id is the chat's own when that is truthy (a string that is not empty,
    a number other than zero and NaN), else its conversation id when that
    is not empty, else a generated text [chat-<clock>-<random>].  The
    label is the question of the first turn of the history, or "New
    conversation" without one; it is never empty, so that the entry in
    the sidebar shows it (cut after 30 code units) and never the fallback
    "New Chat" of the render. *)
Theorem normalized_chats_are_labelled (w : World ChatsBody)
    (b : DashboardLayout.Browser) (chatsList : list Chat) (k : nat) :
  Forall2 (fun c c' : Chat =>
             identifies w b c (chat_id c')
             /\ last_message c' = Some (firstQuestion c)
             /\ firstQuestion c <> []
             /\ DashboardLayout.preview c'
                = if (30 <? length (firstQuestion c))%nat
                  then take 30 (firstQuestion c) ++ lit "..."
                  else firstQuestion c)
          chatsList (DashboardLayout.normalizeAll w b chatsList k).
Proof.
  revert k. induction chatsList as [|chat rest IH]; intros k;
    cbn [DashboardLayout.normalizeAll]; [constructor|].
  destruct (DashboardLayout.normalize w b chat k) as [chat' k'] eqn:Hn.
  constructor; [|apply IH].
  unfold DashboardLayout.normalize in Hn.
  assert (Hlabel : last_message chat' = Some (firstQuestion chat)).
  { unfold firstQuestion.
    destruct (DashboardLayout.idTruthy (chat_id chat));
      [|destruct (negb (isEmpty (vector_id chat)))];
      injection Hn as <- _; cbn [last_message];
      (destruct (chat_history chat) as [|first more]; [reflexivity|]);
      destruct (user_query first); reflexivity. }
  assert (Hne : firstQuestion chat <> []).
  { unfold firstQuestion.
    destruct (chat_history chat) as [|first more]; [discriminate|].
    destruct (user_query first); discriminate. }
  split; [|split; [exact Hlabel|split; [exact Hne|]]].
  - unfold identifies. unfold DashboardLayout.idTruthy in Hn.
    destruct (chat_id chat) as [[[|a s]|n]|]; cbn [isEmpty negb] in Hn.
    + destruct (vector_id chat) as [|v vs]; cbn [isEmpty negb] in Hn;
        injection Hn as <- _; cbn [chat_id]; [exists k|]; reflexivity.
    + injection Hn as <- _. reflexivity.
    + destruct (number_truthy n); [injection Hn as <- _; reflexivity|].
      destruct (vector_id chat) as [|v vs]; cbn [isEmpty negb] in Hn;
        injection Hn as <- _; cbn [chat_id]; [exists k|]; reflexivity.
    + destruct (vector_id chat) as [|v vs]; cbn [isEmpty negb] in Hn;
        injection Hn as <- _; cbn [chat_id]; [exists k|]; reflexivity.
  - unfold DashboardLayout.preview. rewrite Hlabel.
    destruct (30 <? length (firstQuestion chat))%nat; [reflexivity|].
    destruct (firstQuestion chat); [done | reflexivity].
Qed.

(** X15.  Normalizing an already normalized list changes nothing,
    whatever the clock and the random source of the second pass. *)
Theorem normalization_is_idempotent (w w' : World ChatsBody)
    (b b' : DashboardLayout.Browser) (chatsList : list Chat) (k k' : nat) :
  DashboardLayout.normalizeAll w' b'
    (DashboardLayout.normalizeAll w b chatsList k) k'
  = DashboardLayout.normalizeAll w b chatsList k.
Proof.
  revert k k'. induction chatsList as [|chat rest IH]; intros k k';
    [reflexivity|].
  cbn [DashboardLayout.normalizeAll].
  pose proof (normalize_spec w b chat k) as (Hkept & Hid & _ & _).
  destruct (DashboardLayout.normalize w b chat k) as [chat1 k1] eqn:Hn.
  cbn [fst] in *. cbn [DashboardLayout.normalizeAll].
  assert (Hagain : DashboardLayout.normalize w' b' chat1 k' = (chat1, k')).
  { unfold DashboardLayout.normalize. rewrite Hid.
    unfold DashboardLayout.normalize in Hn.
    injection Hkept as Hp Hv Hh Ht Ho.
    destruct (DashboardLayout.idTruthy (chat_id chat));
      [|destruct (negb (isEmpty (vector_id chat)))];
      injection Hn as <- _; reflexivity. }
  rewrite Hagain, IH. reflexivity.
Qed.

(** X16.  The label of a sidebar entry is never empty and never longer
    than 33 code units: a last message of at most 30 code units is shown
    whole, a longer one is cut to its first 30 code units followed by
    "...", and a missing or empty one is replaced by "New Chat". *)
Theorem preview_is_short (chat : Chat) :
  DashboardLayout.preview chat <> []
  /\ (length (DashboardLayout.preview chat) <= 33)%nat
  /\ (forall m, last_message chat = Some m -> m <> [] ->
       (length m <= 30)%nat -> DashboardLayout.preview chat = m)
  /\ (forall m, last_message chat = Some m -> (30 < length m)%nat ->
       DashboardLayout.preview chat = take 30 m ++ lit "...")
  /\ (last_message chat = None \/ last_message chat = Some [] ->
      DashboardLayout.preview chat = lit "New Chat").
Proof.
  unfold DashboardLayout.preview.
  destruct (last_message chat) as [m|].
  - destruct (Nat.ltb_spec 30 (length m)) as [Hlong|Hshort].
    + repeat split.
      * destruct m; [simpl in Hlong; lia | discriminate].
      * rewrite length_app, length_take.
        change (length (lit "...")) with 3%nat. lia.
      * intros m' [= <-] _ Hle. lia.
      * intros m' [= <-] _. reflexivity.
      * intros [Hn|[= ->]]; [discriminate | simpl in Hlong; lia].
    + destruct m as [|c m]; cbn [isEmpty].
      * repeat split; try discriminate.
        -- change (length (lit "New Chat")) with 8%nat. lia.
        -- intros m' [= <-] Hne. done.
        -- intros m' [= <-] Hlt. simpl in Hlt. lia.
      * repeat split; try discriminate.
        -- lia.
        -- intros m' [= <-] _ _. reflexivity.
        -- intros m' [= <-] Hlt. lia.
        -- intros [Hn|Hn]; discriminate.
  - repeat split; try discriminate.
    change (length (lit "New Chat")) with 8%nat. lia.
Qed.

End Layout.

Lemma split_whole (sep : N) (s : jsstring) : sep ∉ s -> split sep s = [s].
Proof.
  induction s as [|c r IH]; intros Hs; [reflexivity|].
  cbn [split]. apply not_elem_of_cons in Hs as [Hc Hr].
  replace (c =? sep)%N with false by (symmetry; apply N.eqb_neq; congruence).
  rewrite (IH Hr). reflexivity.
Qed.

Lemma split_at (sep : N) (a b : jsstring) :
  sep ∉ a -> split sep (a ++ sep :: b) = a :: split sep b.
Proof.
  induction a as [|c r IH]; intros Ha; cbn [app split].
  - rewrite N.eqb_refl. reflexivity.
  - apply not_elem_of_cons in Ha as [Hc Hr].
    replace (c =? sep)%N with false by (symmetry; apply N.eqb_neq; congruence).
    rewrite (IH Hr). reflexivity.
Qed.

Lemma indexOf_absent (xs : list jsstring) (x : jsstring) :
  x ∉ xs -> indexOf xs x = -1.
Proof.
  induction xs as [|y r IH]; intros Hx; [reflexivity|].
  apply not_elem_of_cons in Hx as [Hy Hr]. cbn [indexOf].
  rewrite decide_False by congruence. rewrite (IH Hr). reflexivity.
Qed.

Section Location.
Context `{Host}.

(** The project of a location [/dashboard/chat/<project><rest>]. *)
Lemma currentProject_onChatPath (b : DashboardLayout.Browser)
    (project rest : jsstring) :
  onChatPath b project rest ->
  47%N ∉ project ->
  rest = [] \/ (exists more, rest = 47%N :: more) ->
  DashboardLayout.currentProject b = Some project.
Proof.
  unfold onChatPath, DashboardLayout.currentProject. intros -> Hp Hrest.
  assert (Hsplit : exists tail,
            split 47 (lit "/dashboard/chat/" ++ project ++ rest)
            = [] :: lit "dashboard" :: lit "chat" :: project :: tail).
  { assert (Htail : exists tail, split 47 (project ++ rest) = project :: tail).
    { destruct Hrest as [-> | [more ->]].
      - rewrite app_nil_r, split_whole by exact Hp. eauto.
      - rewrite split_at by exact Hp. eauto. }
    destruct Htail as [tail Htail]. exists tail.
    change (lit "/dashboard/chat/" ++ project ++ rest)
      with ([] ++ 47%N :: lit "dashboard" ++ 47%N :: lit "chat"
            ++ 47%N :: (project ++ rest)).
    rewrite split_at by (intros Hin; inversion Hin).
    rewrite split_at by (apply (bool_decide_unpack _); vm_compute; exact I).
    rewrite split_at by (apply (bool_decide_unpack _); vm_compute; exact I).
    rewrite Htail. reflexivity. }
  destruct Hsplit as [tail ->].
  assert (Hindex : indexOf ([] :: lit "dashboard" :: lit "chat" :: project :: tail)
                     (lit "chat") = 2).
  { cbn [indexOf].
    rewrite (decide_False (P := [] = lit "chat")) by discriminate.
    rewrite (decide_False (P := lit "dashboard" = lit "chat")) by discriminate.
    rewrite (decide_True (P := lit "chat" = lit "chat")) by reflexivity.
    reflexivity. }
  rewrite Hindex. cbn [length].
  replace (Z.of_nat (S (S (S (S (length tail))))) >? 2 + 1) with true
    by (symmetry; apply Z.gtb_lt; lia).
  reflexivity.
Qed.

(** X17.  The layout takes as current project the path segment that
    follows the first segment "chat": on [/dashboard/chat/<project>], with
    or without further segments, that is the project as the address bar
    has it (the empty string when the path ends with "chat/"); a path
    without a segment "chat" names no project. *)
Theorem current_project_of_the_location (b : DashboardLayout.Browser)
    (project rest : jsstring) :
  (onChatPath b project rest -> 47%N ∉ project ->
   rest = [] \/ (exists more, rest = 47%N :: more) ->
   DashboardLayout.currentProject b = Some project)
  /\ (lit "chat" ∉ split 47 (Config.pathname (DashboardLayout.window b)) ->
      DashboardLayout.currentProject b = None).
Proof.
  split; [apply currentProject_onChatPath|].
  intros Hno. unfold DashboardLayout.currentProject.
  rewrite indexOf_absent by exact Hno. reflexivity.
Qed.

(** The grouping key of the render is the project name, or "Default
    Project". *)
Lemma groupName_projectKey (c : Chat) :
  DashboardLayout.groupName c = projectKey c.
Proof.
  unfold DashboardLayout.groupName, projectKey.
  destruct (project_name c); reflexivity.
Qed.

(** The names on which the grouping throws are those of
    [Object.prototype]. *)
Lemma inherited_names (name : jsstring) :
  DashboardLayout.inherited name = true <-> name ∈ objectPrototypeNames.
Proof.
  unfold DashboardLayout.inherited. rewrite bool_decide_eq_true.
  unfold DashboardLayout.inheritedNames, objectPrototypeNames.
  rewrite !elem_of_cons, !elem_of_nil. tauto.
Qed.

Lemma not_inherited_names (name : jsstring) :
  DashboardLayout.inherited name = false <-> name ∉ objectPrototypeNames.
Proof.
  rewrite <- inherited_names. destruct (DashboardLayout.inherited name).
  - split; [discriminate | intros Hn; exfalso; apply Hn; reflexivity].
  - split; [discriminate | reflexivity].
Qed.

(** The menu of one group. *)
Lemma menu_singleton (name : jsstring) (group : list Chat) :
  DashboardLayout.menu {[ name := group ]}
  = {[ name := DashboardLayout.menuEntries name group ]}.
Proof.
  unfold DashboardLayout.menu. apply map_eq. intros i.
  rewrite map_lookup_imap.
  destruct (decide (i = name)) as [->|Hi].
  - rewrite !lookup_singleton_eq. reflexivity.
  - rewrite !lookup_singleton_ne by congruence. reflexivity.
Qed.

(** X18.  When the back end lists no chat, the layout that mounted on a
    project page holds one default chat for the project of the location,
    labelled "New conversation"; no error is recorded and no toast is
    shown.  The sidebar then shows a menu of one group, named after the
    project, with one entry, which opens
    [/dashboard/chat/<project>/default].  When the location has an empty
    project segment, the group and the page of the entry are those of
    "Default Project"; when the project bears a name of
    [Object.prototype], the render throws. *)
Theorem empty_list_gives_a_default_chat (lst : DashboardLayout.State)
    (w : World ChatsBody) (b : DashboardLayout.Browser)
    (tok project rest : jsstring) (r : Response ChatsBody) (data : ChatsBody) :
  usable (token w) = Some tok ->
  settles w = Resolved r -> ok r = true -> json r = inr data ->
  DashboardLayout.chatsList_of data = inr [] ->
  DashboardLayout.error lst = None ->
  onChatPath b project rest -> 47%N ∉ project ->
  rest = [] \/ (exists more, rest = 47%N :: more) ->
  let st' := fst (DashboardLayout.onMount lst w b) in
  let shown := {| chat_id := Some (IdString (lit "default"));
                  project_name := project;
                  vector_id := lit "default";
                  chat_history := [];
                  chat_timestamp := toISOString (clock w 0);
                  last_message := Some (lit "New conversation");
                  other := [] |} in
  let group := match project with
               | [] => lit "Default Project"
               | _ :: _ => project
               end in
  DashboardLayout.chats st' = [shown]
  /\ DashboardLayout.error st' = None
  /\ toasts (snd (DashboardLayout.onMount lst w b)) = []
  /\ (group ∈ objectPrototypeNames ->
      DashboardLayout.sidebar st'
      = inl (DashboardLayout.PushIsNotAFunction group))
  /\ (group ∉ objectPrototypeNames ->
      DashboardLayout.sidebar st'
      = inr (DashboardLayout.Menu {[ group := [shown] ]})
      /\ DashboardLayout.menu {[ group := [shown] ]}
         = {[ group :=
                [{| DashboardLayout.entry_label := lit "New conversation";
                    DashboardLayout.entry_opens :=
                      lit "/dashboard/chat/" ++ group ++ lit "/default" |}] ]}).
Proof.
  intros Ht Hs Hok Hj Hl He Hpath Hp Hrest. cbn zeta.
  assert (Hst : fst (DashboardLayout.onMount lst w b)
                = {| DashboardLayout.chats :=
                       [DashboardLayout.defaultChat project (clock w 0)];
                     DashboardLayout.isLoading := false;
                     DashboardLayout.error := None |}).
  { unfold DashboardLayout.onMount, DashboardLayout.fetchChats.
    rewrite Ht, loadChats_outcome, Hs. cbn zeta. rewrite Hok, Hj, Hl.
    cbn [DashboardLayout.normalizeAll fst]. unfold DashboardLayout.withDefault.
    rewrite (currentProject_onChatPath b project rest Hpath Hp Hrest), He.
    reflexivity. }
  assert (Htoasts : toasts (snd (DashboardLayout.onMount lst w b)) = []).
  { unfold DashboardLayout.onMount, DashboardLayout.fetchChats.
    rewrite Ht, loadChats_outcome, Hs. cbn zeta. rewrite Hok, Hj, Hl.
    reflexivity. }
  rewrite Hst. cbn [DashboardLayout.chats DashboardLayout.error].
  set (shown := DashboardLayout.defaultChat project (clock w 0)).
  set (group := match project with
                | [] => lit "Default Project"
                | _ :: _ => project
                end).
  assert (Hkey : DashboardLayout.groupName shown = group).
  { rewrite groupName_projectKey. unfold projectKey, shown, group.
    cbn [project_name DashboardLayout.defaultChat].
    destruct project; reflexivity. }
  split; [reflexivity|]. split; [reflexivity|]. split; [exact Htoasts|].
  unfold DashboardLayout.sidebar, DashboardLayout.chatsByProject.
  cbn [DashboardLayout.chats DashboardLayout.isLoading DashboardLayout.error
       DashboardLayout.reduce].
  unfold DashboardLayout.addChat. cbn zeta. rewrite Hkey, lookup_empty.
  split.
  - intros Hin. apply inherited_names in Hin. rewrite Hin. reflexivity.
  - intros Hout. apply not_inherited_names in Hout. rewrite Hout.
    change (<[group := [shown]]> (∅ : gmap jsstring (list Chat)))
      with ({[ group := [shown] ]} : gmap jsstring (list Chat)).
    rewrite map_size_singleton. split; [reflexivity|].
    apply menu_singleton.
Qed.

(** X19.  After a failed load the sidebar shows the error panel with the
    message of the failure: the default chat that the handler puts in the
    state on a project page is not displayed. *)
Theorem failed_load_shows_the_error_panel (w : World ChatsBody)
    (b : DashboardLayout.Browser) (tok m project : jsstring) :
  usable (token w) = Some tok ->
  listFault w = Some m -> m <> [] ->
  DashboardLayout.currentProject b = Some project ->
  DashboardLayout.inherited
    (DashboardLayout.groupName
       (DashboardLayout.defaultChat project (clock w 0))) = false ->
  let st' := fst (DashboardLayout.onMount mounting w b) in
  DashboardLayout.chats st'
  = [DashboardLayout.defaultChat project (clock w 0)]
  /\ DashboardLayout.sidebar st' = inr (DashboardLayout.ErrorPanel m).
Proof.
  intros Ht Hm Hne Hp Hin. cbn zeta. unfold DashboardLayout.onMount.
  rewrite Ht.
  destruct (fetchChats_failed tok mounting w b m Hm) as [-> _].
  unfold DashboardLayout.withDefault. rewrite Hp.
  split; [reflexivity|].
  unfold DashboardLayout.sidebar, DashboardLayout.chatsByProject.
  cbn [DashboardLayout.chats DashboardLayout.isLoading DashboardLayout.error].
  cbn [DashboardLayout.reduce]. unfold DashboardLayout.addChat. cbn zeta.
  rewrite lookup_empty, Hin.
  destruct m; [done | reflexivity].
Qed.

End Location.

Section Sidebar.
Context `{Host}.

Lemma ofProject_cons (name : jsstring) (c : Chat) (rest : list Chat) :
  ofProject name (c :: rest)
  = if decide (projectKey c = name)
    then c :: ofProject name rest else ofProject name rest.
Proof. unfold ofProject. rewrite filter_cons. reflexivity. Qed.

(** The reduction from an accumulator that owns no inherited name. *)
Lemma reduce_spec (rest : list Chat) (acc : gmap jsstring (list Chat)) :
  (forall n g, acc !! n = Some g -> DashboardLayout.inherited n = false) ->
  match DashboardLayout.reduce rest acc with
  | inl (DashboardLayout.PushIsNotAFunction n) =>
      DashboardLayout.inherited n = true
      /\ exists c, c ∈ rest /\ projectKey c = n
  | inr groups =>
      Forall (fun c => DashboardLayout.inherited (projectKey c) = false) rest
      /\ forall name,
           groups !! name
           = match acc !! name, ofProject name rest with
             | None, [] => None
             | o, cs => Some (default [] o ++ cs)
             end
  end.
Proof.
  revert acc. induction rest as [|c rest IH]; intros acc Hacc.
  - cbn [DashboardLayout.reduce]. split; [constructor|].
    intros name. unfold ofProject. rewrite filter_nil.
    destruct (acc !! name) as [g|]; [|reflexivity].
    cbn [default]. rewrite app_nil_r. reflexivity.
  - cbn [DashboardLayout.reduce]. unfold DashboardLayout.addChat. cbn zeta.
    rewrite groupName_projectKey. set (gn := projectKey c).
    destruct (acc !! gn) as [g|] eqn:Hg.
    + specialize (IH (<[gn := g ++ [c]]> acc)).
      destruct (DashboardLayout.reduce rest (<[gn := g ++ [c]]> acc))
        as [[n]|groups].
      * destruct IH as [Hn [c' [Hc' Hgn]]].
        { intros n' g'. rewrite lookup_insert. case_decide; [|apply Hacc].
          subst n'. intros _. exact (Hacc gn g Hg). }
        split; [exact Hn|]. exists c'.
        split; [apply list_elem_of_further, Hc' | exact Hgn].
      * destruct IH as [Hall Hlook].
        { intros n' g'. rewrite lookup_insert. case_decide; [|apply Hacc].
          subst n'. intros _. exact (Hacc gn g Hg). }
        split; [constructor; [exact (Hacc gn g Hg) | exact Hall]|].
        intros name. rewrite Hlook, ofProject_cons, lookup_insert.
        fold gn. repeat case_decide; try congruence;
          try subst name; rewrite ?Hg;
          destruct (ofProject _ rest); simpl;
          rewrite ?app_nil_r, <- ?app_assoc; reflexivity.
    + destruct (DashboardLayout.inherited gn) eqn:Hin.
      * split; [exact Hin|]. exists c. split; [apply list_elem_of_here | done].
      * specialize (IH (<[gn := [c]]> acc)).
        destruct (DashboardLayout.reduce rest (<[gn := [c]]> acc))
          as [[n]|groups].
        -- destruct IH as [Hn [c' [Hc' Hgn]]].
           { intros n' g'. rewrite lookup_insert. case_decide; [|apply Hacc].
             subst n'. intros _. exact Hin. }
           split; [exact Hn|]. exists c'.
           split; [apply list_elem_of_further, Hc' | exact Hgn].
        -- destruct IH as [Hall Hlook].
           { intros n' g'. rewrite lookup_insert. case_decide; [|apply Hacc].
             subst n'. intros _. exact Hin. }
           split; [constructor; [exact Hin | exact Hall]|].
           intros name. rewrite Hlook, ofProject_cons, lookup_insert.
           fold gn. repeat case_decide; try congruence;
             try subst name; rewrite ?Hg;
             destruct (ofProject _ rest); reflexivity.
Qed.

(** The groups of a list of chats. *)
Lemma chats_grouping (chats : list Chat) :
  match DashboardLayout.chatsByProject chats with
  | inr groups =>
      Forall (fun c => projectKey c ∉ objectPrototypeNames) chats
      /\ (forall name,
            groups !! name = match ofProject name chats with
                             | [] => None
                             | cs => Some cs
                             end)
      /\ (size groups = 0%nat <-> chats = [])
  | inl e =>
      exists c, c ∈ chats /\ projectKey c ∈ objectPrototypeNames
                /\ e = DashboardLayout.PushIsNotAFunction (projectKey c)
  end.
Proof.
  unfold DashboardLayout.chatsByProject.
  pose proof (reduce_spec chats ∅) as Hr.
  destruct (DashboardLayout.reduce chats ∅) as [[n]|groups].
  - destruct Hr as [Hn [c [Hc Hkey]]].
    { intros n' g. rewrite lookup_empty. discriminate. }
    exists c. subst n. split; [exact Hc|].
    split; [apply inherited_names, Hn | reflexivity].
  - destruct Hr as [Hall Hlook].
    { intros n' g. rewrite lookup_empty. discriminate. }
    assert (Hnames : Forall (fun c => projectKey c ∉ objectPrototypeNames)
                            chats).
    { eapply Forall_impl; [exact Hall|].
      intros c Hc. apply not_inherited_names, Hc. }
    assert (Hgroup : forall name,
              groups !! name = match ofProject name chats with
                               | [] => None
                               | cs => Some cs
                               end).
    { intros name. rewrite Hlook, lookup_empty.
      destruct (ofProject name chats); reflexivity. }
    split; [exact Hnames|]. split; [exact Hgroup|].
    rewrite map_size_empty_iff. split.
    + intros ->. destruct chats as [|c rest]; [reflexivity|].
      specialize (Hgroup (projectKey c)).
      rewrite lookup_empty, ofProject_cons, decide_True in Hgroup
        by reflexivity.
      discriminate.
    + intros ->. apply map_eq. intros name.
      rewrite Hgroup, lookup_empty. reflexivity.
Qed.

(** X20.  The sidebar groups the chats by project name, a chat without
    name going to "Default Project": when the grouping succeeds, the group
    of a name holds exactly the chats of that name, in the order of the
    list, and a name without chat has no group.  The grouping throws, and
    with it the render of the layout, exactly when a chat bears a name of
    [Object.prototype], such as "constructor" or "toString"; the error
    names the project of such a chat. *)
Theorem chats_are_grouped_by_project (chats : list Chat) :
  let key (c : Chat) :=
    match project_name c with
    | [] => lit "Default Project"
    | name => name
    end in
  let thrown (c : Chat) :=
    key c ∈ [lit "__defineGetter__"; lit "__defineSetter__";
             lit "__lookupGetter__"; lit "__lookupSetter__"; lit "__proto__";
             lit "constructor"; lit "hasOwnProperty"; lit "isPrototypeOf";
             lit "propertyIsEnumerable"; lit "toLocaleString";
             lit "toString"; lit "valueOf"] in
  (forall groups,
     DashboardLayout.chatsByProject chats = inr groups ->
     Forall (fun c => ~ thrown c) chats
     /\ (forall name,
           groups !! name = match filter (fun c => key c = name) chats with
                            | [] => None
                            | cs => Some cs
                            end)
     /\ (size groups = 0%nat <-> chats = []))
  /\ (forall e,
        DashboardLayout.chatsByProject chats = inl e ->
        exists c, c ∈ chats /\ thrown c
                  /\ e = DashboardLayout.PushIsNotAFunction (key c))
  /\ (Forall (fun c => ~ thrown c) chats ->
      exists groups, DashboardLayout.chatsByProject chats = inr groups)
  /\ (Exists thrown chats ->
      exists e, DashboardLayout.chatsByProject chats = inl e).
Proof.
  cbn zeta. pose proof (chats_grouping chats) as Hg.
  destruct (DashboardLayout.chatsByProject chats) as [e|groups].
  - destruct Hg as (c & Hc & Hkey & He).
    split; [intros ? [=]|]. split; [intros ? [= <-]; exists c; auto|].
    split; [|intros _; exists e; reflexivity].
    intros Hall. rewrite Forall_forall in Hall.
    destruct (Hall c Hc Hkey).
  - destruct Hg as (Hall & Hgroup & Hsize).
    split; [intros ? [= <-]; auto|]. split; [intros ? [=]|].
    split; [intros _; exists groups; reflexivity|].
    intros Hsome. apply Exists_exists in Hsome as (c & Hc & Hkey).
    rewrite Forall_forall in Hall. destruct (Hall c Hc Hkey).
Qed.

(** X21.  Once the layout has loaded without error, the sidebar shows
    the notice "No chats found" exactly when the state holds no chat, and
    otherwise the menu of the groups: every chat is in the group of its
    project name ("Default Project" for a chat without name), and the
    group of a name holds the chats of that name only, in the order of
    the list.  This holds provided no chat bears a name of
    [Object.prototype]. *)
Theorem sidebar_after_loading (st : DashboardLayout.State) :
  let key (c : Chat) :=
    match project_name c with
    | [] => lit "Default Project"
    | name => name
    end in
  DashboardLayout.isLoading st = false ->
  DashboardLayout.error st = None ->
  Forall (fun c =>
            key c ∉ [lit "__defineGetter__"; lit "__defineSetter__";
                     lit "__lookupGetter__"; lit "__lookupSetter__";
                     lit "__proto__"; lit "constructor";
                     lit "hasOwnProperty"; lit "isPrototypeOf";
                     lit "propertyIsEnumerable"; lit "toLocaleString";
                     lit "toString"; lit "valueOf"])
         (DashboardLayout.chats st) ->
  (DashboardLayout.chats st = [] ->
   DashboardLayout.sidebar st = inr DashboardLayout.NoChats)
  /\ (DashboardLayout.chats st <> [] ->
      exists groups,
        DashboardLayout.sidebar st = inr (DashboardLayout.Menu groups)
        /\ (forall c, c ∈ DashboardLayout.chats st ->
              exists group, groups !! key c = Some group /\ c ∈ group)
        /\ (forall name group,
              groups !! name = Some group ->
              group = filter (fun c => key c = name)
                             (DashboardLayout.chats st))).
Proof.
  cbn zeta. intros Hl He Hall. unfold DashboardLayout.sidebar. rewrite Hl, He.
  pose proof (chats_grouping (DashboardLayout.chats st)) as Hg.
  destruct (DashboardLayout.chatsByProject (DashboardLayout.chats st))
    as [e|groups].
  - destruct Hg as (c & Hc & Hkey & _).
    rewrite Forall_forall in Hall. destruct (Hall c Hc Hkey).
  - destruct Hg as (_ & Hgroup & Hsize). split.
    + intros Hempty. apply Hsize in Hempty. rewrite Hempty. reflexivity.
    + intros Hne. exists groups.
      destruct (size groups) as [|n] eqn:Hs.
      { exfalso. apply Hne, Hsize. reflexivity. }
      split; [reflexivity|]. split.
      * intros c Hc. specialize (Hgroup (projectKey c)).
        assert (Hin : c ∈ ofProject (projectKey c) (DashboardLayout.chats st)).
        { unfold ofProject. apply list_elem_of_filter.
          split; [reflexivity | exact Hc]. }
        destruct (ofProject _ _) as [|c0 cs] eqn:Hof; [inversion Hin|].
        exists (c0 :: cs). split; [exact Hgroup | exact Hin].
      * intros name group Hlook. rewrite Hgroup in Hlook.
        change (group = ofProject name (DashboardLayout.chats st)).
        destruct (ofProject name (DashboardLayout.chats st));
          [discriminate | congruence].
Qed.

End Sidebar.

Section Session.
Context `{Host}.

(** X22.  A 401 answer to the chat-list fetch and a logout both leave no
    token in local storage; a layout that mounts, or a conversation page
    that loads its history, with what the storage then holds sends no
    request and redirects to the login page. *)
Theorem nothing_is_sent_after_the_token_is_removed
    (project id : jsstring) (lst lst' : DashboardLayout.State)
    (hst : ChatDetailPage.State) (lw next : World ChatsBody)
    (b b' : DashboardLayout.Browser) (tok : jsstring)
    (r : Response ChatsBody) (stored : option jsstring) :
  (usable (token lw) = Some tok ->
   settles lw = Resolved r -> status r = 401 ->
   token next = tokenAfter (snd (DashboardLayout.onMount lst lw b)) (token lw) ->
   turnedAway (snd (DashboardLayout.onMount lst' next b'))
   /\ turnedAway (snd (ChatDetailPage.fetchChatHistory project id hst next)))
  /\ (token next = tokenAfter DashboardLayout.handleLogout stored ->
      turnedAway (snd (DashboardLayout.onMount lst' next b'))
      /\ turnedAway (snd (ChatDetailPage.fetchChatHistory project id hst next))).
Proof.
  assert (Hgone : token next = None ->
            turnedAway (snd (DashboardLayout.onMount lst' next b'))
            /\ turnedAway
                 (snd (ChatDetailPage.fetchChatHistory project id hst next))).
  { intros Hn. unfold DashboardLayout.onMount.
    rewrite fetchChatHistory_anonymous by (rewrite Hn; reflexivity).
    rewrite Hn. repeat split. }
  split.
  - intros Ht Hs Hc Hnext. apply Hgone. rewrite Hnext.
    unfold DashboardLayout.onMount. rewrite Ht.
    rewrite (fetchChats_unauthorized tok lst lw b r Hs Hc). reflexivity.
  - intros Hnext. apply Hgone. rewrite Hnext. reflexivity.
Qed.

(** X23.  A host counts as a preview environment exactly when
    "vercel.app", "localhost" or "127.0.0.1" occurs anywhere in its name,
    not only at its end or as the whole name; without a window nothing
    is a preview. *)
Theorem preview_hosts (win : Config.Window) :
  (Config.isPreviewEnvironment (Some win) = true <->
   occursIn (lit "vercel.app") (Config.hostname win)
   \/ occursIn (lit "localhost") (Config.hostname win)
   \/ occursIn (lit "127.0.0.1") (Config.hostname win))
  /\ Config.isPreviewEnvironment None = false.
Proof.
  split; [|reflexivity].
  unfold Config.isPreviewEnvironment, occursIn.
  rewrite !orb_true_iff, !includes_spec. tauto.
Qed.

End Session.

(* ===================================================================== *)
(** * The further properties on concrete inputs *)
(* ===================================================================== *)

Section ConcreteFurther.
#[local] Existing Instance sampleHost.

(** X1 at work: of two files, the first is removed; an index past the end
    removes nothing. *)
Lemma removeFile_drops_one_witness :
  let st := Sample.upload "demo" [Sample.report; SampleMore.notes] in
  UploadPage.files (UploadPage.removeFile 0 st) = [SampleMore.notes]
  /\ UploadPage.removeFile 5 st = st.
Proof.
  intros st.
  destruct (removeFile_drops_one 0 st) as [Hfirst _].
  destruct (removeFile_drops_one 5 st) as [_ Hpast].
  split; [rewrite Hfirst; reflexivity|].
  apply Hpast. simpl. lia.
Defined.

(** X2 at work: the notes are added to the report, in the dialog and by a
    drop; then the report is removed, or the notes. *)
Lemma removeFile_after_adding_witness :
  let st := Sample.upload "demo" [Sample.report] in
  UploadPage.files (UploadPage.handleFileChange (Some [SampleMore.notes]) st)
  = [Sample.report; SampleMore.notes]
  /\ UploadPage.files (fst (UploadPage.handleDrop (Some [SampleMore.notes]) st))
     = [Sample.report; SampleMore.notes]
  /\ UploadPage.files
       (UploadPage.removeFile 0
          (UploadPage.handleFileChange (Some [SampleMore.notes]) st))
     = [SampleMore.notes]
  /\ UploadPage.files
       (UploadPage.removeFile 1
          (UploadPage.handleFileChange (Some [SampleMore.notes]) st))
     = [Sample.report].
Proof.
  intros st.
  destruct (removeFile_after_adding 0 [SampleMore.notes] SampleMore.notes st)
    as (Hadded & _ & Hdropped & _ & Hcommute & _).
  destruct (removeFile_after_adding 0 [] SampleMore.notes st)
    as (_ & _ & _ & _ & _ & Hback).
  split; [rewrite Hadded; reflexivity|].
  split; [rewrite Hdropped; reflexivity|].
  split; [rewrite Hcommute by (simpl; lia); reflexivity|].
  exact Hback.
Defined.

(** X3 at work: a name of spaces, and a name without files, while nobody
    is logged in. *)
Lemma upload_validation_witness :
  let unnamed := Sample.upload "  " [Sample.report] in
  let empty := Sample.upload "demo" [] in
  (map title (toasts (snd (UploadPage.handleSubmit unnamed Sample.anonymous)))
   = [lit "Project name required"]
   /\ redirects (snd (UploadPage.handleSubmit unnamed Sample.anonymous)) = [])
  /\ (map title (toasts (snd (UploadPage.handleSubmit empty Sample.anonymous)))
      = [lit "No files selected"]
      /\ redirects (snd (UploadPage.handleSubmit empty Sample.anonymous)) = []).
Proof.
  intros unnamed empty.
  destruct (upload_validation unnamed Sample.anonymous) as [Hname _].
  destruct (upload_validation empty Sample.anonymous) as [_ Hfiles].
  destruct (Hname eq_refl) as (_ & Htoast & _ & Hstay).
  destruct (Hfiles eq_refl eq_refl) as (_ & Htoast' & _ & Hstay').
  repeat split; assumption.
Defined.

(** X4 at work: the back end answers 200 with a message. *)
Lemma upload_succeeds_witness :
  let st := Sample.upload "demo" [Sample.report] in
  let data := JObj [(lit "message", JStr (lit "1 file ingested"))] in
  UploadPage.handleSubmit st (Sample.replying data)
  = (st,
     [PreventDefault;
      Fetch (UploadPage.ingestRequest (lit "t0k3n") st);
      Toast {| title := lit "Upload successful";
               description := JStr (lit "1 file ingested");
               variant := None |};
      RouterPush (lit "/dashboard/chat/demo")]).
Proof.
  intros st data.
  refine (upload_succeeds st (lit "t0k3n") Sample.tick 200 data
            (JStr (lit "1 file ingested")) _ _ _ _ _).
  - reflexivity.
  - discriminate.
  - discriminate.
  - lia.
  - reflexivity.
Defined.

(** X5 at work: the upload never reaches the back end; then the back end
    refuses it with a [detail] that is a string, and with one that cannot
    be converted to a string. *)
Lemma upload_fails_witness :
  let st := Sample.upload "demo" [Sample.report] in
  let refusing :=
    answering (lit "t0k3n") Sample.tick 500
      (JObj [(lit "detail", JStr (lit "Storage unavailable"))]) in
  let garbled :=
    answering (lit "t0k3n") Sample.tick 422
      (JObj [(lit "detail", JArr [JObj [(lit "toString", JNum 1);
                                       (lit "msg", JStr (lit "no file"))]])]) in
  (fst (UploadPage.handleSubmit st Sample.offline) = st
   /\ toasts (snd (UploadPage.handleSubmit st Sample.offline))
      = [uploadFailed (lit "Failed to fetch")]
   /\ redirects (snd (UploadPage.handleSubmit st Sample.offline)) = []
   /\ requests (snd (UploadPage.handleSubmit st Sample.offline))
      = [UploadPage.ingestRequest (lit "t0k3n") st])
  /\ toasts (snd (UploadPage.handleSubmit st refusing))
     = [{| title := lit "Upload failed";
           description := JStr (lit "Storage unavailable");
           variant := Some (lit "destructive") |}]
  /\ toasts (snd (UploadPage.handleSubmit st garbled))
     = [{| title := lit "Upload failed";
           description :=
             JStr (lit "Cannot convert object to primitive value");
           variant := Some (lit "destructive") |}].
Proof.
  intros st refusing garbled.
  split; [|split].
  - refine (upload_fails st Sample.offline (lit "t0k3n")
              (lit "Failed to fetch") _ _ _ _).
    + reflexivity.
    + discriminate.
    + reflexivity.
    + reflexivity.
  - refine (proj1 (proj2 (upload_fails st refusing (lit "t0k3n")
                            (lit "Storage unavailable") _ _ _ _))).
    + reflexivity.
    + discriminate.
    + reflexivity.
    + reflexivity.
  - refine (proj1 (proj2 (upload_fails st garbled (lit "t0k3n")
                            (lit "Cannot convert object to primitive value")
                            _ _ _ _))).
    + reflexivity.
    + discriminate.
    + reflexivity.
    + reflexivity.
Defined.

(** X6 at work: a question asked while nobody is logged in, and one asked
    while the back end is out of reach. *)
Lemma submission_appends_witness :
  let st := Sample.asking "What is X?" in
  let dst := Sample.conversation "What is X?" in
  ChatCore.messages
    (fst (ChatPage.handleSubmit (lit "demo") st Sample.anonymous))
  = [question Sample.anonymous (lit "What is X?")]
  /\ (exists content,
        ChatCore.messages
          (ChatDetailPage.chat
             (fst (ChatDetailPage.handleSubmit (lit "demo") (lit "c-17") dst
                     Sample.offline)))
        = [question Sample.offline (lit "What is X?");
           reply Sample.offline content]).
Proof.
  intros st dst.
  destruct (submission_appends (lit "demo") (lit "c-17") st dst
              Sample.anonymous) as [Hpage _].
  destruct (submission_appends (lit "demo") (lit "c-17") st dst
              Sample.offline) as [_ Hconversation].
  destruct (Hpage eq_refl) as (_ & _ & Hquestion).
  destruct (Hconversation eq_refl) as (_ & _ & _ & Hboth).
  split; [exact Hquestion | exact Hboth].
Defined.

(** X7 at work: a 422 with two validation errors, and a 422 whose second
    error has a property named [toString]. *)
Lemma validation_errors_are_not_shown_witness :
  let shown := errorToast (lit "[object Object],[object Object]") in
  let odd :=
    answering (lit "t0k3n") Sample.tick 422
      (validationBody [[(lit "msg", JStr (lit "field required"))];
                       [(lit "toString", JNum 1)]]) in
  (toasts (snd (ChatPage.handleSubmit (lit "demo")
                  (Sample.asking "What is X?") SampleMore.rejecting))
   = [shown]
   /\ toasts (snd (ChatDetailPage.handleSubmit (lit "demo") (lit "c-17")
                     (Sample.conversation "What is X?") SampleMore.rejecting))
      = [shown]
   /\ toasts (snd (UploadPage.handleSubmit
                     (Sample.upload "demo" [Sample.report])
                     SampleMore.rejecting))
      = [uploadFailed (lit "[object Object],[object Object]")])
  /\ toasts (snd (ChatPage.handleSubmit (lit "demo")
                    (Sample.asking "What is X?") odd))
     = [errorToast (lit "Cannot convert object to primitive value")]
  /\ toasts (snd (UploadPage.handleSubmit
                    (Sample.upload "demo" [Sample.report]) odd))
     = [uploadFailed (lit "Cannot convert object to primitive value")].
Proof.
  intros shown odd.
  destruct (validation_errors_are_not_shown
              (lit "demo") (lit "c-17") (Sample.asking "What is X?")
              (Sample.conversation "What is X?")
              (Sample.upload "demo" [Sample.report])
              (lit "t0k3n") Sample.tick 422
              [[(lit "msg", JStr (lit "field required"))];
               [(lit "msg", JStr (lit "field required"))]]
              (lit "[object Object],[object Object]"))
    as (Hpage & Hconversation & Hupload).
  { discriminate. }
  { lia. }
  { left. split; [|reflexivity].
    repeat (constructor;
            [apply (bool_decide_unpack _); vm_compute; exact I|]).
    constructor. }
  destruct (validation_errors_are_not_shown
              (lit "demo") (lit "c-17") (Sample.asking "What is X?")
              (Sample.conversation "What is X?")
              (Sample.upload "demo" [Sample.report])
              (lit "t0k3n") Sample.tick 422
              [[(lit "msg", JStr (lit "field required"))];
               [(lit "toString", @JNum sampleHost 1)]]
              (lit "Cannot convert object to primitive value"))
    as (Hpage' & _ & Hupload').
  { discriminate. }
  { lia. }
  { right. split; [|reflexivity].
    apply Exists_cons_tl, Exists_cons_hd. apply list_elem_of_here. }
  split.
  { split; [exact (Hpage eq_refl)|].
    split; [exact (Hconversation eq_refl)|].
    apply Hupload; [reflexivity | discriminate]. }
  split; [exact (Hpage' eq_refl)|].
  apply Hupload'; [reflexivity | discriminate].
Defined.

(** X8 at work: the back end answers the history load with a 500. *)
Lemma history_load_never_leaves_the_page_empty_witness :
  ChatCore.messages
    (ChatDetailPage.chat
       (fst (ChatDetailPage.fetchChatHistory (lit "demo") (lit "c-17")
               (Sample.conversation "") (Sample.listing 500 BodyNull))))
  <> [].
Proof.
  refine (proj1 (history_load_never_leaves_the_page_empty
                   (lit "demo") (lit "c-17") (Sample.conversation "")
                   (Sample.listing 500 BodyNull) (lit "t0k3n") _)).
  reflexivity.
Defined.

Lemma twoTurns_datable : datable Sample.twoTurns.
Proof. right. eexists. vm_compute. reflexivity. Qed.

(** X9 at work: the stored conversation of two turns. *)
Lemma replayed_messages_have_distinct_ids_witness :
  let shown :=
    ChatCore.messages
      (ChatDetailPage.chat
         (fst (ChatDetailPage.fetchChatHistory (lit "demo") (lit "c-17")
                 (Sample.conversation "")
                 (Sample.listing 200 (BodyObject (Some [Sample.twoTurns])))))) in
  map msg_id shown
  = [lit "user-0"; lit "assistant-0"; lit "user-1"; lit "assistant-1"]
  /\ length shown = 4%nat
  /\ NoDup (map msg_id shown).
Proof.
  refine (replayed_messages_have_distinct_ids
            (lit "demo") (lit "c-17") (Sample.conversation "")
            (Sample.listing 200 (BodyObject (Some [Sample.twoTurns])))
            (lit "t0k3n")
            {| status := 200;
               json := inr (BodyObject (Some [Sample.twoTurns])) |}
            [Sample.twoTurns] Sample.twoTurns _ _ _ _ _ _ _).
  - reflexivity.
  - reflexivity.
  - reflexivity.
  - reflexivity.
  - reflexivity.
  - discriminate.
  - apply twoTurns_datable.
Defined.

(** X10 at work: the stored timestamp reads "yesterday". *)
Lemma unreadable_timestamp_hides_the_history_witness :
  let body := BodyObject (Some [SampleMore.undated]) in
  let run := ChatDetailPage.fetchChatHistory (lit "demo") (lit "c-18")
               (Sample.conversation "") (Sample.listing 200 body) in
  ChatCore.messages (ChatDetailPage.chat (fst run))
  = [ChatDetailPage.welcome (lit "demo") (Sample.tick 0)]
  /\ toasts (snd run) = [errorToast (lit "Failed to load chat history")].
Proof.
  refine (unreadable_timestamp_hides_the_history
            (lit "demo") (lit "c-18") (Sample.conversation "")
            (Sample.listing 200 (BodyObject (Some [SampleMore.undated])))
            (lit "t0k3n")
            {| status := 200;
               json := inr (BodyObject (Some [SampleMore.undated])) |}
            [SampleMore.undated] SampleMore.undated _ _ _ _ _ _ _ _).
  - reflexivity.
  - reflexivity.
  - reflexivity.
  - reflexivity.
  - reflexivity.
  - discriminate.
  - discriminate.
  - reflexivity.
Defined.

(** X11 at work: the body is the array that holds the conversation
    asked for. *)
Lemma bare_array_is_read_by_the_layout_only_witness :
  let w := Sample.listing 200 (BodyArray [Sample.twoTurns]) in
  let here := Sample.at_ "rag.example.com" "/dashboard/chat/demo/c-17" in
  (ChatCore.messages
     (ChatDetailPage.chat
        (fst (ChatDetailPage.fetchChatHistory (lit "demo") (lit "c-17")
                (Sample.conversation "") w)))
   = [ChatDetailPage.welcome (lit "demo") (Sample.tick 0)]
   /\ toasts (snd (ChatDetailPage.fetchChatHistory (lit "demo") (lit "c-17")
                     (Sample.conversation "") w)) = [])
  /\ (DashboardLayout.chats (fst (DashboardLayout.onMount Sample.emptyLayout w here))
      = DashboardLayout.normalizeAll w here [Sample.twoTurns] 0
      /\ toasts (snd (DashboardLayout.onMount Sample.emptyLayout w here)) = []).
Proof.
  intros w here.
  refine (bare_array_is_read_by_the_layout_only
            (lit "demo") (lit "c-17") (Sample.conversation "")
            Sample.emptyLayout w here (lit "t0k3n")
            {| status := 200; json := inr (BodyArray [Sample.twoTurns]) |}
            Sample.twoTurns [] _ _ _ _); reflexivity.
Defined.

(** X12 at work: an id that the one stored chat does not have, and the
    id that it has. *)
Lemma unknown_conversation_is_welcomed_witness :
  let w := Sample.listing 200 (BodyObject (Some [Sample.twoTurns])) in
  (ChatCore.messages
     (ChatDetailPage.chat
        (fst (ChatDetailPage.fetchChatHistory (lit "demo") (lit "c-99")
                (Sample.conversation "") w)))
   = [ChatDetailPage.welcome (lit "demo") (Sample.tick 0)]
   /\ toasts (snd (ChatDetailPage.fetchChatHistory (lit "demo") (lit "c-99")
                     (Sample.conversation "") w)) = [])
  /\ ChatDetailPage.findChat (lit "c-17") [Sample.twoTurns]
     = Some Sample.twoTurns.
Proof.
  intros w.
  destruct (unknown_conversation_is_welcomed
              (lit "demo") (lit "c-99") (Sample.conversation "") w
              (lit "t0k3n")
              {| status := 200;
                 json := inr (BodyObject (Some [Sample.twoTurns])) |}
              [Sample.twoTurns] eq_refl eq_refl eq_refl eq_refl)
    as [Hunknown _].
  destruct (unknown_conversation_is_welcomed
              (lit "demo") (lit "c-17") (Sample.conversation "") w
              (lit "t0k3n")
              {| status := 200;
                 json := inr (BodyObject (Some [Sample.twoTurns])) |}
              [Sample.twoTurns] eq_refl eq_refl eq_refl eq_refl)
    as [_ Hfirst].
  split.
  - apply Hunknown. intros [c [Hc Hid]].
    apply list_elem_of_singleton in Hc. subst c. discriminate Hid.
  - apply (Hfirst [] Sample.twoTurns []); [reflexivity | | reflexivity].
    intros [c [Hc _]]. inversion Hc.
Defined.

(** X14 at work: a chat with the numeric id 7, a stored conversation
    without id, a chat whose id is the empty string and which has no
    conversation id either, and a chat whose id is the number 0. *)
Lemma normalized_chats_are_labelled_witness :
  let w := Sample.listing 200 (BodyObject (Some [])) in
  let here := Sample.at_ "rag.example.com" "/dashboard" in
  let bare (i : option ChatId) (conversation : string) : Chat :=
    {| chat_id := i; project_name := lit "demo";
       vector_id := lit conversation; chat_history := [];
       chat_timestamp := []; last_message := None; other := [] |} in
  let listed := [bare (Some (IdNumber 7)) "c-7"%string; Sample.twoTurns;
                 bare (Some (IdString [])) EmptyString;
                 bare (Some (IdNumber 0)) "c-0"%string;
                 bare None EmptyString] in
  Forall2 (fun c c' : Chat =>
             identifies w here c (chat_id c')
             /\ last_message c' = Some (firstQuestion c))
          listed (DashboardLayout.normalizeAll w here listed 0)
  /\ map chat_id (DashboardLayout.normalizeAll w here listed 0)
     = [Some (IdNumber 7); Some (IdString (lit "c-17"));
        Some (IdString (lit "chat-1735689600000-k3x9q0zr1"));
        Some (IdString (lit "c-0"));
        Some (IdString (lit "chat-1735689600001-k3x9q0zr1"))]
  /\ map DashboardLayout.preview (DashboardLayout.normalizeAll w here listed 0)
     = [lit "New conversation"; lit "What is X?"; lit "New conversation";
        lit "New conversation"; lit "New conversation"].
Proof.
  intros w here bare listed.
  pose proof (normalized_chats_are_labelled w here listed 0) as Hall.
  split; [|split; vm_compute; reflexivity].
  eapply Forall2_impl; [exact Hall|].
  intros c c' (Hid & Hlabel & _). split; assumption.
Defined.

(** X16 at work: a short label, a long one, and none. *)
Lemma preview_is_short_witness :
  DashboardLayout.preview (SampleMore.labelled "What is X?") = lit "What is X?"
  /\ DashboardLayout.preview
       (SampleMore.labelled "What were the key financial highlights?")
     = lit "What were the key financial hi..."
  /\ DashboardLayout.preview Sample.twoTurns = lit "New Chat".
Proof.
  destruct (preview_is_short (SampleMore.labelled "What is X?"))
    as (_ & _ & Hwhole & _ & _).
  destruct (preview_is_short
              (SampleMore.labelled "What were the key financial highlights?"))
    as (_ & _ & _ & Hcut & _).
  destruct (preview_is_short Sample.twoTurns) as (_ & _ & _ & _ & Hnone).
  split; [apply (Hwhole (lit "What is X?")); [reflexivity | discriminate |]|].
  { vm_compute. lia. }
  split.
  - rewrite (Hcut (lit "What were the key financial highlights?") eq_refl);
      [reflexivity|].
    vm_compute. lia.
  - apply Hnone. left. reflexivity.
Defined.

(** X17 at work: a conversation page, and the upload page. *)
Lemma current_project_of_the_location_witness :
  DashboardLayout.currentProject
    (Sample.at_ "rag.example.com" "/dashboard/chat/demo/c-17")
  = Some (lit "demo")
  /\ DashboardLayout.currentProject
       (Sample.at_ "rag.example.com" "/dashboard/upload")
     = None.
Proof.
  destruct (current_project_of_the_location
              (Sample.at_ "rag.example.com" "/dashboard/chat/demo/c-17")
              (lit "demo") (lit "/c-17")) as [Hchat _].
  destruct (current_project_of_the_location
              (Sample.at_ "rag.example.com" "/dashboard/upload")
              (lit "demo") []) as [_ Hupload].
  split.
  - apply Hchat.
    + reflexivity.
    + apply (bool_decide_unpack _). vm_compute. exact I.
    + right. exists (lit "c-17"). reflexivity.
  - apply Hupload. apply (bool_decide_unpack _). vm_compute. exact I.
Defined.

(** X18 at work: no chat is listed, on the page of the project "demo",
    on a location without project, and on the page of a project named
    "constructor". *)
Lemma empty_list_gives_a_default_chat_witness :
  let w := Sample.listing 200 (BodyObject (Some [])) in
  let mounted (path : string) :=
    fst (DashboardLayout.onMount Sample.emptyLayout w
           (Sample.at_ "rag.example.com" path)) in
  let entry (target : string) :=
    [{| DashboardLayout.entry_label := lit "New conversation";
        DashboardLayout.entry_opens := lit target |}] in
  (DashboardLayout.chats (mounted "/dashboard/chat/demo"%string)
   = [DashboardLayout.defaultChat (lit "demo") (Sample.tick 0)]
   /\ exists groups,
        DashboardLayout.sidebar (mounted "/dashboard/chat/demo"%string)
        = inr (DashboardLayout.Menu groups)
        /\ DashboardLayout.menu groups
           = {[ lit "demo" := entry "/dashboard/chat/demo/default"%string ]})
  /\ (exists groups,
        DashboardLayout.sidebar (mounted "/dashboard/chat/"%string)
        = inr (DashboardLayout.Menu groups)
        /\ DashboardLayout.menu groups
           = {[ lit "Default Project"
                := entry "/dashboard/chat/Default Project/default"%string ]})
  /\ DashboardLayout.sidebar (mounted "/dashboard/chat/constructor"%string)
     = inl (DashboardLayout.PushIsNotAFunction (lit "constructor")).
Proof.
  intros w mounted entry.
  pose (answer := {| status := 200; json := inr (BodyObject (Some [])) |}).
  destruct (empty_list_gives_a_default_chat Sample.emptyLayout w
              (Sample.at_ "rag.example.com" "/dashboard/chat/demo")
              (lit "t0k3n") (lit "demo") [] answer (BodyObject (Some [])))
    as (Hchats & _ & _ & _ & Hmenu);
    try reflexivity.
  { apply (bool_decide_unpack _). vm_compute. exact I. }
  { left. reflexivity. }
  destruct (empty_list_gives_a_default_chat Sample.emptyLayout w
              (Sample.at_ "rag.example.com" "/dashboard/chat/")
              (lit "t0k3n") [] [] answer (BodyObject (Some [])))
    as (_ & _ & _ & _ & Hunnamed);
    try reflexivity.
  { apply not_elem_of_nil. }
  { left. reflexivity. }
  destruct (empty_list_gives_a_default_chat Sample.emptyLayout w
              (Sample.at_ "rag.example.com" "/dashboard/chat/constructor")
              (lit "t0k3n") (lit "constructor") [] answer
              (BodyObject (Some [])))
    as (_ & _ & _ & Hthrows & _);
    try reflexivity.
  { apply (bool_decide_unpack _). vm_compute. exact I. }
  { left. reflexivity. }
  destruct Hmenu as [Hsidebar Hentries].
  { apply (bool_decide_unpack _). vm_compute. exact I. }
  destruct Hunnamed as [Hsidebar' Hentries'].
  { apply (bool_decide_unpack _). vm_compute. exact I. }
  split; [split; [exact Hchats|]|split].
  - eexists. split; [exact Hsidebar | exact Hentries].
  - eexists. split; [exact Hsidebar' | exact Hentries'].
  - apply Hthrows. apply (bool_decide_unpack _). vm_compute. exact I.
Defined.

(** X19 at work: the chat list cannot be fetched, on the page of the
    project "demo". *)
Lemma failed_load_shows_the_error_panel_witness :
  let here := Sample.at_ "rag.example.com" "/dashboard/chat/demo" in
  let st' := fst (DashboardLayout.onMount mounting Sample.offline here) in
  DashboardLayout.chats st'
  = [DashboardLayout.defaultChat (lit "demo") (Sample.tick 0)]
  /\ DashboardLayout.sidebar st'
     = inr (DashboardLayout.ErrorPanel (lit "Failed to fetch")).
Proof.
  intros here.
  refine (failed_load_shows_the_error_panel Sample.offline here
            (lit "t0k3n") (lit "Failed to fetch") (lit "demo") _ _ _ _ _).
  - reflexivity.
  - reflexivity.
  - discriminate.
  - vm_compute. reflexivity.
  - vm_compute. reflexivity.
Defined.

(** X20 at work: two chats of "demo" and one without project name; then a
    chat of a project named "constructor". *)
Lemma chats_are_grouped_by_project_witness :
  let unnamed := {| chat_id := None; project_name := [];
                    vector_id := lit "c-19"; chat_history := [];
                    chat_timestamp := []; last_message := None;
                    other := [] |} in
  let odd := {| chat_id := None; project_name := lit "constructor";
                vector_id := lit "c-20"; chat_history := [];
                chat_timestamp := []; last_message := None;
                other := [] |} in
  (exists groups,
     DashboardLayout.chatsByProject
       [Sample.twoTurns; unnamed; SampleMore.undated] = inr groups
     /\ groups !! lit "demo" = Some [Sample.twoTurns; SampleMore.undated]
     /\ groups !! lit "Default Project" = Some [unnamed]
     /\ groups !! lit "other" = None)
  /\ DashboardLayout.chatsByProject [Sample.twoTurns; odd]
     = inl (DashboardLayout.PushIsNotAFunction (lit "constructor")).
Proof.
  intros unnamed odd.
  destruct (chats_are_grouped_by_project
              [Sample.twoTurns; unnamed; SampleMore.undated])
    as (_ & _ & Hgroups & _).
  destruct (chats_are_grouped_by_project
              [Sample.twoTurns; unnamed; SampleMore.undated])
    as (Hgrouped & _).
  destruct (chats_are_grouped_by_project [Sample.twoTurns; odd])
    as (_ & Hthrown & _ & Hthrows).
  split.
  - destruct Hgroups as [groups Hrun].
    { repeat (constructor;
              [apply (bool_decide_unpack _); vm_compute; exact I|]).
      constructor. }
    exists groups. split; [exact Hrun|].
    destruct (Hgrouped groups Hrun) as (_ & Hlook & _).
    rewrite !Hlook. repeat split; vm_compute; reflexivity.
  - destruct Hthrows as [e Hrun].
    { apply Exists_cons_tl, Exists_cons_hd.
      apply (bool_decide_unpack _). vm_compute. exact I. }
    rewrite Hrun. f_equal.
    destruct (Hthrown e Hrun) as (c & Hc & Hkey & ->).
    apply elem_of_cons in Hc as [->|Hc].
    { exfalso. revert Hkey. apply (bool_decide_unpack _). vm_compute.
      exact I. }
    apply list_elem_of_singleton in Hc as ->. reflexivity.
Defined.

(** X21 at work: the layout after a load that found nothing, and after
    one that found two conversations, one of them without project
    name. *)
Lemma sidebar_after_loading_witness :
  let unnamed := {| chat_id := None; project_name := [];
                    vector_id := lit "c-19"; chat_history := [];
                    chat_timestamp := []; last_message := None;
                    other := [] |} in
  DashboardLayout.sidebar (SampleMore.loaded []) = inr DashboardLayout.NoChats
  /\ exists groups,
       DashboardLayout.sidebar (SampleMore.loaded [Sample.twoTurns; unnamed])
       = inr (DashboardLayout.Menu groups)
       /\ (exists group, groups !! lit "demo" = Some group
                         /\ Sample.twoTurns ∈ group)
       /\ (exists group, groups !! lit "Default Project" = Some group
                         /\ unnamed ∈ group)
       /\ forall group, groups !! lit "demo" = Some group ->
                        group = [Sample.twoTurns].
Proof.
  intros unnamed.
  destruct (sidebar_after_loading (SampleMore.loaded []) eq_refl eq_refl)
    as [Hnone _]; [constructor|].
  destruct (sidebar_after_loading
              (SampleMore.loaded [Sample.twoTurns; unnamed])
              eq_refl eq_refl) as [_ Hmenu].
  { repeat (constructor;
            [apply (bool_decide_unpack _); vm_compute; exact I|]).
    constructor. }
  split; [exact (Hnone eq_refl)|].
  destruct Hmenu as (groups & Hshown & Hplaced & Hexact); [discriminate|].
  exists groups. split; [exact Hshown|].
  split; [apply (Hplaced Sample.twoTurns), list_elem_of_here|].
  split; [apply (Hplaced unnamed), list_elem_of_further, list_elem_of_here|].
  intros group Hgroup. exact (Hexact _ _ Hgroup).
Defined.

(** X22 at work: the layout mounts again after a 401, and after a
    logout. *)
Lemma nothing_is_sent_after_the_token_is_removed_witness :
  let here := Sample.at_ "rag.example.com" "/dashboard" in
  turnedAway (snd (DashboardLayout.onMount Sample.emptyLayout
                     Sample.anonymous here))
  /\ turnedAway (snd (ChatDetailPage.fetchChatHistory (lit "demo")
                        (lit "c-17") (Sample.conversation "")
                        Sample.anonymous)).
Proof.
  intros here.
  destruct (nothing_is_sent_after_the_token_is_removed
              (lit "demo") (lit "c-17") Sample.emptyLayout Sample.emptyLayout
              (Sample.conversation "") (Sample.listing 401 BodyNull)
              Sample.anonymous here here (lit "t0k3n")
              {| status := 401; json := inr BodyNull |}
              (Some (lit "t0k3n")))
    as [Hexpired Hlogout].
  pose proof (Hlogout eq_refl) as [_ Hhistory].
  pose proof (Hexpired eq_refl eq_refl eq_refl eq_refl) as [Hmount _].
  split; assumption.
Defined.

End ConcreteFurther.
